(** * duck_chat: the session protocol engine of [duck_chat/api.py]

    A shallow embedding of class [DuckChat]: the token ledger [vqd], the
    conversation [history], the buffered turn [get_answer] with its bounded
    retry loop, the handshake [get_vqd], the incremental turn
    [stream_answer], and the four entry points [ask_question],
    [reask_question], [ask_question_stream] and [reask_question_stream].

    Python [bytes] and [str] are both kept as [string] (a [str] is kept as
    its UTF-8 encoding, and [bytes.decode()] is the UTF-8 validity check).
    The HTTP service is a script of responses consumed one per request; every
    request and every sleep is recorded in a trace, so that "no request was
    issued" and "the request carried this token" are statements about the
    trace.  Exceptions keep the state reached when they are raised, as in
    Python: a computation returns its outcome together with the session. *)

From Stdlib Require Import List String Ascii ZArith NArith Lia Bool.
From Stdlib Require Import DecimalString.
Import ListNotations.

Local Open Scope string_scope.
Local Open Scope Z_scope.

(* ================================================================== *)
(** ** Python [bytes] and [str] operations used by the engine *)
(* ================================================================== *)

Module Bytes.

Definition LF : string := String "010" "".
Definition DQ : string := String "034" "".

(** [c in chars], for the character-set arguments of [lstrip]/[rstrip]. *)
Fixpoint mem (c : ascii) (chars : string) : bool :=
  match chars with
  | "" => false
  | String d r => Ascii.eqb c d || mem c r
  end.

(** [s.lstrip(chars)]: drops the longest prefix made of bytes of [chars]. *)
Fixpoint lstrip (chars s : string) : string :=
  match s with
  | "" => ""
  | String c r => if mem c chars then lstrip chars r else s
  end.

(** [s.rstrip(chars)]: drops the longest suffix made of bytes of [chars]. *)
Fixpoint rstrip (chars s : string) : string :=
  match s with
  | "" => ""
  | String c r =>
      match rstrip chars r with
      | "" => if mem c chars then "" else String c ""
      | r' => String c r'
      end
  end.

(** [s.startswith(p)]. *)
Definition startswith (p s : string) : bool := String.prefix p s.

(** [s[n:]] for [n >= 0]. *)
Fixpoint drop (n : nat) (s : string) : string :=
  match n, s with
  | O, _ => s
  | S _, "" => ""
  | S k, String _ r => drop k r
  end.

(** [s.split(sep)] for a non-empty [sep]: scans left to right, cuts at every
    occurrence of [sep] and resumes after it. [skip] counts the bytes of the
    separator still to be passed over, [cur] is the piece being read. *)
Fixpoint split_go (sep : string) (skip : nat) (cur s : string) : list string :=
  match s with
  | "" => [cur]
  | String c r =>
      match skip with
      | S k => split_go sep k cur r
      | O =>
          if startswith sep s
          then cur :: split_go sep (String.length sep - 1) "" r
          else split_go sep O (cur ++ String c "") r
      end
  end.

Definition split (sep s : string) : list string := split_go sep O "" s.

(** [sep.join(l)]. *)
Definition join (sep : string) (l : list string) : string := String.concat sep l.

(** The lines an [aiohttp] [StreamReader] yields under [async for]: each line
    ends after its ["\n"], the last one may lack it. *)
Fixpoint lines_go (cur s : string) : list string :=
  match s with
  | "" => match cur with "" => [] | _ => [cur] end
  | String c r =>
      if Ascii.eqb c "010"
      then (cur ++ String c "") :: lines_go "" r
      else lines_go (cur ++ String c "") r
  end.

Definition iter_lines (s : string) : list string := lines_go "" s.

(** Strict UTF-8 well-formedness: [need] continuation bytes are still
    expected, the next one within [lo..hi]. *)
Fixpoint utf8_go (need : nat) (lo hi : N) (s : string) : bool :=
  match s with
  | "" => match need with O => true | _ => false end
  | String c r =>
      let b := N_of_ascii c in
      match need with
      | S k => if (lo <=? b)%N && (b <=? hi)%N then utf8_go k 128 191 r else false
      | O =>
          if (b <? 128)%N then utf8_go 0 128 191 r
          else if (194 <=? b)%N && (b <=? 223)%N then utf8_go 1 128 191 r
          else if (b =? 224)%N then utf8_go 2 160 191 r
          else if (b =? 237)%N then utf8_go 2 128 159 r
          else if (225 <=? b)%N && (b <=? 239)%N then utf8_go 2 128 191 r
          else if (b =? 240)%N then utf8_go 3 144 191 r
          else if (241 <=? b)%N && (b <=? 243)%N then utf8_go 3 128 191 r
          else if (b =? 244)%N then utf8_go 3 128 143 r
          else false
      end
  end.

Definition utf8_valid (s : string) : bool := utf8_go 0 128 191 s.

(** [str(n)] for a Python [int]. *)
Definition str_of_int (z : Z) : string := NilZero.string_of_int (Z.to_int z).

End Bytes.

(* ================================================================== *)
(** ** The objects [msgspec.json.Decoder().decode] builds *)
(* ================================================================== *)

(** Untyped decoding yields [None], [bool], [int], [float], [str], [list]
    and [dict]. A [float] is kept as the decimal literal it was read from:
    [JFloat m e] is the double nearest to [m * 10^e]. A [dict] keeps its keys
    in insertion order, each key once. *)
#[warnings="-register-all"] Inductive json : Type :=
| JNull
| JBool (b : bool)
| JInt (z : Z)
| JFloat (m e : Z)
| JStr (s : string)
| JList (l : list json)
| JDict (d : list (string * json)).

Module Py.

(** [d[k] = v]: replaces the value of an existing key, else appends. *)
Fixpoint dict_set (d : list (string * json)) (k : string) (v : json)
  : list (string * json) :=
  match d with
  | [] => [(k, v)]
  | (k', v') :: r =>
      if String.eqb k k' then (k, v) :: r else (k', v') :: dict_set r k v
  end.

Fixpoint dict_lookup (d : list (string * json)) (k : string) : option json :=
  match d with
  | [] => None
  | (k', v) :: r => if String.eqb k k' then Some v else dict_lookup r k
  end.

(** [d.get(k, default)]. *)
Definition dict_get (d : list (string * json)) (k : string) (default : json) : json :=
  match dict_lookup d k with Some v => v | None => default end.

(** The double nearest to [m * 10^e] is [0.0] or [-0.0]: [m] is zero, or
    the value lies within half the least subnormal, [2^-1075] (a tie goes to
    the even significand, zero). *)
Definition float_is_zero (m e : Z) : bool :=
  (m =? 0) || ((e <? 0) && (Z.abs m * 2 ^ 1075 <=? 10 ^ (- e))).

(** The double nearest to [m * 10^e] is [429.0]: the neighbours of [429.0]
    are [2^-44] away and its significand is even, so this is
    [|m * 10^e - 429| <= 2^-45]. *)
Definition float_is_429 (m e : Z) : bool :=
  if 0 <=? e then m * 10 ^ e =? 429
  else Z.abs (m - 429 * 10 ^ (- e)) * 2 ^ 45 <=? 10 ^ (- e).

(** Python truth value, as tested by [or] and [if]. *)
Definition truthy (v : json) : bool :=
  match v with
  | JNull => false
  | JBool b => b
  | JInt z => negb (z =? 0)
  | JFloat m e => negb (float_is_zero m e)
  | JStr s => negb (String.eqb s "")
  | JList l => match l with [] => false | _ => true end
  | JDict d => match d with [] => false | _ => true end
  end.

(** [v == s] for a [str] literal [s]. *)
Definition eq_str (v : json) (s : string) : bool :=
  match v with JStr t => String.eqb t s | _ => false end.

(** [v == 429]: numbers compare by value across [int], [float] and [bool]
    ([True] is [1]); everything else is unequal to an [int]. *)
Definition eq_429 (v : json) : bool :=
  match v with
  | JInt z => z =? 429
  | JFloat m e => float_is_429 m e
  | _ => false
  end.

End Py.

(* ================================================================== *)
(** ** [msgspec.json.Decoder().decode]: strict RFC 8259 JSON *)
(* ================================================================== *)

(** The decoder is a library of its own; it is modelled as a total function
    in two passes, a lexer that walks the bytes once and a pushdown parser
    that walks the tokens once, so that no bound on nesting is needed. *)
Module Json.

Import Bytes Py.

Inductive token : Type :=
| TLBrace | TRBrace | TLBrack | TRBrack | TColon | TComma
| TAtom (v : json).

Inductive lmode : Type :=
| LIdle
| LStr (acc : string)
| LEsc (acc : string)
| LHex (acc : string) (hi : option N) (todo : nat) (cp : N)
| LLowEsc (acc : string) (hi : N)
| LLowU (acc : string) (hi : N)
| LNum (lexeme : string)
| LWord (lexeme : string).

Definition is_digit (c : ascii) : bool :=
  let b := N_of_ascii c in ((48 <=? b) && (b <=? 57))%N.

Definition is_ws (c : ascii) : bool := mem c (" " ++ LF ++ String "009" (String "013" "")).

Definition is_num_char (c : ascii) : bool := is_digit c || mem c "+-.eE".

Definition is_lower (c : ascii) : bool :=
  let b := N_of_ascii c in ((97 <=? b) && (b <=? 122))%N.

Definition hex_val (c : ascii) : option N :=
  let b := N_of_ascii c in
  if ((48 <=? b) && (b <=? 57))%N then Some (b - 48)%N
  else if ((97 <=? b) && (b <=? 102))%N then Some (b - 87)%N
  else if ((65 <=? b) && (b <=? 70))%N then Some (b - 55)%N
  else None.

(** The UTF-8 encoding of a code point. *)
Definition utf8_encode (cp : N) : string :=
  let byte (n : N) := ascii_of_N n in
  let cont (n : N) := byte (128 + N.land n 63)%N in
  if (cp <? 128)%N then String (byte cp) ""
  else if (cp <? 2048)%N then
    String (byte (192 + N.shiftr cp 6)%N) (String (cont cp) "")
  else if (cp <? 65536)%N then
    String (byte (224 + N.shiftr cp 12)%N)
      (String (cont (N.shiftr cp 6)) (String (cont cp) ""))
  else
    String (byte (240 + N.shiftr cp 18)%N)
      (String (cont (N.shiftr cp 12))
         (String (cont (N.shiftr cp 6)) (String (cont cp) ""))).

Fixpoint span_digits (s : string) : string * string :=
  match s with
  | String c r =>
      if is_digit c then let (d, t) := span_digits r in (String c d, t) else ("", s)
  | "" => ("", "")
  end.

Fixpoint digits_value (acc : Z) (s : string) : Z :=
  match s with
  | "" => acc
  | String c r => digits_value (10 * acc + (Z.of_N (N_of_ascii c) - 48)) r
  end.

(** The integer part of a number: ["0"], or digits not starting with ["0"]. *)
Definition int_part_ok (d : string) : bool :=
  match d with
  | "" => false
  | String c "" => true
  | String c _ => negb (Ascii.eqb c "0")
  end.

(** A float too large for a double (it would round to infinity) is
    "number out of range". *)
Definition float_overflows (m e : Z) : bool :=
  let bound := 2 ^ 1024 - 2 ^ 970 in
  if 0 <=? e then bound <=? Z.abs m * 10 ^ e
  else bound * 10 ^ (- e) <=? Z.abs m.

Definition mk_float (m e : Z) : option json :=
  if float_overflows m e then None else Some (JFloat m e).

(** The exponent part, after the [e] or [E]. *)
Definition parse_exp (s : string) : option Z :=
  let '(neg, s1) :=
    match s with
    | String c r =>
        if Ascii.eqb c "-" then (true, r)
        else if Ascii.eqb c "+" then (false, r) else (false, s)
    | "" => (false, s)
    end in
  match span_digits s1 with
  | ("", _) => None
  | (d, "") => Some (if neg then - digits_value 0 d else digits_value 0 d)
  | _ => None
  end.

(** A number literal: [-? int (. digits)? ([eE] [+-]? digits)?]. *)
Definition parse_number (lexeme : string) : option json :=
  let '(neg, s0) :=
    match lexeme with
    | String c r => if Ascii.eqb c "-" then (true, r) else (false, lexeme)
    | "" => (false, lexeme)
    end in
  let sign (z : Z) := if neg then - z else z in
  let (ip, s1) := span_digits s0 in
  if negb (int_part_ok ip) then None else
  match s1 with
  | "" => Some (JInt (sign (digits_value 0 ip)))
  | String c r =>
      if Ascii.eqb c "." then
        match span_digits r with
        | ("", _) => None
        | (fp, "") =>
            mk_float (sign (digits_value 0 (ip ++ fp))) (- Z.of_nat (String.length fp))
        | (fp, String c2 r2) =>
            if Ascii.eqb c2 "e" || Ascii.eqb c2 "E" then
              match parse_exp r2 with
              | Some x =>
                  mk_float (sign (digits_value 0 (ip ++ fp)))
                           (x - Z.of_nat (String.length fp))
              | None => None
              end
            else None
        end
      else if Ascii.eqb c "e" || Ascii.eqb c "E" then
        match parse_exp r with
        | Some x => mk_float (sign (digits_value 0 ip)) x
        | None => None
        end
      else None
  end.

Definition parse_word (lexeme : string) : option json :=
  if String.eqb lexeme "true" then Some (JBool true)
  else if String.eqb lexeme "false" then Some (JBool false)
  else if String.eqb lexeme "null" then Some JNull
  else None.

(** One byte read outside any literal. *)
Definition lex_idle (c : ascii) : option (list token * lmode) :=
  if is_ws c then Some ([], LIdle)
  else if Ascii.eqb c "{" then Some ([TLBrace], LIdle)
  else if Ascii.eqb c "}" then Some ([TRBrace], LIdle)
  else if Ascii.eqb c "[" then Some ([TLBrack], LIdle)
  else if Ascii.eqb c "]" then Some ([TRBrack], LIdle)
  else if Ascii.eqb c ":" then Some ([TColon], LIdle)
  else if Ascii.eqb c "," then Some ([TComma], LIdle)
  else if Ascii.eqb c "034" then Some ([], LStr "")
  else if is_digit c || Ascii.eqb c "-" then Some ([], LNum (String c ""))
  else if is_lower c then Some ([], LWord (String c ""))
  else None.

(** A literal that ends because the byte [c] cannot continue it. *)
Definition lex_close (atom : option json) (c : ascii) : option (list token * lmode) :=
  match atom, lex_idle c with
  | Some v, Some (ts, m) => Some (TAtom v :: ts, m)
  | _, _ => None
  end.

Definition lex_escape (acc : string) (c : ascii) : option (list token * lmode) :=
  let lit (d : ascii) := Some ([] : list token, LStr (acc ++ String d "")) in
  if Ascii.eqb c "034" then lit "034"%char
  else if Ascii.eqb c "\" then lit "\"%char
  else if Ascii.eqb c "/" then lit "/"%char
  else if Ascii.eqb c "b" then lit "008"%char
  else if Ascii.eqb c "f" then lit "012"%char
  else if Ascii.eqb c "n" then lit "010"%char
  else if Ascii.eqb c "r" then lit "013"%char
  else if Ascii.eqb c "t" then lit "009"%char
  else if Ascii.eqb c "u" then Some ([], LHex acc None 4 0%N)
  else None.

(** The code point of a completed [\uXXXX], alone or closing a surrogate pair. *)
Definition lex_codepoint (acc : string) (hi : option N) (cp : N) : option (list token * lmode) :=
  let is_hi := ((55296 <=? cp) && (cp <=? 56319))%N in
  let is_lo := ((56320 <=? cp) && (cp <=? 57343))%N in
  match hi with
  | None =>
      if is_hi then Some ([], LLowEsc acc cp)
      else if is_lo then None
      else Some ([], LStr (acc ++ utf8_encode cp))
  | Some h =>
      if is_lo
      then Some ([], LStr (acc ++ utf8_encode (65536 + (h - 55296) * 1024 + (cp - 56320))%N))
      else None
  end.

Definition lex_step (m : lmode) (c : ascii) : option (list token * lmode) :=
  match m with
  | LIdle => lex_idle c
  | LStr acc =>
      if Ascii.eqb c "034" then Some ([TAtom (JStr acc)], LIdle)
      else if Ascii.eqb c "\" then Some ([], LEsc acc)
      else if (N_of_ascii c <? 32)%N then None
      else Some ([], LStr (acc ++ String c ""))
  | LEsc acc => lex_escape acc c
  | LHex acc hi todo cp =>
      match hex_val c, todo with
      | Some h, 1%nat => lex_codepoint acc hi (16 * cp + h)%N
      | Some h, S k => Some ([], LHex acc hi k (16 * cp + h)%N)
      | _, _ => None
      end
  | LLowEsc acc hi => if Ascii.eqb c "\" then Some ([], LLowU acc hi) else None
  | LLowU acc hi => if Ascii.eqb c "u" then Some ([], LHex acc (Some hi) 4 0%N) else None
  | LNum lexeme =>
      if is_num_char c then Some ([], LNum (lexeme ++ String c ""))
      else lex_close (parse_number lexeme) c
  | LWord lexeme =>
      if is_lower c then Some ([], LWord (lexeme ++ String c ""))
      else lex_close (parse_word lexeme) c
  end.

(** End of input. *)
Definition lex_end (m : lmode) : option (list token) :=
  match m with
  | LIdle => Some []
  | LNum lexeme => option_map (fun v => [TAtom v]) (parse_number lexeme)
  | LWord lexeme => option_map (fun v => [TAtom v]) (parse_word lexeme)
  | _ => None
  end.

Fixpoint lex_go (m : lmode) (s : string) : option (list token) :=
  match s with
  | "" => lex_end m
  | String c r =>
      match lex_step m c with
      | Some (ts, m') => option_map (app ts) (lex_go m' r)
      | None => None
      end
  end.

(** The containers being built, innermost first. *)
Inductive frame : Type :=
| FList (items : list json)
| FDict (d : list (string * json)) (key : option string).

Inductive pstate : Type :=
| PVal (first : bool)
| PKey (first : bool)
| PColon
| PAfter
| PDone (v : json).

(** A value is complete: it goes into the innermost open container. *)
Definition complete (v : json) (stack : list frame) : option (list frame * pstate) :=
  match stack with
  | [] => Some ([], PDone v)
  | FList items :: r => Some (FList (v :: items) :: r, PAfter)
  | FDict d (Some k) :: r => Some (FDict (dict_set d k v) None :: r, PAfter)
  | FDict _ None :: _ => None
  end.

Definition parse_step (stack : list frame) (st : pstate) (t : token)
  : option (list frame * pstate) :=
  match st, t with
  | PVal _, TAtom v => complete v stack
  | PVal _, TLBrack => Some (FList [] :: stack, PVal true)
  | PVal _, TLBrace => Some (FDict [] None :: stack, PKey true)
  | PVal true, TRBrack =>
      match stack with FList [] :: r => complete (JList []) r | _ => None end
  | PAfter, TComma =>
      match stack with
      | FList _ :: _ => Some (stack, PVal false)
      | FDict _ None :: _ => Some (stack, PKey false)
      | _ => None
      end
  | PAfter, TRBrack =>
      match stack with FList items :: r => complete (JList (rev items)) r | _ => None end
  | PAfter, TRBrace =>
      match stack with FDict d None :: r => complete (JDict d) r | _ => None end
  | PKey _, TAtom (JStr k) =>
      match stack with FDict d None :: r => Some (FDict d (Some k) :: r, PColon) | _ => None end
  | PKey true, TRBrace =>
      match stack with FDict d None :: r => complete (JDict d) r | _ => None end
  | PColon, TColon => Some (stack, PVal false)
  | _, _ => None
  end.

Fixpoint parse_go (stack : list frame) (st : pstate) (ts : list token) : option json :=
  match ts with
  | [] => match st with PDone v => Some v | _ => None end
  | t :: r =>
      match parse_step stack st t with
      | Some (stack', st') => parse_go stack' st' r
      | None => None
      end
  end.

(** [decode(buf)]: [None] stands for [msgspec.DecodeError]. *)
Definition decode (buf : string) : option json :=
  if utf8_valid buf then
    match lex_go LIdle buf with
    | Some ts => parse_go [] (PVal false) ts
    | None => None
    end
  else None.

(** The parser is inside the outermost array, or has just closed it. *)
Definition in_array (stack : list frame) (st : pstate) : Prop :=
  match st with
  | PDone v => stack = [] /\ exists l, v = JList l
  | _ => exists items, last stack (FDict [] None) = FList items
  end.

End Json.

(* ================================================================== *)
(** ** [models.py] and [exceptions.py] *)
(* ================================================================== *)

Inductive Role : Type := user | assistant.

Record Message : Type := mkMessage { role : Role; content : string }.

(** Modelled from the spec: [models.py] is not part of the sources at hand.
    The selected model identifier is an opaque name. *)
Definition ModelType : Type := string.

Record History : Type := mkHistory { model : ModelType; messages : list Message }.

(** Modelled from the spec: [History.add_input] of [models.py], "appends a
    user Message", an in-place mutation with no other effect. *)
Definition add_input (h : History) (text : string) : History :=
  mkHistory (model h) (messages h ++ [mkMessage user text]).

(** Modelled from the spec: [History.add_answer] of [models.py], "appends an
    assistant Message". *)
Definition add_answer (h : History) (text : string) : History :=
  mkHistory (model h) (messages h ++ [mkMessage assistant text]).

(** The argument an exception is raised with. [MsgStrOf x] is [str(x)] of a
    decoded record [x], kept unprinted; [MsgCodec p b] is [p] followed by the
    text of the [UnicodeDecodeError] that [b.decode()] raises. *)
Inductive errmsg : Type :=
| MsgStr (s : string)
| MsgVal (v : json)
| MsgStrOf (x : json)
| MsgCodec (prefix b : string).

(** The exceptions of [exceptions.py] and the built-in ones the engine can
    raise. [ClientError] is the transport failing to deliver a response. *)
Inductive pyexc : Type :=
| DuckChatException (m : errmsg)
| RatelimitException (m : errmsg)
| ConversationLimitException (m : errmsg)
| GeneratorExit (m : string)
| UnicodeDecodeError (b : string)
| AttributeError
| TypeError
| IndexError
| ClientError.

(* ================================================================== *)
(** ** The session object and the service *)
(* ================================================================== *)

Record Response : Type := mkResponse {
  status : Z;
  headers : list (string * string);
  body : string
}.

(** What the session does to the outside: the handshake GET, a turn POST
    with its [x-vqd-4] header and the history it encodes, a retry sleep. *)
Inductive Event : Type :=
| EvGet
| EvPost (token : string) (payload : History)
| EvSleep (seconds : Z).

(** The fields of [DuckChat] that the engine reads and writes. *)
Record DuckChat : Type := mkDuckChat {
  vqd : list string;
  history : History;
  max_retries : Z;
  delay : Z
}.

Record Net : Type := mkNet { script : list Response; trace : list Event }.

Definition State : Type := DuckChat * Net.

(** A method: it ends in a value or an exception, and in either case in a
    state. *)
Definition M (A : Type) : Type := State -> (pyexc + A) * State.

Definition ret {A} (a : A) : M A := fun s => (inr a, s).

Definition raise {A} (e : pyexc) : M A := fun s => (inl e, s).

Definition bind {A B} (m : M A) (k : A -> M B) : M B :=
  fun s => match m s with
           | (inr a, s') => k a s'
           | (inl e, s') => (inl e, s')
           end.

Declare Scope py_scope.
Delimit Scope py_scope with py.
Notation "x <- m ;; k" := (bind m (fun x => k))
  (at level 61, m at next level, right associativity) : py_scope.
Notation "m ;; k" := (bind m (fun _ => k))
  (at level 61, right associativity) : py_scope.
Local Open Scope py_scope.

Definition self : M DuckChat := fun s => (inr (fst s), s).

Definition set_vqd (v : list string) : M unit :=
  fun '(d, n) => (inr tt, (mkDuckChat v (history d) (max_retries d) (delay d), n)).

Definition set_history (h : History) : M unit :=
  fun '(d, n) => (inr tt, (mkDuckChat (vqd d) h (max_retries d) (delay d), n)).

Definition set_messages (l : list Message) : M unit :=
  d <- self ;; set_history (mkHistory (model (history d)) l).

Definition emit (e : Event) : M unit :=
  fun '(d, n) => (inr tt, (d, mkNet (script n) (trace n ++ [e]))).

(** The next response of the service; the transport fails when there is none. *)
Definition receive : M Response :=
  fun '(d, n) =>
    match script n with
    | r :: rest => (inr r, (d, mkNet rest (trace n)))
    | [] => (inl ClientError, (d, n))
    end.

(** [self._session.post(".../duckchat/v1/chat", headers={"x-vqd-4": token},
    data=encode(self.history))]. *)
Definition http_post (token : string) : M Response :=
  d <- self ;; emit (EvPost token (history d)) ;; receive.

(** [self._session.get(".../duckchat/v1/status", headers={"x-vqd-accept": "1"})]. *)
Definition http_get : M Response := emit EvGet ;; receive.

(** [asyncio.sleep(seconds)]. *)
Definition sleep (seconds : Z) : M unit := emit (EvSleep seconds).

(** [b.decode()]. *)
Definition bytes_decode (b : string) : M string :=
  if Bytes.utf8_valid b then ret b else raise (UnicodeDecodeError b).

(** Header names compare without case, as in [aiohttp]'s [CIMultiDict]. *)
Definition lower_ascii (c : ascii) : ascii :=
  let b := N_of_ascii c in
  if ((65 <=? b) && (b <=? 90))%N then ascii_of_N (b + 32) else c.

Fixpoint lower (s : string) : string :=
  match s with
  | "" => ""
  | String c r => String (lower_ascii c) (lower r)
  end.

Fixpoint header_lookup (hs : list (string * string)) (name : string) : option string :=
  match hs with
  | [] => None
  | (k, v) :: r => if String.eqb (lower k) (lower name) then Some v else header_lookup r name
  end.

(** [response.headers.get(name, default)]. *)
Definition header_get (hs : list (string * string)) (name default : string) : string :=
  match header_lookup hs name with Some v => v | None => default end.

(** [l[:k]] for any Python [int] [k]: a negative bound counts from the end. *)
Definition slice_to {A} (l : list A) (k : Z) : list A :=
  if 0 <=? k then firstn (Z.to_nat k) l
  else firstn (Z.to_nat (Z.of_nat (List.length l) + k)) l.

(** ["".join(parts)]: every part must be a [str]. *)
Fixpoint join_parts (parts : list json) : option string :=
  match parts with
  | [] => Some ""
  | JStr s :: r => option_map (append s) (join_parts r)
  | _ :: _ => None
  end.

Definition join_message (parts : list json) : M string :=
  match join_parts parts with Some s => ret s | None => raise TypeError end.

(* ================================================================== *)
(** ** [class DuckChat] *)
(* ================================================================== *)

Import Bytes Py.

(** [self.vqd[-1]]. *)
Definition last_token : M string :=
  d <- self ;;
  match rev (vqd d) with
  | t :: _ => ret t
  | [] => raise IndexError
  end.

(** [self.vqd.append(token)]. *)
Definition vqd_append (token : string) : M unit :=
  d <- self ;; set_vqd (vqd d ++ [token]).

(** What one pass of the body of [for x in data] does with the record [x]. *)
Inductive verdict : Type :=
| Content (m : json)      (* [message.append(x.get("message", ""))] *)
| SoftBlock               (* [has_error = True; break] *)
| Raises (e : pyexc).

(** [x.get("type", "") or str(x)]. *)
Definition err_message_of (x : json) (d : list (string * json)) : errmsg :=
  let t := dict_get d "type" (JStr "") in
  if truthy t then MsgVal t else MsgStrOf x.

(** [err_message == code]: [str(x)] of a [dict] opens with a brace, so it is
    never one of the error codes. *)
Definition err_message_is (m : errmsg) (code : string) : bool :=
  match m with
  | MsgVal v => eq_str v code
  | MsgStr s => String.eqb s code
  | MsgStrOf _ | MsgCodec _ _ => false
  end.

(** Lines 107-118 of [get_answer]: the body of the loop over the records. *)
Definition classify (x : json) : verdict :=
  match x with
  | JDict d =>
      if eq_str (dict_get d "action" JNull) "error" then
        let err_message := err_message_of x d in
        if err_message_is err_message "ERR_BN_LIMIT" then SoftBlock
        else if eq_429 (dict_get d "status" JNull) then
          if err_message_is err_message "ERR_CONVERSATION_LIMIT"
          then Raises (ConversationLimitException err_message)
          else Raises (RatelimitException err_message)
        else Raises (DuckChatException err_message)
      else Content (dict_get d "message" (JStr ""))
  | _ => Raises AttributeError
  end.

(** The outcome of the whole loop: the collected [message] list when it runs
    to its end with [has_error] unset, else the break or the exception. *)
Inductive scan_result : Type :=
| Collected (message : list json)
| Blocked
| Failed (e : pyexc).

Fixpoint scan (data : list json) (message : list json) : scan_result :=
  match data with
  | [] => Collected message
  | x :: rest =>
      match classify x with
      | Content m => scan rest (message ++ [m])
      | SoftBlock => Blocked
      | Raises e => Failed e
      end
  end.

(** The bytes handed to the decoder by the buffered framer (lines 96-100). *)
Definition frame_body (res : string) : string :=
  "[" ++ join ","
           (split (LF ++ LF ++ "data: ")
              (rstrip (LF ++ LF ++ "data: [DONE][LIMIT_CONVERSATION]" ++ LF)
                 (lstrip "data: " res)))
      ++ "]".

(** One pass of the [while] loop of [get_answer], up to [attempt += 1]:
    [Some answer] is [return answer], [None] is a soft block. What decodes
    from the framed body is always a list ([frame_body_is_list] below), so the
    branch for another value is there for totality only. *)
Definition get_answer_attempt : M (option string) :=
  token <- last_token ;;
  response <- http_post token ;;
  let res := body response in
  if status response =? 429 then
    text <- bytes_decode res ;; raise (RatelimitException (MsgStr text))
  else
    match Json.decode (frame_body res) with
    | None =>
        text <- bytes_decode res ;;
        raise (DuckChatException (MsgStr ("Couldn't parse body=" ++ text)))
    | Some (JList data) =>
        match scan data [] with
        | Failed e => raise e
        | Blocked => ret None
        | Collected message =>
            vqd_append (header_get (headers response) "x-vqd-4" "") ;;
            answer <- join_message message ;;
            ret (Some answer)
        end
    | Some _ => raise TypeError
    end.

(** The [while attempt < self.max_retries] loop, by the number of passes
    left, [max_retries - attempt]. *)
Fixpoint get_answer_loop (remaining : nat) : M string :=
  match remaining with
  | O =>
      d <- self ;;
      raise (DuckChatException
               (MsgStr ("ERR_BN_LIMIT after " ++ str_of_int (max_retries d) ++ " attempts")))
  | S k =>
      r <- get_answer_attempt ;;
      match r with
      | Some answer => ret answer
      | None =>
          d <- self ;;
          (match k with O => ret tt | S _ => sleep (delay d) end) ;;
          get_answer_loop k
      end
  end.

Definition get_answer : M string :=
  d <- self ;; get_answer_loop (Z.to_nat (max_retries d)).

(** [get_vqd]: the handshake. *)
Definition get_vqd : M unit :=
  response <- http_get ;;
  if status response =? 429 then
    let res := body response in
    match Json.decode res with
    | Some (JDict d) => raise (RatelimitException (MsgVal (dict_get d "type" (JStr ""))))
    | _ => text <- bytes_decode res ;; raise (DuckChatException (MsgStr text))
    end
  else
    match header_lookup (headers response) "x-vqd-4" with
    | Some token => vqd_append token
    | None => raise (DuckChatException (MsgStr "No x-vqd-4"))
    end.

(** [if not self.vqd: await self.get_vqd()]. *)
Definition ensure_vqd : M unit :=
  d <- self ;;
  match vqd d with [] => get_vqd | _ :: _ => ret tt end.

Definition history_add_input (query : string) : M unit :=
  d <- self ;; set_history (add_input (history d) query).

Definition history_add_answer (message : string) : M unit :=
  d <- self ;; set_history (add_answer (history d) message).

Definition ask_question (query : string) : M string :=
  ensure_vqd ;;
  history_add_input query ;;
  message <- get_answer ;;
  history_add_answer message ;;
  ret message.

(** Lines 187-197, shared by [reask_question] and [reask_question_stream]:
    [true] when the history is empty, after the ledger was cut. *)
Definition rewind (num : Z) : M bool :=
  d <- self ;;
  let len := Z.of_nat (List.length (vqd d)) in
  let num := if len <=? num then len - 1 else num in
  set_vqd (slice_to (vqd d) num) ;;
  d <- self ;;
  match messages (history d) with
  | [] => ret true
  | first :: _ =>
      match vqd d with
      | [] => get_vqd ;; set_messages [first]
      | _ :: _ =>
          let num := Z.min num (Z.of_nat (List.length (vqd d))) in
          set_messages (slice_to (messages (history d)) (num * 2 - 1))
      end ;;
      ret false
  end.

Definition reask_question (num : Z) : M string :=
  empty <- rewind num ;;
  if empty : bool then ret ""
  else
    message <- get_answer ;;
    history_add_answer message ;;
    ret message.

(** *** The streaming variants

    An async generator, run by a consumer that takes every fragment: the
    fragments yielded, in order, then how the generator ended. Fragments
    yielded before an exception have reached the consumer. *)
Definition Gen : Type := State -> (list json * (pyexc + unit)) * State.

(** A step of a generator body that yields nothing. *)
Definition quiet (m : M unit) : Gen :=
  fun s => let (r, s') := m s in (([], r), s').

(** [g] runs to its end, then [k] with the fragments [g] yielded. *)
Definition andthen (g : Gen) (k : list json -> Gen) : Gen :=
  fun s =>
    match g s with
    | ((ys, inr tt), s') => let '((zs, r), s'') := k ys s' in ((ys ++ zs)%list, r, s'')
    | ((ys, inl e), s') => ((ys, inl e), s')
    end.

(** [p in s] for two [str]. *)
Fixpoint contains (p s : string) : bool :=
  startswith p s || match s with "" => false | String _ r => contains p r end.

(** Lines 167-169, inside the inner [try]: [None] when an exception reaches
    [except Exception], else the fragment to yield, if any. On a [list] or a
    [str], [in] is membership resp. substring and [data["message"]] is a
    [TypeError]; on the other non-[dict] values [in] itself is one. *)
Definition chunk_message (chunk : string) : option (option json) :=
  match Json.decode chunk with
  | None => None
  | Some (JDict d) =>
      match dict_lookup d "message" with
      | Some v => if truthy v then Some (Some v) else Some None
      | None => Some None
      end
  | Some (JList l) => if existsb (fun v => eq_str v "message") l then None else Some None
  | Some (JStr s) => if contains "message" s then None else Some None
  | Some _ => None
  end.

(** The [async for line in response.content] loop: the fragments yielded and
    the chunk at which an exception reached the inner handler, if any. *)
Fixpoint stream_lines (lines : list string) : list json * option string :=
  match lines with
  | [] => ([], None)
  | line :: rest =>
      if startswith "data: " line then
        let chunk := drop 6 line in
        if startswith "[DONE]" chunk then ([], None)
        else
          match chunk_message chunk with
          | None => ([], Some chunk)
          | Some None => stream_lines rest
          | Some (Some m) => let (ys, r) := stream_lines rest in (m :: ys, r)
          end
      else stream_lines rest
  end.

(** The inner handler raises [DuckChatException(f"Couldn't parse
    body={chunk.decode()}")], or the [UnicodeDecodeError] of [chunk.decode()];
    the outer handler catches either as [e] and raises
    [DuckChatException(f"Error while streaming data: {str(e)}")]. *)
Definition streaming_error (chunk : string) : pyexc :=
  if utf8_valid chunk
  then DuckChatException
         (MsgStr ("Error while streaming data: " ++ "Couldn't parse body=" ++ chunk))
  else DuckChatException (MsgCodec "Error while streaming data: " chunk).

(** [stream_answer]. [await response.text()] is taken as the UTF-8 decoding
    of the body. The token is appended after the [async with] block, so only
    when the loop ended by the terminator or the end of the body. *)
Definition stream_answer : Gen :=
  fun s =>
    match (token <- last_token ;; http_post token) s with
    | (inl e, s1) => (([], inl e), s1)
    | (inr response, s1) =>
        if status response =? 429 then
          quiet (text <- bytes_decode (body response) ;;
                 raise (RatelimitException (MsgStr text))) s1
        else
          match stream_lines (iter_lines (body response)) with
          | (ys, Some chunk) => ((ys, inl (streaming_error chunk)), s1)
          | (ys, None) =>
              let (r, s2) := vqd_append (header_get (headers response) "x-vqd-4" "") s1 in
              ((ys, r), s2)
          end
    end.

Definition ask_question_stream (query : string) : Gen :=
  andthen (quiet (ensure_vqd ;; history_add_input query)) (fun _ =>
  andthen stream_answer (fun message_list =>
  quiet (text <- join_message message_list ;; history_add_answer text))).

Definition reask_question_stream (num : Z) : Gen :=
  fun s =>
    match rewind num s with
    | (inl e, s1) => (([], inl e), s1)
    | (inr true, s1) => (([], inl (GeneratorExit "There is no history messages")), s1)
    | (inr false, s1) =>
        andthen stream_answer (fun message_list =>
        quiet (text <- join_message message_list ;; history_add_answer text)) s1
    end.

(** *** Predicates on the responses of the service, for the statements *)

(** The records the buffered framer decodes from a body, when it does. *)
Definition decode_records (res : string) : option (list json) :=
  match Json.decode (frame_body res) with
  | Some (JList data) => Some data
  | _ => None
  end.

(** A soft block: a non-429 response whose records run into an
    [ERR_BN_LIMIT] error record before anything is raised. *)
Definition soft_block (r : Response) : bool :=
  negb (status r =? 429) &&
  match decode_records (body r) with
  | Some data => match scan data [] with Blocked => true | _ => false end
  | None => false
  end.

(** The answer of a response that makes a buffered turn succeed. *)
Definition answer_of (r : Response) : option string :=
  if status r =? 429 then None
  else
    match decode_records (body r) with
    | Some data =>
        match scan data [] with
        | Collected message => join_parts message
        | _ => None
        end
    | None => None
    end.

(** The history is a sequence of complete turns: user, assistant, user,
    assistant, and so on, ending on an assistant message. *)
Fixpoint complete_turns (l : list Message) : bool :=
  match l with
  | [] => true
  | mkMessage user _ :: mkMessage assistant _ :: r => complete_turns r
  | _ => false
  end.

(** Roles alternate, starting with [expect]. *)
Fixpoint alternating (expect : Role) (l : list Message) : bool :=
  match l with
  | [] => true
  | m :: r =>
      match role m, expect with
      | user, user => alternating assistant r
      | assistant, assistant => alternating user r
      | _, _ => false
      end
  end.

(** *** Sample traffic *)
Module Sample.

Import Bytes.

(** A JSON string literal. *)
Definition q (s : string) : string := DQ ++ s ++ DQ.

(** [data: {"message":"Hi"}\n\ndata: [DONE]\n\ndata: [LIMIT_CONVERSATION]\n] *)
Definition hi_body : string :=
  "data: {" ++ q "message" ++ ":" ++ q "Hi" ++ "}" ++ LF ++ LF
  ++ "data: [DONE]" ++ LF ++ LF ++ "data: [LIMIT_CONVERSATION]" ++ LF.

(** [data: {"action":"error","type":"ERR_BN_LIMIT"}\n\ndata: [DONE]\n] *)
Definition block_body : string :=
  "data: {" ++ q "action" ++ ":" ++ q "error" ++ "," ++ q "type" ++ ":"
  ++ q "ERR_BN_LIMIT" ++ "}" ++ LF ++ LF ++ "data: [DONE]" ++ LF.

(** [data: {"action":"error","status":429,"type":"ERR_CONVERSATION_LIMIT","message":"limit"}\n]
    and the terminator line. *)
Definition limit_body : string :=
  "data: {" ++ q "action" ++ ":" ++ q "error" ++ "," ++ q "status" ++ ":429,"
  ++ q "type" ++ ":" ++ q "ERR_CONVERSATION_LIMIT" ++ "," ++ q "message" ++ ":"
  ++ q "limit" ++ "}" ++ LF ++ LF ++ "data: [DONE]" ++ LF.

(** A 200 response that renews the token. *)
Definition ok (token res : string) : Response :=
  mkResponse 200 [("x-vqd-4", token)] res.

Definition gpt : ModelType := "gpt-4o-mini".

(** A session as [DuckChat()] builds it, with the default retry policy. *)
Definition fresh : DuckChat := mkDuckChat [] (mkHistory gpt []) 3 10.

Definition u (text : string) : Message := mkMessage user text.
Definition a (text : string) : Message := mkMessage assistant text.

End Sample.

(** *** Further notions, for the statements *)

(** [DuckChat(model=..., max_retries=..., delay=...)]: what [__init__] sets
    of the fields above, an empty ledger and an empty history. *)
Definition DuckChat_init (model : ModelType) (max_retries delay : Z) : DuckChat :=
  mkDuckChat [] (mkHistory model []) max_retries delay.

(** What a turn sends when [k] passes meet a soft block and one more pass
    follows: the same request each time, a sleep between two requests. *)
Fixpoint retry_trace (t : string) (h : History) (dl : Z) (k : nat) : list Event :=
  match k with
  | O => [EvPost t h]
  | S j => EvPost t h :: EvSleep dl :: retry_trace t h dl j
  end.

(** What [k] passes send in all. *)
Definition passes_trace (t : string) (h : History) (dl : Z) (k : nat) : list Event :=
  match k with
  | O => []
  | S j => retry_trace t h dl j
  end.

(** Every byte of [s] is one of [chars]. *)
Fixpoint all_in (chars s : string) : bool :=
  match s with
  | "" => true
  | String c r => Bytes.mem c chars && all_in chars r
  end.

(** The last byte of [s], if any. *)
Fixpoint last_byte (s : string) : option ascii :=
  match s with
  | "" => None
  | String c "" => Some c
  | String _ r => last_byte r
  end.

(** The character sets of the buffered framer and its record separator. *)
Definition lstrip_set : string := "data: ".
Definition rstrip_set : string :=
  Bytes.LF ++ Bytes.LF ++ "data: [DONE][LIMIT_CONVERSATION]" ++ Bytes.LF.
Definition record_sep : string := Bytes.LF ++ Bytes.LF ++ "data: ".

(** The piece [p] holds no separator and ends on a byte the separator
    lacks, so that no separator can begin inside it. *)
Definition sep_free (sep p : string) : bool :=
  negb (contains sep p)
  && match last_byte p with
     | Some c => negb (Bytes.mem c sep)
     | None => false
     end.

(** A record payload the buffered framer hands over whole: it opens with a
    byte outside the left set, closes with a byte outside the right set, and
    no separator can begin inside it. A JSON object written without a blank
    line inside is one. *)
Definition whole_payload (p : string) : bool :=
  match p with
  | "" => false
  | String c _ => negb (Bytes.mem c lstrip_set)
  end
  && match last_byte p with
     | Some c => negb (Bytes.mem c rstrip_set)
     | None => false
     end
  && sep_free record_sep p.

(** [s] is one line of a stream: it ends with a line feed and holds no
    other. *)
Fixpoint is_line (s : string) : bool :=
  match s with
  | "" => false
  | String c "" => Ascii.eqb c "010"
  | String c r => negb (Ascii.eqb c "010") && is_line r
  end.

(** The line is a terminator record, at which the streaming loop breaks. *)
Definition is_terminator (line : string) : bool :=
  Bytes.startswith "data: " line && Bytes.startswith "[DONE]" (Bytes.drop 6 line).

(** The chunks the streaming loop decodes: what follows ["data: "] on the
    lines that begin with it, up to the terminator. *)
Fixpoint data_chunks (lines : list string) : list string :=
  match lines with
  | [] => []
  | line :: rest =>
      if Bytes.startswith "data: " line then
        if Bytes.startswith "[DONE]" (Bytes.drop 6 line) then []
        else Bytes.drop 6 line :: data_chunks rest
      else data_chunks rest
  end.

(** [l1] is an initial segment of [l2]. *)
Definition prefix_of {A} (l1 l2 : list A) : Prop := exists more, l2 = (l1 ++ more)%list.

(** From [s] to [s'] the session has only grown: the history and the
    ledger by appending, the trace likewise, and the model and the retry
    policy are the same. *)
Definition grows (s s' : State) : Prop :=
  prefix_of (messages (history (fst s))) (messages (history (fst s')))
  /\ model (history (fst s')) = model (history (fst s))
  /\ prefix_of (vqd (fst s)) (vqd (fst s'))
  /\ max_retries (fst s') = max_retries (fst s)
  /\ delay (fst s') = delay (fst s)
  /\ prefix_of (trace (snd s)) (trace (snd s')).

(** *** Proof engineering *)

#[local] Arguments Json.decode : simpl never.
#[local] Arguments frame_body : simpl never.
#[local] Arguments scan : simpl never.
#[local] Arguments join_parts : simpl never.
#[local] Arguments Bytes.utf8_valid : simpl never.
#[local] Arguments header_get : simpl never.
#[local] Arguments header_lookup : simpl never.
#[local] Arguments Bytes.str_of_int : simpl never.
#[local] Arguments slice_to : simpl never.
#[local] Arguments Z.eqb : simpl never.
#[local] Arguments Z.leb : simpl never.
#[local] Arguments Z.min : simpl never.
#[local] Arguments Z.mul : simpl never.
#[local] Arguments Z.sub : simpl never.
#[local] Arguments Z.to_nat : simpl never.

(** Unfolds the monad and the primitive steps. *)
Ltac unfold_steps :=
  unfold bytes_decode, join_message, history_add_answer, history_add_input,
    vqd_append, last_token, http_post, http_get, sleep, receive, emit,
    set_messages, set_history, set_vqd, self, bind, ret, raise in *.

(* ================================================================== *)
(** ** The decoder on framed bodies *)
(* ================================================================== *)

Module JsonFacts.

Import Json.

Lemma complete_in_array v f stack stack' st' :
  (exists items, last (f :: stack) (FDict [] None) = FList items) ->
  complete v (f :: stack) = Some (stack', st') ->
  in_array stack' st'.
Proof.
  intros [items H] C. destruct f as [its | d [k|]]; simpl in C; try discriminate;
    inversion C; subst; clear C; simpl.
  - destruct stack as [|g r]; [eauto | exists items; exact H].
  - destruct stack as [|g r]; [discriminate | exists items; exact H].
Qed.

Lemma parse_step_in_array stack st t stack' st' :
  in_array stack st ->
  parse_step stack st t = Some (stack', st') ->
  in_array stack' st'.
Proof.
  intros I P.
  destruct st as [first | first | | | v]; simpl in I;
    [ | | | | destruct t; discriminate P ];
    destruct I as [items H];
    (destruct stack as [|f r]; [discriminate H|]);
    destruct t; simpl in P;
    repeat match type of P with
           | None = Some _ => discriminate P
           | match ?x with _ => _ end = Some _ => destruct x
           end;
    (destruct r as [|g r];
     [ simpl in H; try discriminate H; simpl in P; try discriminate P
     | simpl in H ]);
    first [ eapply complete_in_array; [| exact P]; eauto
          | inversion P; subst; clear P; simpl; solve [eauto | split; eauto] ].
Qed.

Lemma parse_go_in_array ts : forall stack st v,
  in_array stack st -> parse_go stack st ts = Some v -> exists l, v = JList l.
Proof.
  induction ts as [|t r IH]; intros stack st v I P; simpl in P.
  - destruct st; try discriminate. inversion P; subst. destruct I as [_ H]. exact H.
  - destruct (parse_step stack st t) as [[stack' st']|] eqn:E; [|discriminate].
    eapply IH; [eapply parse_step_in_array; eauto | exact P].
Qed.

(** Whatever decodes from an opening bracket followed by anything is a list:
    the branch of [get_answer_attempt] for another value is never taken. *)
Lemma decode_bracket_is_list (s : string) (v : json) :
  decode (String "[" s) = Some v -> exists l, v = JList l.
Proof.
  unfold decode. destruct (Bytes.utf8_valid _); [|discriminate].
  change (lex_go LIdle (String "[" s)) with (option_map (cons TLBrack) (lex_go LIdle s)).
  destruct (lex_go LIdle s) as [ts|]; simpl; [|discriminate].
  apply parse_go_in_array. simpl. exists []. reflexivity.
Qed.

End JsonFacts.

Lemma frame_body_is_list (res : string) (v : json) :
  Json.decode (frame_body res) = Some v -> exists l, v = JList l.
Proof. apply JsonFacts.decode_bracket_is_list. Qed.

(* ================================================================== *)
(** ** Running the methods *)
(* ================================================================== *)

(** A pass that returns an answer leaves the history alone and appends the
    token of the response it read. *)
Lemma attempt_answer d n a d' n' :
  get_answer_attempt (d, n) = (inr (Some a), (d', n')) ->
  exists r t,
    script n = r :: script n' /\
    answer_of r = Some a /\
    last (vqd d) "" = t /\ vqd d <> [] /\
    trace n' = (trace n ++ [EvPost t (history d)])%list /\
    d' = mkDuckChat (vqd d ++ [header_get (headers r) "x-vqd-4" ""])
                    (history d) (max_retries d) (delay d).
Proof.
  intros H. destruct d as [v h mr dl], n as [sc tr].
  unfold get_answer_attempt in H. unfold_steps. simpl in H.
  destruct (rev v) as [|t rv] eqn:Ev; simpl in H; [discriminate|].
  destruct sc as [|r rest]; simpl in H; [discriminate|].
  assert (Hl : last v "" = t /\ v <> []).
  { rewrite <- (rev_involutive v), Ev. simpl. split.
    - apply last_last.
    - destruct (rev rv); discriminate. }
  destruct Hl as [Hl Hne].
  destruct (status r =? 429) eqn:Es.
  - destruct (Bytes.utf8_valid (body r)); discriminate.
  - destruct (Json.decode (frame_body (body r))) as [[| | | | |data|]|] eqn:Ed;
      try discriminate; [| destruct (Bytes.utf8_valid (body r)); discriminate].
    destruct (scan data []) as [message| |e] eqn:Esc; try discriminate.
    simpl in H. destruct (join_parts message) as [s|] eqn:Ej; simpl in H; [|discriminate].
    inversion H; subst. exists r, (last v "").
    unfold answer_of, decode_records. rewrite Es, Ed, Esc. simpl. auto 10.
Qed.

(** A pass that meets a soft block changes nothing in the session. *)
Lemma attempt_blocked d n d' n' :
  get_answer_attempt (d, n) = (inr None, (d', n')) ->
  d' = d /\ exists r, script n = r :: script n' /\ soft_block r = true.
Proof.
  intros H. destruct d as [v h mr dl], n as [sc tr].
  unfold get_answer_attempt in H. unfold_steps. simpl in H.
  destruct (rev v) as [|t rv] eqn:Ev; simpl in H; [discriminate|].
  destruct sc as [|r rest]; simpl in H; [discriminate|].
  destruct (status r =? 429) eqn:Es.
  - destruct (Bytes.utf8_valid (body r)); discriminate.
  - destruct (Json.decode (frame_body (body r))) as [[| | | | |data|]|] eqn:Ed;
      try discriminate; [| destruct (Bytes.utf8_valid (body r)); discriminate].
    destruct (scan data []) as [message| |e] eqn:Esc; try discriminate.
    + simpl in H. destruct (join_parts message); discriminate.
    + inversion H; subst. split; [reflexivity|]. exists r.
      unfold soft_block, decode_records. rewrite Es, Ed, Esc. simpl. auto.
Qed.

(** The pass on a session that holds a token, when the next response is a
    soft block. *)
Lemma attempt_on_block toks t h mr dl r rest tr :
  soft_block r = true ->
  get_answer_attempt (mkDuckChat (toks ++ [t]) h mr dl, mkNet (r :: rest) tr)
  = (inr None, (mkDuckChat (toks ++ [t]) h mr dl, mkNet rest (tr ++ [EvPost t h]))).
Proof.
  unfold soft_block, decode_records. intros H.
  unfold get_answer_attempt. unfold_steps. simpl.
  rewrite rev_app_distr. simpl.
  destruct (status r =? 429); [discriminate|].
  destruct (Json.decode (frame_body (body r))) as [[| | | | |data|]|]; try discriminate.
  destruct (scan data []); try discriminate. reflexivity.
Qed.

(** The pass on a session that holds a token, when the next response
    carries an answer. *)
Lemma attempt_on_answer toks t h mr dl r rest tr a :
  answer_of r = Some a ->
  get_answer_attempt (mkDuckChat (toks ++ [t]) h mr dl, mkNet (r :: rest) tr)
  = (inr (Some a),
     (mkDuckChat ((toks ++ [t]) ++ [header_get (headers r) "x-vqd-4" ""]) h mr dl,
      mkNet rest (tr ++ [EvPost t h]))).
Proof.
  unfold answer_of, decode_records. intros H.
  unfold get_answer_attempt. unfold_steps. simpl.
  rewrite rev_app_distr. simpl.
  destruct (status r =? 429); [discriminate|].
  destruct (Json.decode (frame_body (body r))) as [[| | | | |data|]|]; try discriminate.
  destruct (scan data []); try discriminate. simpl. rewrite H. reflexivity.
Qed.

(** Whatever a pass ends in, it only adds to the trace. *)
Lemma attempt_trace d n res d' n' :
  get_answer_attempt (d, n) = (res, (d', n')) ->
  exists more, trace n' = (trace n ++ more)%list.
Proof.
  intros H. destruct d as [v h mr dl], n as [sc tr].
  unfold get_answer_attempt in H. unfold_steps. simpl in H.
  destruct (rev v) as [|t rv]; simpl in H.
  - inversion H; subst. exists []. simpl. now rewrite app_nil_r.
  - exists [EvPost t h]. simpl.
    destruct sc as [|r rest]; simpl in H; [inversion H; reflexivity|].
    destruct (status r =? 429).
    + destruct (Bytes.utf8_valid (body r)); inversion H; reflexivity.
    + destruct (Json.decode (frame_body (body r))) as [[| | | | |data|]|];
        try (inversion H; reflexivity);
        [| destruct (Bytes.utf8_valid (body r)); inversion H; reflexivity].
      destruct (scan data []) as [message| |e]; try (inversion H; reflexivity).
      simpl in H. destruct (join_parts message); inversion H; reflexivity.
Qed.

Lemma loop_trace k : forall d n res d' n',
  get_answer_loop k (d, n) = (res, (d', n')) ->
  exists more, trace n' = (trace n ++ more)%list.
Proof.
  induction k as [|k IH]; intros d n res d' n' H; simpl in H.
  - unfold_steps. simpl in H. inversion H; subst. exists []. now rewrite app_nil_r.
  - unfold bind at 1 in H.
    destruct (get_answer_attempt (d, n)) as [[e|[a|]] [d1 n1]] eqn:E;
      apply attempt_trace in E; destruct E as [m1 E1].
    + inversion H; subst. eauto.
    + unfold ret in H. inversion H; subst. eauto.
    + assert (Hs : exists n2 m2, get_answer_loop k (d1, n2) = (res, (d', n')) /\
                                 trace n2 = (trace n1 ++ m2)%list).
      { destruct k; unfold_steps; destruct n1 as [sc1 tr1]; simpl in H |- *.
        - exists (mkNet sc1 tr1), []. simpl. rewrite app_nil_r. auto.
        - eexists (mkNet sc1 _), _. simpl. split; [exact H | reflexivity]. }
      destruct Hs as (n2 & m2 & L & E2). apply IH in L. destruct L as [m3 E3].
      exists (m1 ++ m2 ++ m3)%list. rewrite E3, E2, E1. now rewrite !app_assoc.
Qed.

(** A turn that returns an answer read soft blocks, then the response that
    carries the answer; it appended the token of that response and left the
    history alone. *)
Lemma loop_answer k : forall d n a d' n',
  get_answer_loop k (d, n) = (inr a, (d', n')) ->
  vqd d <> [] /\
  exists blocks r,
    script n = (blocks ++ r :: script n')%list /\
    forallb soft_block blocks = true /\
    answer_of r = Some a /\
    d' = mkDuckChat (vqd d ++ [header_get (headers r) "x-vqd-4" ""])
                    (history d) (max_retries d) (delay d).
Proof.
  induction k as [|k IH]; intros d n a d' n' H; simpl in H.
  - unfold_steps. discriminate.
  - unfold bind at 1 in H.
    destruct (get_answer_attempt (d, n)) as [[e|[b|]] [d1 n1]] eqn:E.
    + discriminate.
    + unfold ret in H. inversion H; subst.
      apply attempt_answer in E. destruct E as (r & t & Hsc & Ha & _ & Hne & _ & Hd).
      split; [exact Hne | exists [], r; auto].
    + apply attempt_blocked in E. destruct E as (-> & r0 & Hsc0 & Hb0).
      assert (Hs : exists n2, get_answer_loop k (d, n2) = (inr a, (d', n')) /\
                              script n2 = script n1).
      { destruct k; unfold_steps; destruct n1 as [sc1 tr1]; simpl in H; eauto. }
      destruct Hs as (n2 & L & Hsc2). apply IH in L.
      destruct L as (Hne & blocks & r & Hsc & Hb & Ha & Hd).
      split; [exact Hne|]. exists (r0 :: blocks), r.
      rewrite Hsc0, <- Hsc2, Hsc. simpl. rewrite Hb0, Hb. auto.
Qed.

(** When every pass meets a soft block, the loop ends in the
    retries-exhausted exception with the session as it was. *)
Lemma loop_all_blocked blocks : forall toks t h mr dl rest tr,
  forallb soft_block blocks = true ->
  exists tr',
    get_answer_loop (List.length blocks)
      (mkDuckChat (toks ++ [t]) h mr dl, mkNet (blocks ++ rest) tr)
    = (inl (DuckChatException
              (MsgStr ("ERR_BN_LIMIT after " ++ Bytes.str_of_int mr ++ " attempts"))),
       (mkDuckChat (toks ++ [t]) h mr dl, mkNet rest tr')).
Proof.
  induction blocks as [|r blocks IH]; intros toks t h mr dl rest tr F.
  - exists tr. reflexivity.
  - simpl in F. apply andb_prop in F. destruct F as [Fr F].
    cbn [List.length get_answer_loop app]. unfold bind at 1.
    rewrite (attempt_on_block toks t h mr dl r (blocks ++ rest) tr Fr).
    destruct blocks as [|r2 blocks].
    + eexists. reflexivity.
    + destruct (IH toks t h mr dl rest ((tr ++ [EvPost t h]) ++ [EvSleep dl])%list F)
        as [tr' E].
      exists tr'. rewrite <- E. reflexivity.
Qed.

(** The handshake, on the response it reads. *)
Lemma get_vqd_run d r rest tr :
  get_vqd (d, mkNet (r :: rest) tr) =
  let n' := mkNet rest (tr ++ [EvGet]) in
  if status r =? 429 then
    match Json.decode (body r) with
    | Some (JDict o) =>
        (inl (RatelimitException (MsgVal (Py.dict_get o "type" (JStr "")))), (d, n'))
    | _ =>
        if Bytes.utf8_valid (body r)
        then (inl (DuckChatException (MsgStr (body r))), (d, n'))
        else (inl (UnicodeDecodeError (body r)), (d, n'))
    end
  else
    match header_lookup (headers r) "x-vqd-4" with
    | Some token =>
        (inr tt, (mkDuckChat (vqd d ++ [token]) (history d) (max_retries d) (delay d), n'))
    | None => (inl (DuckChatException (MsgStr "No x-vqd-4")), (d, n'))
    end.
Proof.
  unfold get_vqd. unfold_steps. destruct d as [v h mr dl]. simpl.
  destruct (status r =? 429).
  - destruct (Json.decode (body r)) as [[| | | | | |o]|]; simpl;
      try reflexivity; destruct (Bytes.utf8_valid (body r)); reflexivity.
  - destruct (header_lookup (headers r) "x-vqd-4"); reflexivity.
Qed.

(** A handshake that returns appended one token and changed nothing else. *)
Lemma get_vqd_returns d n d' n' :
  get_vqd (d, n) = (inr tt, (d', n')) ->
  exists token, d' = mkDuckChat (vqd d ++ [token]) (history d) (max_retries d) (delay d).
Proof.
  destruct n as [[|r rest] tr].
  - unfold get_vqd. unfold_steps. simpl. discriminate.
  - rewrite get_vqd_run. simpl.
    destruct (status r =? 429).
    + destruct (Json.decode (body r)) as [[| | | | | |o]|];
        try (destruct (Bytes.utf8_valid (body r))); discriminate.
    + destruct (header_lookup (headers r) "x-vqd-4") as [token|]; [|discriminate].
      intros H. inversion H; subst. eauto.
Qed.

Lemma complete_turns_app (x : list Message) :
  complete_turns x = true ->
  forall l, complete_turns l = true -> complete_turns (l ++ x) = true.
Proof.
  intros Hx.
  assert (P : forall l,
             (complete_turns l = true -> complete_turns (l ++ x) = true) /\
             (forall m, complete_turns (m :: l) = true ->
                        complete_turns (m :: l ++ x) = true)).
  { induction l as [|m1 l [IH1 IH2]]; split.
    - intros _. exact Hx.
    - intros [[] c] H; discriminate H.
    - apply IH2.
    - intros [[] c] H; [|discriminate H].
      destruct m1 as [[] c1]; [discriminate H|]. simpl in *. auto. }
  intros l. apply P.
Qed.

(* ================================================================== *)
(** ** The claims *)
(* ================================================================== *)

Lemma get_answer_unfold d n :
  get_answer (d, n) = get_answer_loop (Z.to_nat (max_retries d)) (d, n).
Proof. reflexivity. Qed.

Lemma ensure_vqd_holding toks t h mr dl n :
  ensure_vqd (mkDuckChat (toks ++ [t]) h mr dl, n)
  = (inr tt, (mkDuckChat (toks ++ [t]) h mr dl, n)).
Proof.
  unfold ensure_vqd. unfold_steps. simpl. destruct toks; reflexivity.
Qed.

(** C1, at the input that refutes it: the first turn of a fresh session
    returns normally and the ledger has grown by two tokens, the one of the
    handshake and the one of the turn; and after a turn that failed, a turn
    that succeeds leaves two user messages in a row. *)
Lemma C1_first_turn_counterexample :
  ask_question "q"
    (Sample.fresh, mkNet [Sample.ok "t0" ""; Sample.ok "t1" Sample.hi_body] [])
  = (inr "Hi",
     (mkDuckChat ["t0"; "t1"]
        (mkHistory Sample.gpt [Sample.u "q"; Sample.a "Hi"]) 3 10,
      mkNet [] [EvGet; EvPost "t0" (mkHistory Sample.gpt [Sample.u "q"])]))
  /\ List.length ["t0"; "t1"] <> S (List.length (vqd Sample.fresh))
  /\ ask_question "q"
       (mkDuckChat ["t0"] (mkHistory Sample.gpt [Sample.u "p"]) 3 10,
        mkNet [Sample.ok "t1" Sample.hi_body] [])
     = (inr "Hi",
        (mkDuckChat ["t0"; "t1"]
           (mkHistory Sample.gpt [Sample.u "p"; Sample.u "q"; Sample.a "Hi"]) 3 10,
         mkNet [] [EvPost "t0" (mkHistory Sample.gpt [Sample.u "p"; Sample.u "q"])]))
  /\ alternating user [Sample.u "p"] = true
  /\ alternating user [Sample.u "p"; Sample.u "q"; Sample.a "Hi"] = false.
Proof.
  split; [vm_compute; reflexivity|].
  split; [vm_compute; discriminate|].
  split; [vm_compute; reflexivity|].
  split; vm_compute; reflexivity.
Qed.

(** C1, amended: a call of [ask_question] that returns normally has appended
    to the history the user message of the query followed by the assistant
    message of the answer it returns, so that a history of complete turns
    stays one; and it has appended one token to a ledger that held one, two
    (the handshake's, then the turn's) to an empty ledger. *)
Theorem C1_successful_turn (query : string) d n answer d' n' :
  ask_question query (d, n) = (inr answer, (d', n')) ->
  messages (history d')
  = (messages (history d) ++ [mkMessage user query; mkMessage assistant answer])%list
  /\ model (history d') = model (history d)
  /\ (complete_turns (messages (history d)) = true ->
      complete_turns (messages (history d')) = true)
  /\ (vqd d <> [] -> exists t, vqd d' = (vqd d ++ [t])%list)
  /\ (vqd d = [] -> exists t0 t, vqd d' = [t0; t]).
Proof.
  intros H. unfold ask_question in H. unfold bind at 1 in H.
  destruct (ensure_vqd (d, n)) as [[e|[]] [d1 n1]] eqn:E1; [discriminate|].
  assert (V : history d1 = history d /\
              (vqd d <> [] -> vqd d1 = vqd d) /\
              (vqd d = [] -> exists t0, vqd d1 = [t0])).
  { unfold ensure_vqd in E1. unfold bind at 1 in E1. unfold self at 1 in E1.
    cbn [fst] in E1. destruct (vqd d) as [|t0 v] eqn:Ev.
    - apply get_vqd_returns in E1. destruct E1 as [token ->]. simpl.
      rewrite Ev. simpl. repeat split; eauto. intros C; now elim C.
    - unfold ret in E1. inversion E1; subst. rewrite Ev.
      repeat split; auto. discriminate. }
  destruct V as (Vh & Vk & Ve).
  unfold bind at 1 in H. unfold history_add_input in H. unfold_steps.
  destruct d1 as [v1 h1 mr1 dl1]. simpl in H, Vh, Vk, Ve. subst h1.
  match type of H with
  | context [get_answer ?s] => destruct (get_answer s) as [[e|m] [d2 n2]] eqn:E2
  end; [discriminate|].
  rewrite get_answer_unfold in E2. apply loop_answer in E2.
  destruct E2 as (_ & blocks & r & _ & _ & _ & ->). simpl in H. inversion H; subst. simpl.
  repeat split.
  - unfold add_input. simpl. rewrite <- app_assoc. reflexivity.
  - intros C. rewrite <- app_assoc. simpl.
    apply (complete_turns_app [mkMessage user query; mkMessage assistant answer]);
      [reflexivity | exact C].
  - intros Hne. rewrite (Vk Hne). eauto.
  - intros He. destruct (Ve He) as [t0 ->]. simpl. eauto.
Qed.

(** The amended C1 at the first turn of a fresh session. *)
Lemma C1_successful_turn_witness :
  messages (mkHistory Sample.gpt [Sample.u "q"; Sample.a "Hi"])
  = ([] ++ [mkMessage user "q"; mkMessage assistant "Hi"])%list
  /\ exists t0 t, ["t0"; "t1"] = [t0; t].
Proof.
  destruct (C1_successful_turn "q" Sample.fresh
              (mkNet [Sample.ok "t0" ""; Sample.ok "t1" Sample.hi_body] [])
              "Hi"
              (mkDuckChat ["t0"; "t1"]
                 (mkHistory Sample.gpt [Sample.u "q"; Sample.a "Hi"]) 3 10)
              (mkNet [] [EvGet; EvPost "t0" (mkHistory Sample.gpt [Sample.u "q"])]))
    as (Hm & _ & _ & _ & He).
  - vm_compute. reflexivity.
  - split; [exact Hm | apply He; reflexivity].
Defined.

(** C2, at the input that refutes it: three soft blocks in a row with
    [max_retries = 3] end [ask_question] in the retries-exhausted exception,
    and the history then holds the user message of the query, which it did
    not hold before the call. *)
Lemma C2_history_changed_counterexample :
  ask_question "q"
    (mkDuckChat ["t0"] (mkHistory Sample.gpt []) 3 10,
     mkNet [Sample.ok "t1" Sample.block_body; Sample.ok "t2" Sample.block_body;
            Sample.ok "t3" Sample.block_body] [])
  = (inl (DuckChatException (MsgStr "ERR_BN_LIMIT after 3 attempts")),
     (mkDuckChat ["t0"] (mkHistory Sample.gpt [Sample.u "q"]) 3 10,
      mkNet []
        [EvPost "t0" (mkHistory Sample.gpt [Sample.u "q"]); EvSleep 10;
         EvPost "t0" (mkHistory Sample.gpt [Sample.u "q"]); EvSleep 10;
         EvPost "t0" (mkHistory Sample.gpt [Sample.u "q"])]))
  /\ mkHistory Sample.gpt [Sample.u "q"] <> mkHistory Sample.gpt [].
Proof.
  split; [vm_compute; reflexivity | discriminate].
Qed.

(** C2, amended: when every one of the [max_retries] passes of a turn meets a
    soft block, [get_answer] raises the retries-exhausted exception and
    leaves the history and the ledger as they were; [ask_question] raises
    the same exception with the ledger as it was, or holding just the token
    of the handshake when it was empty, and with the user message of the
    query appended to the history. *)
Theorem C2_retries_exhausted blocks toks t h mr dl rest tr query :
  forallb soft_block blocks = true ->
  List.length blocks = Z.to_nat mr ->
  let exhausted :=
    DuckChatException
      (MsgStr ("ERR_BN_LIMIT after " ++ Bytes.str_of_int mr ++ " attempts")) in
  (exists tr',
     get_answer (mkDuckChat (toks ++ [t]) h mr dl, mkNet (blocks ++ rest) tr)
     = (inl exhausted, (mkDuckChat (toks ++ [t]) h mr dl, mkNet rest tr')))
  /\ (exists tr',
        ask_question query (mkDuckChat (toks ++ [t]) h mr dl, mkNet (blocks ++ rest) tr)
        = (inl exhausted,
           (mkDuckChat (toks ++ [t]) (add_input h query) mr dl, mkNet rest tr')))
  /\ (forall r0 t0,
        (status r0 =? 429) = false ->
        header_lookup (headers r0) "x-vqd-4" = Some t0 ->
        exists tr',
          ask_question query (mkDuckChat [] h mr dl, mkNet (r0 :: blocks ++ rest) tr)
          = (inl exhausted,
             (mkDuckChat [t0] (add_input h query) mr dl, mkNet rest tr'))).
Proof.
  intros F L exhausted. repeat split.
  - rewrite get_answer_unfold. cbn [max_retries]. rewrite <- L.
    apply loop_all_blocked. exact F.
  - destruct (loop_all_blocked blocks toks t (add_input h query) mr dl rest tr F)
      as [tr' E].
    exists tr'. unfold ask_question. unfold bind at 1.
    rewrite ensure_vqd_holding. unfold bind at 1.
    unfold history_add_input. unfold_steps. cbn [fst snd history vqd max_retries delay].
    rewrite get_answer_unfold. cbn [max_retries]. rewrite <- L, E. reflexivity.
  - intros r0 t0 Hs Hh.
    destruct (loop_all_blocked blocks [] t0 (add_input h query) mr dl rest
                (tr ++ [EvGet])%list F) as [tr' E].
    exists tr'. unfold ask_question. unfold bind at 1.
    unfold ensure_vqd. unfold bind at 1. unfold self at 1. cbn [fst vqd].
    rewrite get_vqd_run. cbn zeta. rewrite Hs, Hh. cbn [vqd app history max_retries delay].
    unfold bind at 1. unfold history_add_input. unfold_steps.
    cbn [fst snd history vqd max_retries delay].
    rewrite get_answer_unfold. cbn [max_retries]. rewrite <- L.
    simpl app in E. rewrite E. reflexivity.
Qed.

(** The amended C2 at three soft blocks and the default [max_retries]. *)
Lemma C2_retries_exhausted_witness :
  exists tr',
    ask_question "q"
      (mkDuckChat ([] ++ ["t0"]) (mkHistory Sample.gpt []) 3 10,
       mkNet ([Sample.ok "t1" Sample.block_body; Sample.ok "t2" Sample.block_body;
               Sample.ok "t3" Sample.block_body] ++ []) [])
    = (inl (DuckChatException
              (MsgStr ("ERR_BN_LIMIT after " ++ Bytes.str_of_int 3 ++ " attempts"))),
       (mkDuckChat ([] ++ ["t0"]) (add_input (mkHistory Sample.gpt []) "q") 3 10,
        mkNet [] tr')).
Proof.
  apply (C2_retries_exhausted
           [Sample.ok "t1" Sample.block_body; Sample.ok "t2" Sample.block_body;
            Sample.ok "t3" Sample.block_body]
           [] "t0" (mkHistory Sample.gpt []) 3 10 [] [] "q").
  - vm_compute. reflexivity.
  - reflexivity.
Defined.

(** C3: the buffered framer turns the body
    [data: {"message":"Hi"}\n\ndata: [DONE]\n\ndata: [LIMIT_CONVERSATION]\n]
    into the array text [[{"message":"Hi"}]], which decodes to exactly one
    record, of [message] ["Hi"]; and [get_answer], reading that body under
    status 200, returns ["Hi"]. *)
Theorem C3_buffered_framer_hi :
  frame_body Sample.hi_body
  = "[{" ++ Sample.q "message" ++ ":" ++ Sample.q "Hi" ++ "}]"
  /\ Json.decode (frame_body Sample.hi_body)
     = Some (JList [JDict [("message", JStr "Hi")]])
  /\ scan [JDict [("message", JStr "Hi")]] [] = Collected [JStr "Hi"]
  /\ forall toks t h p dl hs rest tr,
       get_answer (mkDuckChat (toks ++ [t]) h (Z.pos p) dl,
                   mkNet (mkResponse 200 hs Sample.hi_body :: rest) tr)
       = (inr "Hi",
          (mkDuckChat ((toks ++ [t]) ++ [header_get hs "x-vqd-4" ""]) h (Z.pos p) dl,
           mkNet rest (tr ++ [EvPost t h]))).
Proof.
  split; [vm_compute; reflexivity|].
  split; [vm_compute; reflexivity|].
  split; [vm_compute; reflexivity|].
  intros toks t h p dl hs rest tr.
  rewrite get_answer_unfold. cbn [max_retries].
  destruct (Pos2Nat.is_succ p) as [k Hk].
  rewrite Z2Nat.inj_pos, Hk. cbn [get_answer_loop]. unfold bind at 1.
  rewrite (attempt_on_answer toks t h (Z.pos p) dl _ rest tr "Hi");
    [reflexivity | vm_compute; reflexivity].
Qed.

Lemma eq_str_true v s : Py.eq_str v s = true -> v = JStr s.
Proof.
  destruct v; simpl; try discriminate. intros H. apply String.eqb_eq in H. now subst.
Qed.

Lemma err_message_is_other x d code :
  Py.dict_get d "type" (JStr "") <> JStr code ->
  err_message_is (err_message_of x d) code = false.
Proof.
  intros H. unfold err_message_of.
  destruct (Py.truthy (Py.dict_get d "type" (JStr ""))); [|reflexivity].
  simpl. destruct (Py.eq_str (Py.dict_get d "type" (JStr "")) code) eqn:E; [|reflexivity].
  apply eq_str_true in E. contradiction.
Qed.

Lemma err_message_is_code x d code :
  code <> "" ->
  Py.dict_get d "type" (JStr "") = JStr code ->
  err_message_of x d = MsgVal (JStr code) /\
  err_message_is (err_message_of x d) code = true.
Proof.
  intros Hc H. unfold err_message_of. rewrite H. simpl.
  destruct (String.eqb code "") eqn:E; [apply String.eqb_eq in E; contradiction|].
  simpl. split; [reflexivity | apply String.eqb_refl].
Qed.

(** The records before the first error record only add to [message]. *)
Lemma scan_content_prefix pre : forall rest acc,
  Forall (fun y => exists m, classify y = Content m) pre ->
  exists acc', scan (pre ++ rest) acc = scan rest acc'.
Proof.
  induction pre as [|y pre IH]; intros rest acc F.
  - exists acc. reflexivity.
  - inversion F as [|? ? [m Hy] F']; subst.
    destruct (IH rest (acc ++ [m])%list F') as [acc' E].
    exists acc'. rewrite <- E. cbn [app]. unfold scan at 1. rewrite Hy. reflexivity.
Qed.

(** The pass on a session that holds a token, when the loop over the
    records of the next response raises. *)
Lemma attempt_on_failed toks t h mr dl r rest tr data e :
  (status r =? 429) = false ->
  Json.decode (frame_body (body r)) = Some (JList data) ->
  scan data [] = Failed e ->
  get_answer_attempt (mkDuckChat (toks ++ [t]) h mr dl, mkNet (r :: rest) tr)
  = (inl e, (mkDuckChat (toks ++ [t]) h mr dl, mkNet rest (tr ++ [EvPost t h]))).
Proof.
  intros Hs Hd Hsc. unfold get_answer_attempt. unfold_steps. simpl.
  rewrite rev_app_distr. simpl. rewrite Hs, Hd, Hsc. reflexivity.
Qed.

(** The loop body on a record that carries [action: error]. *)
Lemma classify_error d :
  Py.dict_get d "action" JNull = JStr "error" ->
  classify (JDict d)
  = let reported := err_message_of (JDict d) d in
    if err_message_is reported "ERR_BN_LIMIT" then SoftBlock
    else if Py.eq_429 (Py.dict_get d "status" JNull) then
           if err_message_is reported "ERR_CONVERSATION_LIMIT"
           then Raises (ConversationLimitException reported)
           else Raises (RatelimitException reported)
         else Raises (DuckChatException reported).
Proof. intros H. unfold classify. rewrite H. reflexivity. Qed.

(** C4: for every decoded record that carries [action: error], the body of
    the loop of [get_answer] ends in a soft block, without an exception, when
    the type of the record is [ERR_BN_LIMIT]; otherwise, with status 429 and
    type [ERR_CONVERSATION_LIMIT], in [ConversationLimitException]; otherwise,
    with status 429, in [RatelimitException]; otherwise in
    [DuckChatException]; each exception carries the type the service
    reported, or the printed record when it reported none. And when the loop
    reaches the record (the records before it are content), that is what the
    pass of [get_answer] does: it returns for a retry, or raises that
    exception, with the session as it was. *)
Theorem C4_error_record_classification d :
  Py.dict_get d "action" JNull = JStr "error" ->
  let type_ := Py.dict_get d "type" (JStr "") in
  let status_ := Py.dict_get d "status" JNull in
  let reported := err_message_of (JDict d) d in
  (type_ = JStr "ERR_BN_LIMIT" -> classify (JDict d) = SoftBlock)
  /\ (type_ <> JStr "ERR_BN_LIMIT" -> Py.eq_429 status_ = true ->
      type_ = JStr "ERR_CONVERSATION_LIMIT" ->
      classify (JDict d)
      = Raises (ConversationLimitException (MsgVal (JStr "ERR_CONVERSATION_LIMIT"))))
  /\ (type_ <> JStr "ERR_BN_LIMIT" -> Py.eq_429 status_ = true ->
      type_ <> JStr "ERR_CONVERSATION_LIMIT" ->
      classify (JDict d) = Raises (RatelimitException reported))
  /\ (type_ <> JStr "ERR_BN_LIMIT" -> Py.eq_429 status_ = false ->
      classify (JDict d) = Raises (DuckChatException reported))
  /\ (forall toks t h mr dl r rest tr pre post,
        (status r =? 429) = false ->
        Json.decode (frame_body (body r)) = Some (JList (pre ++ JDict d :: post)) ->
        Forall (fun y => exists m, classify y = Content m) pre ->
        get_answer_attempt (mkDuckChat (toks ++ [t]) h mr dl, mkNet (r :: rest) tr)
        = (match classify (JDict d) with
           | Raises e => inl e
           | _ => inr None
           end,
           (mkDuckChat (toks ++ [t]) h mr dl, mkNet rest (tr ++ [EvPost t h])))).
Proof.
  intros Hact type_ status_ reported.
  pose proof (classify_error d Hact) as Hcl. cbv zeta in Hcl.
  fold reported status_ in Hcl.
  repeat apply conj.
  - intros Ht.
    destruct (err_message_is_code (JDict d) d "ERR_BN_LIMIT") as [_ Hb];
      [discriminate | exact Ht |].
    fold reported in Hb. rewrite Hb in Hcl. exact Hcl.
  - intros Hn H429 Ht.
    pose proof (err_message_is_other (JDict d) d "ERR_BN_LIMIT" Hn) as Hb.
    destruct (err_message_is_code (JDict d) d "ERR_CONVERSATION_LIMIT") as [Hm Hl];
      [discriminate | exact Ht |].
    fold reported in Hb, Hm, Hl. rewrite Hb, H429, Hl, Hm in Hcl. exact Hcl.
  - intros Hn H429 Ht.
    pose proof (err_message_is_other (JDict d) d "ERR_BN_LIMIT" Hn) as Hb.
    pose proof (err_message_is_other (JDict d) d "ERR_CONVERSATION_LIMIT" Ht) as Hl.
    fold reported in Hb, Hl. rewrite Hb, H429, Hl in Hcl. exact Hcl.
  - intros Hn H429.
    pose proof (err_message_is_other (JDict d) d "ERR_BN_LIMIT" Hn) as Hb.
    fold reported in Hb. rewrite Hb, H429 in Hcl. exact Hcl.
  - intros toks t h mr dl r rest tr pre post Hs Hd Hpre.
    destruct (scan_content_prefix pre (JDict d :: post) [] Hpre) as [acc Hscan].
    assert (Hsc : scan (pre ++ JDict d :: post) []
                  = match classify (JDict d) with
                    | Content m => scan post (acc ++ [m])
                    | SoftBlock => Blocked
                    | Raises e => Failed e
                    end).
    { rewrite Hscan. reflexivity. }
    destruct (classify (JDict d)) as [m| |e] eqn:Ec.
    + exfalso. rewrite Hcl in Ec.
      destruct (err_message_is reported "ERR_BN_LIMIT"); [discriminate|].
      destruct (Py.eq_429 status_); [|discriminate].
      destruct (err_message_is reported "ERR_CONVERSATION_LIMIT"); discriminate.
    + apply attempt_on_block. unfold soft_block, decode_records.
      cbn [status body]. rewrite Hs, Hd, Hsc. reflexivity.
    + apply (attempt_on_failed toks t h mr dl r rest tr _ _ Hs Hd Hsc).
Qed.

(** C4 on a record of the service, status 429 and type
    [ERR_CONVERSATION_LIMIT], alone in its response. *)
Lemma C4_error_record_classification_witness :
  classify (JDict [("action", JStr "error"); ("status", JInt 429);
                   ("type", JStr "ERR_CONVERSATION_LIMIT"); ("message", JStr "limit")])
  = Raises (ConversationLimitException (MsgVal (JStr "ERR_CONVERSATION_LIMIT")))
  /\ get_answer_attempt
       (mkDuckChat ([] ++ ["t0"]) (mkHistory Sample.gpt [Sample.u "q"]) 3 10,
        mkNet [Sample.ok "t1" Sample.limit_body] [])
     = (inl (ConversationLimitException (MsgVal (JStr "ERR_CONVERSATION_LIMIT"))),
        (mkDuckChat ([] ++ ["t0"]) (mkHistory Sample.gpt [Sample.u "q"]) 3 10,
         mkNet [] ([] ++ [EvPost "t0" (mkHistory Sample.gpt [Sample.u "q"])]))).
Proof.
  destruct (C4_error_record_classification
              [("action", JStr "error"); ("status", JInt 429);
               ("type", JStr "ERR_CONVERSATION_LIMIT"); ("message", JStr "limit")])
    as (_ & H & _ & _ & P).
  - reflexivity.
  - split.
    + apply H; [discriminate | reflexivity | reflexivity].
    + apply (P [] "t0" (mkHistory Sample.gpt [Sample.u "q"]) 3 10
               (Sample.ok "t1" Sample.limit_body) [] [] [] []).
      * reflexivity.
      * vm_compute. reflexivity.
      * constructor.
Defined.

(** [reask] never uses an index above the last one of the ledger: the
    guard of line 187 replaces it. *)
Lemma rewind_clamps_above num d n :
  rewind num (d, n)
  = rewind (Z.min num (Z.of_nat (List.length (vqd d)) - 1)) (d, n).
Proof.
  unfold rewind, bind, self. cbn [fst]. cbv zeta.
  assert (E : (if Z.of_nat (List.length (vqd d)) <=? num
               then Z.of_nat (List.length (vqd d)) - 1 else num)
              = (if Z.of_nat (List.length (vqd d))
                      <=? Z.min num (Z.of_nat (List.length (vqd d)) - 1)
                 then Z.of_nat (List.length (vqd d)) - 1
                 else Z.min num (Z.of_nat (List.length (vqd d)) - 1))).
  { destruct (Z.leb_spec (Z.of_nat (List.length (vqd d))) num);
      destruct (Z.leb_spec (Z.of_nat (List.length (vqd d)))
                           (Z.min num (Z.of_nat (List.length (vqd d)) - 1))); lia. }
  rewrite <- E. reflexivity.
Qed.

(** C5, at the failing input: on a ledger of three tokens and a history of
    two turns, [reask_question (-1)] keeps the first two tokens and sends the
    first message under the second token, with no handshake, where
    [reask_question 0] empties the ledger and starts from a handshake; the
    streaming variant differs in the same way. A negative index is used as a
    bound counted from the end, not as index 0. *)
Theorem C5_negative_index_not_clamped :
  let s := (mkDuckChat ["t0"; "t1"; "t2"]
              (mkHistory Sample.gpt
                 [Sample.u "a"; Sample.a "b"; Sample.u "c"; Sample.a "d"]) 3 10,
            mkNet [Sample.ok "t3" Sample.hi_body; Sample.ok "t4" Sample.hi_body] []) in
  reask_question (-1) s
  = (inr "Hi",
     (mkDuckChat ["t0"; "t1"; "t3"]
        (mkHistory Sample.gpt [Sample.u "a"; Sample.a "Hi"]) 3 10,
      mkNet [Sample.ok "t4" Sample.hi_body]
        [EvPost "t1" (mkHistory Sample.gpt [Sample.u "a"])]))
  /\ reask_question 0 s
     = (inr "Hi",
        (mkDuckChat ["t3"; "t4"]
           (mkHistory Sample.gpt [Sample.u "a"; Sample.a "Hi"]) 3 10,
         mkNet [] [EvGet; EvPost "t3" (mkHistory Sample.gpt [Sample.u "a"])]))
  /\ reask_question_stream (-1) s
     = (([JStr "Hi"], inr tt),
        (mkDuckChat ["t0"; "t1"; "t3"]
           (mkHistory Sample.gpt [Sample.u "a"; Sample.a "Hi"]) 3 10,
         mkNet [Sample.ok "t4" Sample.hi_body]
           [EvPost "t1" (mkHistory Sample.gpt [Sample.u "a"])]))
  /\ reask_question_stream 0 s
     = (([JStr "Hi"], inr tt),
        (mkDuckChat ["t3"; "t4"]
           (mkHistory Sample.gpt [Sample.u "a"; Sample.a "Hi"]) 3 10,
         mkNet [] [EvGet; EvPost "t3" (mkHistory Sample.gpt [Sample.u "a"])])).
Proof.
  cbv zeta.
  split; [vm_compute; reflexivity|].
  split; [vm_compute; reflexivity|].
  split; vm_compute; reflexivity.
Qed.

Lemma cut_at_zero (v : list string) :
  slice_to v (if Z.of_nat (List.length v) <=? 0 then Z.of_nat (List.length v) - 1 else 0)
  = [].
Proof. destruct v; reflexivity. Qed.

(** C6: [reask_question 0] on a history that holds messages empties the
    ledger, performs the handshake, and sends the turn with the history cut
    to its first message, under the token of the handshake; when that turn
    succeeds the ledger holds the token of the handshake and the token of the
    turn, and none of the old ones. *)
Theorem C6_reask_zero_fresh_handshake
        v m first others p dl r0 t0 r1 answer rest tr :
  (status r0 =? 429) = false ->
  header_lookup (headers r0) "x-vqd-4" = Some t0 ->
  answer_of r1 = Some answer ->
  reask_question 0
    (mkDuckChat v (mkHistory m (first :: others)) (Z.pos p) dl,
     mkNet (r0 :: r1 :: rest) tr)
  = (inr answer,
     (mkDuckChat [t0; header_get (headers r1) "x-vqd-4" ""]
        (mkHistory m [first; mkMessage assistant answer]) (Z.pos p) dl,
      mkNet rest (tr ++ [EvGet; EvPost t0 (mkHistory m [first])]))).
Proof.
  intros Hs Hh Ha.
  unfold reask_question, rewind. unfold bind at 1 2. unfold self at 1.
  cbn [fst vqd]. rewrite cut_at_zero.
  unfold set_vqd at 1. cbn [history max_retries delay].
  unfold bind at 1 2. unfold self at 1. cbn [fst vqd history messages].
  unfold bind at 1 2. rewrite get_vqd_run. cbn zeta. rewrite Hs, Hh.
  cbn [vqd app history max_retries delay].
  unfold set_messages. unfold_steps. cbn [fst snd vqd history max_retries delay model].
  rewrite get_answer_unfold. cbn [max_retries].
  destruct (Pos2Nat.is_succ p) as [k Hk].
  rewrite Z2Nat.inj_pos, Hk. cbn [get_answer_loop]. unfold bind at 1.
  change [t0] with (([] : list string) ++ [t0])%list at 1.
  rewrite (attempt_on_answer [] t0 (mkHistory m [first]) (Z.pos p) dl r1 rest
             (tr ++ [EvGet])%list answer Ha).
  cbn [app]. unfold_steps. cbn [fst snd vqd history max_retries delay].
  rewrite <- app_assoc. reflexivity.
Qed.

(** C6 on a conversation of two turns. *)
Lemma C6_reask_zero_fresh_handshake_witness :
  reask_question 0
    (mkDuckChat ["t0"; "t1"; "t2"]
       (mkHistory Sample.gpt
          [Sample.u "a"; Sample.a "b"; Sample.u "c"; Sample.a "d"]) 3 10,
     mkNet [Sample.ok "t3" ""; Sample.ok "t4" Sample.hi_body] [])
  = (inr "Hi",
     (mkDuckChat ["t3"; header_get (headers (Sample.ok "t4" Sample.hi_body)) "x-vqd-4" ""]
        (mkHistory Sample.gpt [Sample.u "a"; mkMessage assistant "Hi"]) 3 10,
      mkNet [] ([] ++ [EvGet; EvPost "t3" (mkHistory Sample.gpt [Sample.u "a"])]))).
Proof.
  apply (C6_reask_zero_fresh_handshake
           ["t0"; "t1"; "t2"] Sample.gpt (Sample.u "a")
           [Sample.a "b"; Sample.u "c"; Sample.a "d"] 3%positive 10
           (Sample.ok "t3" "") "t3" (Sample.ok "t4" Sample.hi_body) "Hi" [] []).
  - reflexivity.
  - reflexivity.
  - vm_compute. reflexivity.
Defined.

(** C7, at the failing input: the streamed body holds one record with
    [action: error], status 429, type [ERR_CONVERSATION_LIMIT] and a message.
    [stream_answer] yields that message as a fragment, raises nothing and
    renews the token, where [get_answer] on the same response raises
    [ConversationLimitException]; an error record without a message (a soft
    block) is passed over in silence. The streaming loop never looks at
    [action]. *)
Theorem C7_stream_yields_error_record :
  let d := mkDuckChat ["t0"] (mkHistory Sample.gpt [Sample.u "q"]) 3 10 in
  let sent := [EvPost "t0" (mkHistory Sample.gpt [Sample.u "q"])] in
  stream_answer (d, mkNet [Sample.ok "t1" Sample.limit_body] [])
  = (([JStr "limit"], inr tt),
     (mkDuckChat ["t0"; "t1"] (mkHistory Sample.gpt [Sample.u "q"]) 3 10,
      mkNet [] sent))
  /\ get_answer (d, mkNet [Sample.ok "t1" Sample.limit_body] [])
     = (inl (ConversationLimitException (MsgVal (JStr "ERR_CONVERSATION_LIMIT"))),
        (d, mkNet [] sent))
  /\ stream_answer (d, mkNet [Sample.ok "t1" Sample.block_body] [])
     = (([], inr tt),
        (mkDuckChat ["t0"; "t1"] (mkHistory Sample.gpt [Sample.u "q"]) 3 10,
         mkNet [] sent)).
Proof.
  cbv zeta.
  split; [vm_compute; reflexivity|].
  split; vm_compute; reflexivity.
Qed.

(** C8, at the input that refutes it: a 429 handshake response whose body is
    not JSON ends in [DuckChatException] with the raw body, not in
    [RatelimitException]. *)
Lemma C8_plain_429_counterexample :
  get_vqd (Sample.fresh, mkNet [mkResponse 429 [] "Too Many Requests"] [])
  = (inl (DuckChatException (MsgStr "Too Many Requests")),
     (Sample.fresh, mkNet [] [EvGet]))
  /\ forall m, DuckChatException (MsgStr "Too Many Requests") <> RatelimitException m.
Proof.
  split; [vm_compute; reflexivity | discriminate].
Qed.

(** C8, amended: on status 429 the handshake raises [RatelimitException]
    when the body decodes to a JSON object, and [DuckChatException] with the
    raw body otherwise (the [UnicodeDecodeError] of the body when it is not
    UTF-8); on another status without the [x-vqd-4] header it raises
    [DuckChatException("No x-vqd-4")]; in all these cases the ledger is as it
    was. On another status with the header, exactly the token of the header
    is appended. *)
Theorem C8_handshake_outcomes d r rest tr :
  let before := (d, mkNet (r :: rest) tr) in
  let unchanged := (d, mkNet rest (tr ++ [EvGet])) in
  (status r = 429 ->
   forall o, Json.decode (body r) = Some (JDict o) ->
   get_vqd before
   = (inl (RatelimitException (MsgVal (Py.dict_get o "type" (JStr "")))), unchanged))
  /\ (status r = 429 ->
      (forall o, Json.decode (body r) <> Some (JDict o)) ->
      get_vqd before
      = (inl (if Bytes.utf8_valid (body r)
              then DuckChatException (MsgStr (body r))
              else UnicodeDecodeError (body r)), unchanged))
  /\ (status r <> 429 ->
      header_lookup (headers r) "x-vqd-4" = None ->
      get_vqd before = (inl (DuckChatException (MsgStr "No x-vqd-4")), unchanged))
  /\ (status r <> 429 ->
      forall token, header_lookup (headers r) "x-vqd-4" = Some token ->
      get_vqd before
      = (inr tt,
         (mkDuckChat (vqd d ++ [token]) (history d) (max_retries d) (delay d),
          mkNet rest (tr ++ [EvGet])))).
Proof.
  cbv zeta. repeat apply conj.
  - intros Hs o Ho. rewrite get_vqd_run. cbv zeta. rewrite Hs, Ho. reflexivity.
  - intros Hs Hn. rewrite get_vqd_run. cbv zeta. rewrite Hs.
    change (429 =? 429) with true. cbv iota.
    destruct (Json.decode (body r)) as [[| | | | | |o]|] eqn:E;
      try (destruct (Bytes.utf8_valid (body r)); reflexivity).
    elim (Hn o). reflexivity.
  - intros Hs Hh. rewrite get_vqd_run. cbv zeta.
    apply Z.eqb_neq in Hs. rewrite Hs, Hh. reflexivity.
  - intros Hs token Hh. rewrite get_vqd_run. cbv zeta.
    apply Z.eqb_neq in Hs. rewrite Hs, Hh. reflexivity.
Qed.

(** The amended C8 on a rate-limited handshake whose body is a JSON object. *)
Lemma C8_handshake_outcomes_witness :
  get_vqd (Sample.fresh,
           mkNet [mkResponse 429 []
                    ("{" ++ Sample.q "type" ++ ":" ++ Sample.q "ERR_RATE" ++ "}")] [])
  = (inl (RatelimitException
            (MsgVal (Py.dict_get [("type", JStr "ERR_RATE")] "type" (JStr "")))),
     (Sample.fresh, mkNet [] ([] ++ [EvGet]))).
Proof.
  destruct (C8_handshake_outcomes Sample.fresh
              (mkResponse 429 []
                 ("{" ++ Sample.q "type" ++ ":" ++ Sample.q "ERR_RATE" ++ "}")) [] [])
    as (H & _ & _ & _).
  apply H.
  - reflexivity.
  - vm_compute. reflexivity.
Defined.

(** C9: on a history without messages, [reask_question] returns the empty
    string and [reask_question_stream] raises
    [GeneratorExit("There is no history messages")] before yielding; neither
    issues a request (the script and the trace are as they were), and the
    history stays empty. Both have cut the ledger by then. *)
Theorem C9_reask_on_empty_history num v m mr dl n :
  let cut :=
    slice_to v (if Z.of_nat (List.length v) <=? num
                then Z.of_nat (List.length v) - 1 else num) in
  reask_question num (mkDuckChat v (mkHistory m []) mr dl, n)
  = (inr "", (mkDuckChat cut (mkHistory m []) mr dl, n))
  /\ reask_question_stream num (mkDuckChat v (mkHistory m []) mr dl, n)
     = (([], inl (GeneratorExit "There is no history messages")),
        (mkDuckChat cut (mkHistory m []) mr dl, n)).
Proof.
  cbv zeta. split.
  - unfold reask_question, rewind. unfold_steps. reflexivity.
  - unfold reask_question_stream, rewind. unfold_steps. reflexivity.
Qed.

(** Between a soft block and the next pass there is at most a sleep. *)
Lemma after_block_trace k d n res d' n' :
  (d0 <- self ;;
   (match k with O => ret tt | S _ => sleep (delay d0) end) ;;
   get_answer_loop k) (d, n) = (res, (d', n')) ->
  exists more, trace n' = (trace n ++ more)%list.
Proof.
  unfold bind at 1. unfold self at 1. cbn [fst]. destruct k.
  - unfold bind at 1. unfold ret at 1. intros H. apply loop_trace in H. exact H.
  - unfold bind at 1. unfold sleep, emit. destruct n as [sc tr]. cbn [script trace].
    intros H. apply loop_trace in H. destruct H as [more H]. cbn [trace] in H |- *.
    exists (EvSleep (delay d) :: more). rewrite H, <- app_assoc. reflexivity.
Qed.

(** A pass on a session that holds a token sends exactly one request, under
    the last token of the ledger, whatever comes back. *)
Lemma attempt_sends toks t h mr dl n res d' n' :
  get_answer_attempt (mkDuckChat (toks ++ [t]) h mr dl, n) = (res, (d', n')) ->
  trace n' = (trace n ++ [EvPost t h])%list.
Proof.
  intros H. destruct n as [sc tr].
  unfold get_answer_attempt in H. unfold_steps. simpl in H.
  rewrite rev_app_distr in H. simpl in H.
  destruct sc as [|r rest]; simpl in H; [inversion H; reflexivity|].
  destruct (status r =? 429).
  - destruct (Bytes.utf8_valid (body r)); inversion H; reflexivity.
  - destruct (Json.decode (frame_body (body r))) as [[| | | | |data|]|];
      try (inversion H; reflexivity);
      [| destruct (Bytes.utf8_valid (body r)); inversion H; reflexivity].
    destruct (scan data []) as [message| |e]; try (inversion H; reflexivity).
    simpl in H. destruct (join_parts message); inversion H; reflexivity.
Qed.

(** [stream_answer] on a session that holds a token sends exactly one
    request, under the last token of the ledger, and leaves the history
    alone. *)
Lemma stream_answer_sends toks t h mr dl n out d' n' :
  stream_answer (mkDuckChat (toks ++ [t]) h mr dl, n) = (out, (d', n')) ->
  trace n' = (trace n ++ [EvPost t h])%list.
Proof.
  intros H. destruct n as [sc tr].
  unfold stream_answer, quiet in H. unfold_steps. simpl in H.
  rewrite rev_app_distr in H. simpl in H.
  destruct sc as [|r rest]; simpl in H; [inversion H; reflexivity|].
  destruct (status r =? 429).
  - destruct (Bytes.utf8_valid (body r)); inversion H; reflexivity.
  - destruct (stream_lines (Bytes.iter_lines (body r))) as [ys [chunk|]];
      inversion H; reflexivity.
Qed.

(** A stream that ends normally appended the token of the response it read. *)
Lemma stream_answer_returns d n ys d' n' :
  stream_answer (d, n) = ((ys, inr tt), (d', n')) ->
  exists r,
    script n = r :: script n' /\
    d' = mkDuckChat (vqd d ++ [header_get (headers r) "x-vqd-4" ""])
                    (history d) (max_retries d) (delay d).
Proof.
  intros H. destruct d as [v h mr dl], n as [sc tr].
  unfold stream_answer, quiet in H. unfold_steps. simpl in H.
  destruct (rev v) as [|t rv]; simpl in H; [discriminate|].
  destruct sc as [|r rest]; simpl in H; [discriminate|].
  destruct (status r =? 429).
  - destruct (Bytes.utf8_valid (body r)); discriminate.
  - destruct (stream_lines (Bytes.iter_lines (body r))) as [zs [chunk|]];
      [discriminate|].
    inversion H; subst. exists r. auto.
Qed.

Lemma header_get_missing hs name default :
  header_lookup hs name = None -> header_get hs name default = default.
Proof. unfold header_get. intros ->. reflexivity. Qed.

(** C10: a buffered turn that returns, and a streamed turn that ends
    normally, append to the ledger the empty string when the response they
    read has no [x-vqd-4] header; and a session whose ledger ends with the
    empty string performs no handshake and fails on no missing token at its
    next turn: the first thing [ask_question] does to the service is the turn
    request carrying the empty token, and that request is all that
    [ask_question_stream] does. *)
Theorem C10_missing_header_empty_token :
  (forall d n answer d' n',
      get_answer (d, n) = (inr answer, (d', n')) ->
      exists blocks r,
        script n = (blocks ++ r :: script n')%list /\ answer_of r = Some answer /\
        (header_lookup (headers r) "x-vqd-4" = None ->
         vqd d' = (vqd d ++ [""])%list))
  /\ (forall d n ys d' n',
         stream_answer (d, n) = ((ys, inr tt), (d', n')) ->
         exists r,
           script n = r :: script n' /\
           (header_lookup (headers r) "x-vqd-4" = None ->
            vqd d' = (vqd d ++ [""])%list))
  /\ (forall query toks h mr dl n,
         0 < mr ->
         exists res d' n' more,
           ask_question query (mkDuckChat (toks ++ [""]) h mr dl, n) = (res, (d', n')) /\
           trace n' = (trace n ++ EvPost "" (add_input h query) :: more)%list)
  /\ (forall query toks h mr dl n,
         exists out d' n',
           ask_question_stream query (mkDuckChat (toks ++ [""]) h mr dl, n)
           = (out, (d', n')) /\
           trace n' = (trace n ++ [EvPost "" (add_input h query)])%list).
Proof.
  repeat apply conj.
  - intros d n answer d' n' H. rewrite get_answer_unfold in H.
    apply loop_answer in H. destruct H as (_ & blocks & r & Hsc & _ & Ha & ->).
    exists blocks, r. repeat apply conj; auto.
    intros Hh. cbn [vqd]. now rewrite (header_get_missing _ _ _ Hh).
  - intros d n ys d' n' H. apply stream_answer_returns in H.
    destruct H as (r & Hsc & ->). exists r. split; [exact Hsc|].
    intros Hh. cbn [vqd]. now rewrite (header_get_missing _ _ _ Hh).
  - intros query toks h mr dl n Hmr.
    unfold ask_question. unfold bind at 1. rewrite ensure_vqd_holding.
    unfold bind at 1. unfold history_add_input. unfold_steps.
    cbn [fst snd history vqd max_retries delay].
    rewrite get_answer_unfold. cbn [max_retries].
    destruct (Z.to_nat mr) as [|k] eqn:Ek; [lia|].
    cbn [get_answer_loop]. unfold bind at 1.
    destruct (get_answer_attempt
                (mkDuckChat (toks ++ [""]) (add_input h query) mr dl, n))
      as [[e|[b|]] [d1 n1]] eqn:E; pose proof (attempt_sends _ _ _ _ _ _ _ _ _ E) as T.
    + exists (inl e), d1, n1, []. split; [reflexivity | exact T].
    + unfold ret. simpl. eexists _, _, n1, []. split; [reflexivity | exact T].
    + match goal with
      | |- context [let (_, _) := ?c (d1, n1) in _] =>
          destruct (c (d1, n1)) as [r2 [d2 n2]] eqn:E2
      end.
      pose proof (after_block_trace _ _ _ _ _ _ E2) as T2.
      destruct T2 as [more T2].
      destruct r2 as [e|a2]; simpl.
      * exists (inl e), d2, n2, more. split; [reflexivity|].
        rewrite T2, T, <- app_assoc. reflexivity.
      * destruct d2, n2. simpl. eexists _, _, _, more. split; [reflexivity|].
        simpl in T2. rewrite T2, T, <- app_assoc. reflexivity.
  - intros query toks h mr dl n.
    unfold ask_question_stream, andthen at 1.
    assert (E0 : quiet (ensure_vqd ;; history_add_input query)
                   (mkDuckChat (toks ++ [""]) h mr dl, n)
                 = (([], inr tt),
                    (mkDuckChat (toks ++ [""]) (add_input h query) mr dl, n))).
    { unfold quiet. unfold bind at 1. rewrite ensure_vqd_holding.
      unfold history_add_input. unfold_steps. reflexivity. }
    rewrite E0. unfold andthen.
    destruct (stream_answer (mkDuckChat (toks ++ [""]) (add_input h query) mr dl, n))
      as [[ys [e|[]]] [d1 n1]] eqn:E; pose proof (stream_answer_sends _ _ _ _ _ _ _ _ _ E) as T.
    + eexists _, d1, n1. split; [reflexivity | exact T].
    + unfold quiet.
      destruct ((text <- join_message ys ;; history_add_answer text) (d1, n1))
        as [r2 [d2 n2]] eqn:E2.
      assert (n2 = n1).
      { revert E2. unfold join_message. unfold_steps.
        destruct (join_parts ys); simpl; destruct d1; intros E2; inversion E2; reflexivity. }
      subst n2. eexists _, d2, n1. split; [reflexivity | exact T].
Qed.

(** C10 on a session whose ledger ends with the empty string. *)
Lemma C10_missing_header_empty_token_witness :
  exists res d' n' more,
    ask_question "again"
      (mkDuckChat (["t0"] ++ [""])
         (mkHistory Sample.gpt [Sample.u "q"; Sample.a "Hi"]) 3 10,
       mkNet [Sample.ok "t2" Sample.hi_body] [])
    = (res, (d', n'))
    /\ trace n'
       = ([] ++ EvPost ""
                  (add_input (mkHistory Sample.gpt [Sample.u "q"; Sample.a "Hi"]) "again")
               :: more)%list.
Proof.
  destruct C10_missing_header_empty_token as (_ & _ & H & _).
  apply H. reflexivity.
Defined.

(** Two turns in a row, the first answered without an [x-vqd-4] header: the
    second is sent under the empty token. *)
Example two_turns_without_header :
  let s0 := (mkDuckChat ["t0"] (mkHistory Sample.gpt []) 3 10,
             mkNet [mkResponse 200 [] Sample.hi_body; Sample.ok "t2" Sample.hi_body] []) in
  let s1 := snd (ask_question "q" s0) in
  vqd (fst s1) = ["t0"; ""]
  /\ trace (snd (snd (ask_question "again" s1)))
     = [EvPost "t0" (mkHistory Sample.gpt [Sample.u "q"]);
        EvPost "" (mkHistory Sample.gpt [Sample.u "q"; Sample.a "Hi"; Sample.u "again"])].
Proof. cbv zeta. split; vm_compute; reflexivity. Qed.

(* ================================================================== *)
(** ** Further properties of the engine *)
(* ================================================================== *)

(** *** The retry loop of [get_answer] *)

Lemma retry_trace_snoc t h dl k :
  (retry_trace t h dl k ++ [EvSleep dl; EvPost t h] = retry_trace t h dl (S k))%list.
Proof.
  induction k as [|k IH]; [reflexivity|].
  cbn [retry_trace app]. rewrite IH. reflexivity.
Qed.

Lemma retry_trace_cons t h dl k :
  (EvPost t h :: EvSleep dl :: retry_trace t h dl k = retry_trace t h dl (S k))%list.
Proof. reflexivity. Qed.

(** Soft blocks, then a response with an answer, with passes to spare. *)
Lemma loop_blocks_then_answer blocks : forall k toks t h mr dl r rest tr a,
  forallb soft_block blocks = true ->
  answer_of r = Some a ->
  (List.length blocks < k)%nat ->
  get_answer_loop k
    (mkDuckChat (toks ++ [t]) h mr dl, mkNet (blocks ++ r :: rest) tr)
  = (inr a,
     (mkDuckChat ((toks ++ [t]) ++ [header_get (headers r) "x-vqd-4" ""]) h mr dl,
      mkNet rest (tr ++ retry_trace t h dl (List.length blocks)))).
Proof.
  induction blocks as [|r0 blocks IH]; intros k toks t h mr dl r rest tr a F Ha Hk.
  - destruct k as [|k]; [inversion Hk|].
    cbn [get_answer_loop app List.length retry_trace]. unfold bind at 1.
    rewrite (attempt_on_answer toks t h mr dl r rest tr a Ha). reflexivity.
  - simpl in F. apply andb_prop in F. destruct F as [Fr F].
    destruct k as [|k1]; [inversion Hk|].
    assert (Hk1 : exists k2, k1 = S k2).
    { destruct k1; [simpl in Hk; lia | eauto]. }
    cbn [get_answer_loop app List.length]. unfold bind at 1.
    rewrite (attempt_on_block toks t h mr dl r0 (blocks ++ r :: rest) tr Fr).
    destruct Hk1 as [k2 ->].
    unfold bind at 1. unfold self at 1. cbn [fst delay].
    unfold bind at 1. unfold sleep, emit. cbn [script trace].
    rewrite (IH (S k2) toks t h mr dl r rest _ a F Ha); [|simpl in Hk; lia].
    rewrite <- !app_assoc. reflexivity.
Qed.

(** X1: when the first [k] responses of a turn are soft blocks, [k] below
    [max_retries], and the next one carries an answer, [get_answer] returns
    that answer and appends the token of that response; the history is as it
    was; it has sent [k + 1] requests, each under the same token and with the
    same history, and slept [delay] between two requests, [k] times. *)
Theorem X1_retry_then_answer blocks toks t h mr dl r rest tr answer :
  forallb soft_block blocks = true ->
  answer_of r = Some answer ->
  (List.length blocks < Z.to_nat mr)%nat ->
  get_answer (mkDuckChat (toks ++ [t]) h mr dl, mkNet (blocks ++ r :: rest) tr)
  = (inr answer,
     (mkDuckChat ((toks ++ [t]) ++ [header_get (headers r) "x-vqd-4" ""]) h mr dl,
      mkNet rest (tr ++ retry_trace t h dl (List.length blocks)))).
Proof.
  intros F Ha Hk. rewrite get_answer_unfold. cbn [max_retries].
  apply loop_blocks_then_answer; assumption.
Qed.

(** X1 on two soft blocks and an answer, under the default policy. *)
Lemma X1_retry_then_answer_witness :
  get_answer
    (mkDuckChat ([] ++ ["t0"]) (mkHistory Sample.gpt [Sample.u "q"]) 3 10,
     mkNet ([Sample.ok "t1" Sample.block_body; Sample.ok "t2" Sample.block_body]
              ++ Sample.ok "t3" Sample.hi_body :: []) [])
  = (inr "Hi",
     (mkDuckChat (([] ++ ["t0"])
                    ++ [header_get (headers (Sample.ok "t3" Sample.hi_body)) "x-vqd-4" ""])
        (mkHistory Sample.gpt [Sample.u "q"]) 3 10,
      mkNet [] ([] ++ retry_trace "t0" (mkHistory Sample.gpt [Sample.u "q"]) 10 2))).
Proof.
  apply (X1_retry_then_answer
           [Sample.ok "t1" Sample.block_body; Sample.ok "t2" Sample.block_body]
           [] "t0" (mkHistory Sample.gpt [Sample.u "q"]) 3 10
           (Sample.ok "t3" Sample.hi_body) [] [] "Hi").
  - vm_compute. reflexivity.
  - vm_compute. reflexivity.
  - vm_compute. lia.
Defined.

(** All passes blocked: what was sent. *)
Lemma loop_all_blocked_trace blocks : forall k toks t h mr dl rest tr,
  k = List.length blocks ->
  forallb soft_block blocks = true ->
  get_answer_loop k
    (mkDuckChat (toks ++ [t]) h mr dl, mkNet (blocks ++ rest) tr)
  = (inl (DuckChatException
            (MsgStr ("ERR_BN_LIMIT after " ++ Bytes.str_of_int mr ++ " attempts"))),
     (mkDuckChat (toks ++ [t]) h mr dl,
      mkNet rest (tr ++ passes_trace t h dl k))).
Proof.
  induction blocks as [|r blocks IH]; intros k toks t h mr dl rest tr Hk F.
  - subst k. cbn [List.length passes_trace]. rewrite app_nil_r. reflexivity.
  - simpl in F. apply andb_prop in F. destruct F as [Fr F].
    destruct k as [|k1]; [discriminate Hk|]. injection Hk as Hk.
    cbn [get_answer_loop app]. unfold bind at 1.
    rewrite (attempt_on_block toks t h mr dl r (blocks ++ rest) tr Fr).
    unfold bind at 1. unfold self at 1. cbn [fst delay].
    destruct k1 as [|k2].
    + destruct blocks; [reflexivity | discriminate Hk].
    + unfold bind at 1. unfold sleep, emit. cbn [script trace].
      rewrite (IH (S k2) toks t h mr dl rest _ Hk F).
      cbn [passes_trace retry_trace]. rewrite <- !app_assoc. reflexivity.
Qed.

(** X2: when every one of the [max_retries] passes of [get_answer] meets a
    soft block, exactly [max_retries] requests were sent, each under the same
    token and with the same history, with a sleep of [delay] between two
    requests and none after the last; the responses after them are left
    unread. *)
Theorem X2_exhausted_sends_max_retries blocks toks t h mr dl rest tr :
  forallb soft_block blocks = true ->
  List.length blocks = Z.to_nat mr ->
  get_answer (mkDuckChat (toks ++ [t]) h mr dl, mkNet (blocks ++ rest) tr)
  = (inl (DuckChatException
            (MsgStr ("ERR_BN_LIMIT after " ++ Bytes.str_of_int mr ++ " attempts"))),
     (mkDuckChat (toks ++ [t]) h mr dl,
      mkNet rest (tr ++ passes_trace t h dl (Z.to_nat mr)))).
Proof.
  intros F L. rewrite get_answer_unfold. cbn [max_retries].
  apply loop_all_blocked_trace; [symmetry; exact L | exact F].
Qed.

(** X2 on three soft blocks, a fourth response left unread. *)
Lemma X2_exhausted_sends_max_retries_witness :
  get_answer
    (mkDuckChat ([] ++ ["t0"]) (mkHistory Sample.gpt [Sample.u "q"]) 3 10,
     mkNet ([Sample.ok "t1" Sample.block_body; Sample.ok "t2" Sample.block_body;
             Sample.ok "t3" Sample.block_body] ++ [Sample.ok "t4" Sample.hi_body]) [])
  = (inl (DuckChatException
            (MsgStr ("ERR_BN_LIMIT after " ++ Bytes.str_of_int 3 ++ " attempts"))),
     (mkDuckChat ([] ++ ["t0"]) (mkHistory Sample.gpt [Sample.u "q"]) 3 10,
      mkNet [Sample.ok "t4" Sample.hi_body]
        ([] ++ passes_trace "t0" (mkHistory Sample.gpt [Sample.u "q"]) 10 (Z.to_nat 3)))).
Proof.
  apply (X2_exhausted_sends_max_retries
           [Sample.ok "t1" Sample.block_body; Sample.ok "t2" Sample.block_body;
            Sample.ok "t3" Sample.block_body]
           [] "t0" (mkHistory Sample.gpt [Sample.u "q"]) 3 10
           [Sample.ok "t4" Sample.hi_body] []).
  - vm_compute. reflexivity.
  - reflexivity.
Defined.

(** One pass on a session that holds a token, on the response it reads. *)
Lemma attempt_run toks t h mr dl r rest tr :
  get_answer_attempt (mkDuckChat (toks ++ [t]) h mr dl, mkNet (r :: rest) tr)
  = let d := mkDuckChat (toks ++ [t]) h mr dl in
    let n' := mkNet rest (tr ++ [EvPost t h]) in
    if status r =? 429 then
      (if Bytes.utf8_valid (body r)
       then inl (RatelimitException (MsgStr (body r)))
       else inl (UnicodeDecodeError (body r)), (d, n'))
    else
      match Json.decode (frame_body (body r)) with
      | None =>
          (if Bytes.utf8_valid (body r)
           then inl (DuckChatException (MsgStr ("Couldn't parse body=" ++ body r)))
           else inl (UnicodeDecodeError (body r)), (d, n'))
      | Some (JList data) =>
          match scan data [] with
          | Failed e => (inl e, (d, n'))
          | Blocked => (inr None, (d, n'))
          | Collected message =>
              (match join_parts message with
               | Some a => inr (Some a)
               | None => inl TypeError
               end,
               (mkDuckChat ((toks ++ [t]) ++ [header_get (headers r) "x-vqd-4" ""]) h mr dl,
                n'))
          end
      | Some _ => (inl TypeError, (d, n'))
      end.
Proof.
  unfold get_answer_attempt. unfold_steps. simpl.
  rewrite rev_app_distr. simpl.
  destruct (status r =? 429).
  - destruct (Bytes.utf8_valid (body r)); reflexivity.
  - destruct (Json.decode (frame_body (body r))) as [[| | | | |data|]|];
      try reflexivity; [| destruct (Bytes.utf8_valid (body r)); reflexivity].
    destruct (scan data []) as [message| |e]; try reflexivity.
    simpl. destruct (join_parts message); reflexivity.
Qed.

(** A pass that raises ends the turn. *)
Lemma loop_raises k s e s' :
  get_answer_attempt s = (inl e, s') ->
  get_answer_loop (S k) s = (inl e, s').
Proof.
  intros H. cbn [get_answer_loop]. unfold bind at 1. rewrite H. reflexivity.
Qed.

Lemma positive_passes mr : 0 < mr -> exists k, Z.to_nat mr = S k.
Proof.
  intros H. destruct (Z.to_nat mr) as [|k] eqn:E; [lia | eauto].
Qed.

(** X3: a turn response with HTTP status 429 is not retried: whatever
    [max_retries] (at least one), [get_answer] raises [RatelimitException]
    with the text of the body (the [UnicodeDecodeError] of the body when it is
    not UTF-8) after that one request, without a sleep, with the session as
    it was and the later responses unread. *)
Theorem X3_turn_429_not_retried toks t h mr dl r rest tr :
  status r = 429 ->
  0 < mr ->
  get_answer (mkDuckChat (toks ++ [t]) h mr dl, mkNet (r :: rest) tr)
  = (if Bytes.utf8_valid (body r)
     then inl (RatelimitException (MsgStr (body r)))
     else inl (UnicodeDecodeError (body r)),
     (mkDuckChat (toks ++ [t]) h mr dl, mkNet rest (tr ++ [EvPost t h]))).
Proof.
  intros Hs Hmr. rewrite get_answer_unfold. cbn [max_retries].
  destruct (positive_passes mr Hmr) as [k ->].
  assert (E := attempt_run toks t h mr dl r rest tr). cbv zeta in E.
  rewrite Hs in E. change (429 =? 429) with true in E. cbv iota in E.
  destruct (Bytes.utf8_valid (body r)); apply loop_raises; exact E.
Qed.

(** X3 on a rate-limited turn followed by a response that is never read. *)
Lemma X3_turn_429_not_retried_witness :
  get_answer
    (mkDuckChat ([] ++ ["t0"]) (mkHistory Sample.gpt [Sample.u "q"]) 3 10,
     mkNet [mkResponse 429 [] "slow down"; Sample.ok "t1" Sample.hi_body] [])
  = (if Bytes.utf8_valid (body (mkResponse 429 [] "slow down"))
     then inl (RatelimitException (MsgStr (body (mkResponse 429 [] "slow down"))))
     else inl (UnicodeDecodeError (body (mkResponse 429 [] "slow down"))),
     (mkDuckChat ([] ++ ["t0"]) (mkHistory Sample.gpt [Sample.u "q"]) 3 10,
      mkNet [Sample.ok "t1" Sample.hi_body]
        ([] ++ [EvPost "t0" (mkHistory Sample.gpt [Sample.u "q"])]))).
Proof.
  apply (X3_turn_429_not_retried [] "t0" (mkHistory Sample.gpt [Sample.u "q"]) 3 10
           (mkResponse 429 [] "slow down") [Sample.ok "t1" Sample.hi_body] []).
  - reflexivity.
  - reflexivity.
Defined.

(** X4: a turn response whose framed body does not decode is not retried
    either: [get_answer] raises [DuckChatException] whose message is
    ["Couldn't parse body="] followed by the whole body as received (the
    [UnicodeDecodeError] of the body when it is not UTF-8), after that one
    request, with the session as it was. *)
Theorem X4_undecodable_body_not_retried toks t h mr dl r rest tr :
  status r <> 429 ->
  Json.decode (frame_body (body r)) = None ->
  0 < mr ->
  get_answer (mkDuckChat (toks ++ [t]) h mr dl, mkNet (r :: rest) tr)
  = (if Bytes.utf8_valid (body r)
     then inl (DuckChatException (MsgStr ("Couldn't parse body=" ++ body r)))
     else inl (UnicodeDecodeError (body r)),
     (mkDuckChat (toks ++ [t]) h mr dl, mkNet rest (tr ++ [EvPost t h]))).
Proof.
  intros Hs Hd Hmr. rewrite get_answer_unfold. cbn [max_retries].
  destruct (positive_passes mr Hmr) as [k ->].
  assert (E := attempt_run toks t h mr dl r rest tr). cbv zeta in E.
  apply Z.eqb_neq in Hs. rewrite Hs, Hd in E.
  destruct (Bytes.utf8_valid (body r)); apply loop_raises; exact E.
Qed.

(** X4 on an HTML error page served with status 200. *)
Lemma X4_undecodable_body_not_retried_witness :
  get_answer
    (mkDuckChat ([] ++ ["t0"]) (mkHistory Sample.gpt [Sample.u "q"]) 3 10,
     mkNet [mkResponse 200 [] "<html>Bad gateway</html>"] [])
  = (if Bytes.utf8_valid (body (mkResponse 200 [] "<html>Bad gateway</html>"))
     then inl (DuckChatException
                 (MsgStr ("Couldn't parse body="
                          ++ body (mkResponse 200 [] "<html>Bad gateway</html>"))))
     else inl (UnicodeDecodeError (body (mkResponse 200 [] "<html>Bad gateway</html>"))),
     (mkDuckChat ([] ++ ["t0"]) (mkHistory Sample.gpt [Sample.u "q"]) 3 10,
      mkNet [] ([] ++ [EvPost "t0" (mkHistory Sample.gpt [Sample.u "q"])]))).
Proof.
  apply (X4_undecodable_body_not_retried [] "t0" (mkHistory Sample.gpt [Sample.u "q"])
           3 10 (mkResponse 200 [] "<html>Bad gateway</html>") [] []).
  - discriminate.
  - vm_compute. reflexivity.
  - reflexivity.
Defined.

(** What one pass may change, whatever it reads and however it ends. *)
Lemma attempt_frame d n res d' n' :
  get_answer_attempt (d, n) = (res, (d', n')) ->
  history d' = history d /\ max_retries d' = max_retries d /\ delay d' = delay d
  /\ (vqd d' = vqd d
      \/ (exists token, vqd d' = (vqd d ++ [token])%list)
         /\ (res = inl TypeError \/ exists a, res = inr (Some a))).
Proof.
  intros H. destruct d as [v h mr dl], n as [sc tr].
  unfold get_answer_attempt in H. unfold_steps. simpl in H.
  destruct (rev v) as [|t rv]; simpl in H; [inversion H; subst; simpl; auto|].
  destruct sc as [|r rest]; simpl in H; [inversion H; subst; simpl; auto|].
  destruct (status r =? 429).
  - destruct (Bytes.utf8_valid (body r)); inversion H; subst; simpl; auto.
  - destruct (Json.decode (frame_body (body r))) as [[| | | | |data|]|];
      try (inversion H; subst; simpl; auto; fail);
      [| destruct (Bytes.utf8_valid (body r)); inversion H; subst; simpl; auto].
    destruct (scan data []) as [message| |e];
      try (inversion H; subst; simpl; auto; fail).
    simpl in H. destruct (join_parts message); inversion H; subst; simpl;
      repeat split; right; eauto.
Qed.

Lemma loop_frame k : forall d n res d' n',
  get_answer_loop k (d, n) = (res, (d', n')) ->
  history d' = history d /\ max_retries d' = max_retries d /\ delay d' = delay d
  /\ (vqd d' = vqd d
      \/ (exists token, vqd d' = (vqd d ++ [token])%list)
         /\ (res = inl TypeError \/ exists a, res = inr a)).
Proof.
  induction k as [|k IH]; intros d n res d' n' H; simpl in H.
  - unfold_steps. simpl in H. inversion H; subst. auto.
  - unfold bind at 1 in H.
    destruct (get_answer_attempt (d, n)) as [[e|[a|]] [d1 n1]] eqn:E.
    + inversion H; subst. apply attempt_frame in E.
      destruct E as (Hh & Hm & Hd & Hv). split; [exact Hh|].
      split; [exact Hm|]. split; [exact Hd|].
      destruct Hv as [Hv | [Ht [He | [a Ha]]]].
      * left. exact Hv.
      * right. split; [exact Ht | left; inversion He; reflexivity].
      * discriminate Ha.
    + unfold ret in H. inversion H; subst. apply attempt_frame in E.
      destruct E as (Hh & Hm & Hd & Hv). split; [exact Hh|].
      split; [exact Hm|]. split; [exact Hd|].
      destruct Hv as [Hv | [Ht _]].
      * left. exact Hv.
      * right. split; [exact Ht | right; eauto].
    + apply attempt_blocked in E. destruct E as (-> & _).
      assert (Hs : exists n2, get_answer_loop k (d, n2) = (res, (d', n'))).
      { destruct k; unfold_steps; destruct n1 as [sc1 tr1]; simpl in H; eauto. }
      destruct Hs as [n2 L]. apply IH in L. exact L.
Qed.

(** X5: whatever the service answers and however it ends, [get_answer]
    leaves the history, [max_retries] and [delay] as they were, and the
    ledger too unless it appends one token to it, which it does when it
    returns an answer and otherwise only when it raises [TypeError]. *)
Theorem X5_get_answer_touches_only_ledger d n res d' n' :
  get_answer (d, n) = (res, (d', n')) ->
  history d' = history d /\ max_retries d' = max_retries d /\ delay d' = delay d
  /\ (vqd d' = vqd d \/ exists token, vqd d' = (vqd d ++ [token])%list)
  /\ ((exists a, res = inr a) -> exists token, vqd d' = (vqd d ++ [token])%list)
  /\ (forall e, res = inl e -> e <> TypeError -> vqd d' = vqd d).
Proof.
  intros H. rewrite get_answer_unfold in H.
  pose proof (loop_frame _ _ _ _ _ _ H) as (Hh & Hm & Hd & Hv).
  repeat split; auto.
  - destruct Hv as [Hv | [Ht _]]; auto.
  - intros [a ->]. apply loop_answer in H.
    destruct H as (_ & blocks & r & _ & _ & _ & ->). simpl. eauto.
  - intros e -> Hne. destruct Hv as [Hv | [_ [He | [a Ha]]]]; auto.
    + inversion He. contradiction.
    + discriminate Ha.
Qed.

(** X5 on a turn cut short by an embedded conversation limit. *)
Lemma X5_get_answer_touches_only_ledger_witness :
  history (mkDuckChat ["t0"] (mkHistory Sample.gpt [Sample.u "q"]) 3 10)
  = history (mkDuckChat ["t0"] (mkHistory Sample.gpt [Sample.u "q"]) 3 10)
  /\ vqd (mkDuckChat ["t0"] (mkHistory Sample.gpt [Sample.u "q"]) 3 10)
     = vqd (mkDuckChat ["t0"] (mkHistory Sample.gpt [Sample.u "q"]) 3 10).
Proof.
  destruct (X5_get_answer_touches_only_ledger
              (mkDuckChat ["t0"] (mkHistory Sample.gpt [Sample.u "q"]) 3 10)
              (mkNet [Sample.ok "t1" Sample.limit_body] [])
              (inl (ConversationLimitException (MsgVal (JStr "ERR_CONVERSATION_LIMIT"))))
              (mkDuckChat ["t0"] (mkHistory Sample.gpt [Sample.u "q"]) 3 10)
              (mkNet [] [EvPost "t0" (mkHistory Sample.gpt [Sample.u "q"])]))
    as (Hh & _ & _ & _ & _ & Hv).
  - vm_compute. reflexivity.
  - split; [exact Hh | apply (Hv _ eq_refl); discriminate].
Defined.

(** X6: when the records of a response are all content but one of them has
    a [message] that is not a string, [get_answer] raises [TypeError] from the
    final join, after it has appended the token of the response: the ledger
    then holds a token for an answer that was never returned. *)
Theorem X6_type_error_after_token toks t h mr dl r rest tr data message :
  status r <> 429 ->
  Json.decode (frame_body (body r)) = Some (JList data) ->
  scan data [] = Collected message ->
  join_parts message = None ->
  0 < mr ->
  get_answer (mkDuckChat (toks ++ [t]) h mr dl, mkNet (r :: rest) tr)
  = (inl TypeError,
     (mkDuckChat ((toks ++ [t]) ++ [header_get (headers r) "x-vqd-4" ""]) h mr dl,
      mkNet rest (tr ++ [EvPost t h]))).
Proof.
  intros Hs Hd Hsc Hj Hmr. rewrite get_answer_unfold. cbn [max_retries].
  destruct (positive_passes mr Hmr) as [k ->].
  assert (E := attempt_run toks t h mr dl r rest tr). cbv zeta in E.
  apply Z.eqb_neq in Hs. rewrite Hs, Hd, Hsc, Hj in E.
  apply loop_raises. exact E.
Qed.

(** X6 on the record [{"message":null}]. *)
Lemma X6_type_error_after_token_witness :
  get_answer
    (mkDuckChat ([] ++ ["t0"]) (mkHistory Sample.gpt [Sample.u "q"]) 3 10,
     mkNet [Sample.ok "t1" ("data: {" ++ Sample.q "message" ++ ":null}" ++ Bytes.LF)] [])
  = (inl TypeError,
     (mkDuckChat
        (([] ++ ["t0"])
           ++ [header_get
                 (headers (Sample.ok "t1"
                             ("data: {" ++ Sample.q "message" ++ ":null}" ++ Bytes.LF)))
                 "x-vqd-4" ""])
        (mkHistory Sample.gpt [Sample.u "q"]) 3 10,
      mkNet [] ([] ++ [EvPost "t0" (mkHistory Sample.gpt [Sample.u "q"])]))).
Proof.
  apply (X6_type_error_after_token [] "t0" (mkHistory Sample.gpt [Sample.u "q"]) 3 10
           (Sample.ok "t1" ("data: {" ++ Sample.q "message" ++ ":null}" ++ Bytes.LF))
           [] [] [JDict [("message", JNull)]] [JNull]).
  - discriminate.
  - vm_compute. reflexivity.
  - reflexivity.
  - reflexivity.
  - reflexivity.
Defined.

(** *** No turn is sent from an empty ledger *)

Lemma scan_not_index data : forall acc e, scan data acc = Failed e -> e <> IndexError.
Proof.
  induction data as [|x data IH]; intros acc e H.
  - discriminate H.
  - unfold scan in H. fold scan in H.
    destruct (classify x) as [m| |e0] eqn:C.
    + eapply IH. exact H.
    + discriminate H.
    + inversion H; subst. unfold classify in C.
      destruct x as [| | | | | |d]; try (inversion C; discriminate).
      destruct (Py.eq_str (Py.dict_get d "action" JNull) "error"); [|discriminate C].
      destruct (err_message_is _ "ERR_BN_LIMIT"); [discriminate C|].
      destruct (Py.eq_429 _);
        [destruct (err_message_is _ "ERR_CONVERSATION_LIMIT")|];
        inversion C; discriminate.
Qed.

Lemma attempt_not_index d n e s' :
  vqd d <> [] -> get_answer_attempt (d, n) = (inl e, s') -> e <> IndexError.
Proof.
  intros Hne H. destruct (exists_last Hne) as (toks & t & Ev).
  destruct d as [v h mr dl]. simpl in Ev. subst v.
  destruct n as [[|r rest] tr].
  - unfold get_answer_attempt in H. unfold_steps. simpl in H.
    rewrite rev_app_distr in H. simpl in H. inversion H. discriminate.
  - rewrite attempt_run in H. cbv zeta in H.
    destruct (status r =? 429).
    + destruct (Bytes.utf8_valid (body r)); inversion H; discriminate.
    + destruct (Json.decode (frame_body (body r))) as [[| | | | |data|]|];
        try (inversion H; discriminate);
        [| destruct (Bytes.utf8_valid (body r)); inversion H; discriminate].
      destruct (scan data []) as [message| |e0] eqn:Sc.
      * destruct (join_parts message); inversion H; discriminate.
      * inversion H.
      * inversion H; subst. eapply scan_not_index. exact Sc.
Qed.

Lemma loop_not_index k : forall d n e s',
  vqd d <> [] -> get_answer_loop k (d, n) = (inl e, s') -> e <> IndexError.
Proof.
  induction k as [|k IH]; intros d n e s' Hne H; simpl in H.
  - unfold_steps. simpl in H. inversion H. discriminate.
  - unfold bind at 1 in H.
    destruct (get_answer_attempt (d, n)) as [[e0|[a|]] [d1 n1]] eqn:E.
    + inversion H; subst. eapply attempt_not_index; eauto.
    + discriminate H.
    + apply attempt_blocked in E. destruct E as (-> & _).
      assert (Hs : exists n2, get_answer_loop k (d, n2) = (inl e, s')).
      { destruct k; unfold_steps; destruct n1 as [sc1 tr1]; simpl in H; eauto. }
      destruct Hs as [n2 L]. eapply IH; eauto.
Qed.

Lemma get_vqd_not_index d n e s' :
  get_vqd (d, n) = (inl e, s') -> e <> IndexError.
Proof.
  destruct n as [[|r rest] tr].
  - unfold get_vqd. unfold_steps. simpl. intros H. inversion H. discriminate.
  - rewrite get_vqd_run. cbv zeta.
    destruct (status r =? 429).
    + destruct (Json.decode (body r)) as [[| | | | | |o]|];
        try (destruct (Bytes.utf8_valid (body r)));
        intros H; inversion H; discriminate.
    + destruct (header_lookup (headers r) "x-vqd-4");
        intros H; inversion H; discriminate.
Qed.

Lemma ensure_vqd_outcome d n res d' n' :
  ensure_vqd (d, n) = (res, (d', n')) ->
  match res with
  | inr _ => vqd d' <> [] /\ history d' = history d
  | inl e => e <> IndexError /\ d' = d
  end.
Proof.
  unfold ensure_vqd. unfold bind at 1. unfold self at 1. cbn [fst].
  destruct (vqd d) as [|t0 v] eqn:Ev.
  - intros H. destruct res as [e|[]].
    + split; [eapply get_vqd_not_index; exact H|].
      destruct n as [[|r rest] tr].
      * unfold get_vqd in H. unfold_steps. simpl in H. inversion H. reflexivity.
      * rewrite get_vqd_run in H. cbv zeta in H.
        destruct (status r =? 429).
        -- destruct (Json.decode (body r)) as [[| | | | | |o]|];
             try (destruct (Bytes.utf8_valid (body r))); inversion H; reflexivity.
        -- destruct (header_lookup (headers r) "x-vqd-4"); inversion H; reflexivity.
    + apply get_vqd_returns in H. destruct H as [token ->]. simpl.
      split; [|reflexivity]. destruct (vqd d); discriminate.
  - unfold ret. intros H. inversion H; subst. rewrite Ev. split; [discriminate | reflexivity].
Qed.

Lemma stream_answer_not_index d n ys e s' :
  vqd d <> [] -> stream_answer (d, n) = ((ys, inl e), s') -> e <> IndexError.
Proof.
  intros Hne H. destruct (exists_last Hne) as (toks & t & Ev).
  destruct d as [v h mr dl], n as [sc tr]. simpl in Ev. subst v.
  unfold stream_answer, quiet in H. unfold_steps. simpl in H.
  rewrite rev_app_distr in H. simpl in H.
  destruct sc as [|r rest]; simpl in H; [inversion H; discriminate|].
  destruct (status r =? 429).
  - destruct (Bytes.utf8_valid (body r)); inversion H; discriminate.
  - destruct (stream_lines (Bytes.iter_lines (body r))) as [zs [chunk|]].
    + inversion H. unfold streaming_error.
      destruct (Bytes.utf8_valid chunk); discriminate.
    + inversion H.
Qed.

Lemma rewind_outcome num d n res d' n' :
  rewind num (d, n) = (res, (d', n')) ->
  match res with
  | inr false => vqd d' <> []
  | inr true => True
  | inl e => e <> IndexError
  end.
Proof.
  unfold rewind. unfold bind at 1. unfold self at 1. cbn [fst]. cbv zeta.
  unfold bind at 1. unfold set_vqd at 1. destruct d as [v h mr dl].
  cbn [vqd history max_retries delay].
  unfold bind at 1. unfold self at 1. cbn [fst vqd history].
  destruct (messages h) as [|first others].
  - unfold ret. intros H. inversion H. exact I.
  - set (cut := slice_to v _).
    destruct cut as [|t0 cut'] eqn:Ec.
    + unfold bind at 1 2.
      destruct (get_vqd (mkDuckChat [] h mr dl, n)) as [[e|[]] [d1 n1]] eqn:G.
      * intros H. inversion H; subst. eapply get_vqd_not_index. exact G.
      * apply get_vqd_returns in G. destruct G as [token ->].
        unfold set_messages. unfold_steps. simpl. intros H. inversion H. discriminate.
    + unfold bind at 1. unfold set_messages. unfold_steps. simpl.
      intros H. inversion H. discriminate.
Qed.

(** X7: [get_answer] and [stream_answer] read the last token of the ledger
    before they send anything, so on an empty ledger they raise [IndexError]
    and send nothing; the four entry points never end that way, whatever the
    session and whatever the service answers: each of them reaches the turn
    with a ledger that holds a token. *)
Theorem X7_entry_points_never_index_error :
  (forall h mr dl n, 0 < mr ->
     get_answer (mkDuckChat [] h mr dl, n) = (inl IndexError, (mkDuckChat [] h mr dl, n)))
  /\ (forall h mr dl n,
        stream_answer (mkDuckChat [] h mr dl, n)
        = (([], inl IndexError), (mkDuckChat [] h mr dl, n)))
  /\ (forall query s e s', ask_question query s = (inl e, s') -> e <> IndexError)
  /\ (forall num s e s', reask_question num s = (inl e, s') -> e <> IndexError)
  /\ (forall query s ys e s',
        ask_question_stream query s = ((ys, inl e), s') -> e <> IndexError)
  /\ (forall num s ys e s',
        reask_question_stream num s = ((ys, inl e), s') -> e <> IndexError).
Proof.
  repeat apply conj.
  - intros h mr dl n Hmr. rewrite get_answer_unfold. cbn [max_retries].
    destruct (positive_passes mr Hmr) as [k ->]. reflexivity.
  - intros h mr dl n. reflexivity.
  - intros query [d n] e s' H. unfold ask_question in H. unfold bind at 1 in H.
    destruct (ensure_vqd (d, n)) as [[e0|[]] [d1 n1]] eqn:E1;
      apply ensure_vqd_outcome in E1.
    + inversion H; subst. apply E1.
    + destruct E1 as [Hne _]. unfold bind at 1 in H.
      unfold history_add_input in H. unfold_steps. destruct d1 as [v1 h1 mr1 dl1].
      cbn [fst snd vqd history max_retries delay] in H, Hne.
      match type of H with
      | context [get_answer ?s] => destruct (get_answer s) as [[e2|m] [d2 n2]] eqn:E2
      end.
      * inversion H; subst. rewrite get_answer_unfold in E2.
        eapply loop_not_index; [|exact E2]. exact Hne.
      * destruct d2. simpl in H. discriminate H.
  - intros num [d n] e s' H. unfold reask_question in H. unfold bind at 1 in H.
    destruct (rewind num (d, n)) as [[e0|[|]] [d1 n1]] eqn:E1;
      apply rewind_outcome in E1.
    + inversion H; subst. exact E1.
    + discriminate H.
    + unfold bind at 1 in H.
      destruct (get_answer (d1, n1)) as [[e2|m] [d2 n2]] eqn:E2.
      * inversion H; subst. rewrite get_answer_unfold in E2.
        eapply loop_not_index; [|exact E2]. exact E1.
      * unfold history_add_answer in H. unfold_steps. destruct d2. simpl in H.
        discriminate H.
  - intros query [d n] ys e s' H. unfold ask_question_stream, andthen at 1 in H.
    unfold quiet at 1 in H. unfold bind at 1 in H.
    destruct (ensure_vqd (d, n)) as [[e0|[]] [d1 n1]] eqn:E1;
      apply ensure_vqd_outcome in E1.
    + inversion H; subst. apply E1.
    + destruct E1 as [Hne _]. unfold history_add_input in H. unfold_steps.
      destruct d1 as [v1 h1 mr1 dl1].
      cbn [fst snd vqd history max_retries delay] in H, Hne.
      unfold andthen in H.
      match type of H with
      | context [stream_answer ?s] =>
          destruct (stream_answer s) as [[zs [e2|[]]] [d2 n2]] eqn:E2
      end.
      * inversion H; subst. eapply stream_answer_not_index; [|exact E2]. exact Hne.
      * unfold quiet, join_message in H. unfold_steps.
        destruct (join_parts zs); destruct d2; simpl in H; inversion H. discriminate.
  - intros num [d n] ys e s' H. unfold reask_question_stream in H.
    destruct (rewind num (d, n)) as [[e0|[|]] [d1 n1]] eqn:E1;
      apply rewind_outcome in E1.
    + inversion H; subst. exact E1.
    + inversion H. discriminate.
    + unfold andthen in H.
      destruct (stream_answer (d1, n1)) as [[zs [e2|[]]] [d2 n2]] eqn:E2.
      * inversion H; subst. eapply stream_answer_not_index; [|exact E2]. exact E1.
      * unfold quiet, join_message in H. unfold_steps.
        destruct (join_parts zs); destruct d2; simpl in H; inversion H. discriminate.
Qed.

(** X7 on a fresh session whose handshake is refused for want of the header. *)
Lemma X7_entry_points_never_index_error_witness :
  DuckChatException (MsgStr "No x-vqd-4") <> IndexError.
Proof.
  destruct X7_entry_points_never_index_error as (_ & _ & H & _).
  apply (H "q" (Sample.fresh, mkNet [mkResponse 200 [] ""] [])
           (DuckChatException (MsgStr "No x-vqd-4"))
           (Sample.fresh, mkNet [] [EvGet])).
  vm_compute. reflexivity.
Defined.

(** X8: with [max_retries] at or below zero the loop of [get_answer] is never
    entered: [ask_question] on a session that holds a token sends nothing and
    reads nothing, raises the retries-exhausted exception, and has appended
    the user message of the query to the history all the same. *)
Theorem X8_no_pass_without_retries query toks t h mr dl n :
  mr <= 0 ->
  ask_question query (mkDuckChat (toks ++ [t]) h mr dl, n)
  = (inl (DuckChatException
            (MsgStr ("ERR_BN_LIMIT after " ++ Bytes.str_of_int mr ++ " attempts"))),
     (mkDuckChat (toks ++ [t]) (add_input h query) mr dl, n)).
Proof.
  intros Hmr. unfold ask_question. unfold bind at 1. rewrite ensure_vqd_holding.
  unfold bind at 1. unfold history_add_input. unfold_steps.
  cbn [fst snd history vqd max_retries delay].
  rewrite get_answer_unfold. cbn [max_retries].
  replace (Z.to_nat mr) with 0%nat by lia. reflexivity.
Qed.

(** X8 at [max_retries = 0]. *)
Lemma X8_no_pass_without_retries_witness :
  ask_question "q"
    (mkDuckChat ([] ++ ["t0"]) (mkHistory Sample.gpt []) 0 10,
     mkNet [Sample.ok "t1" Sample.hi_body] [])
  = (inl (DuckChatException
            (MsgStr ("ERR_BN_LIMIT after " ++ Bytes.str_of_int 0 ++ " attempts"))),
     (mkDuckChat ([] ++ ["t0"]) (add_input (mkHistory Sample.gpt []) "q") 0 10,
      mkNet [Sample.ok "t1" Sample.hi_body] [])).
Proof.
  apply (X8_no_pass_without_retries "q" [] "t0" (mkHistory Sample.gpt []) 0 10
           (mkNet [Sample.ok "t1" Sample.hi_body] [])).
  discriminate.
Defined.

(** *** The buffered framer *)

Module FramerFacts.

Import Bytes.

Lemma app_assoc (a b c : string) : ((a ++ b) ++ c = a ++ b ++ c)%string.
Proof. induction a as [|x a IH]; simpl; [reflexivity | now rewrite IH]. Qed.

Lemma app_nil_r (a : string) : (a ++ "" = a)%string.
Proof. induction a as [|x a IH]; simpl; [reflexivity | now rewrite IH]. Qed.

Lemma lstrip_all_in chars pre : forall q,
  all_in chars pre = true -> lstrip chars (pre ++ q) = lstrip chars q.
Proof.
  induction pre as [|c pre IH]; intros q H; [reflexivity|].
  simpl in H. apply andb_prop in H. destruct H as [Hc H].
  simpl. rewrite Hc. apply IH. exact H.
Qed.

Lemma lstrip_stops chars c q :
  mem c chars = false -> lstrip chars (String c q) = String c q.
Proof. intros H. simpl. rewrite H. reflexivity. Qed.

Lemma all_in_lstrip chars cs s :
  all_in chars s = true -> all_in chars (lstrip cs s) = true.
Proof.
  induction s as [|c s IH]; intros H; [reflexivity|].
  simpl. destruct (mem c cs); [|exact H].
  simpl in H. apply andb_prop in H. apply IH. apply H.
Qed.

Lemma rstrip_all_in chars s : all_in chars s = true -> rstrip chars s = "".
Proof.
  induction s as [|c s IH]; intros H; [reflexivity|].
  simpl in H. apply andb_prop in H. destruct H as [Hc H].
  simpl. rewrite (IH H), Hc. reflexivity.
Qed.

Lemma rstrip_keeps chars cl : forall q,
  last_byte q = Some cl -> mem cl chars = false -> rstrip chars q = q.
Proof.
  induction q as [|c q IH]; intros Hl Hm; [discriminate Hl|].
  destruct q as [|c2 q].
  - simpl in Hl. inversion Hl; subst. simpl. rewrite Hm. reflexivity.
  - change (last_byte (String c (String c2 q))) with (last_byte (String c2 q)) in Hl.
    change (rstrip chars (String c (String c2 q)))
      with (match rstrip chars (String c2 q) with
            | "" => if mem c chars then "" else String c ""
            | r' => String c r'
            end).
    rewrite (IH Hl Hm). reflexivity.
Qed.

Lemma rstrip_app chars cl tail : forall q,
  last_byte q = Some cl -> mem cl chars = false ->
  all_in chars tail = true ->
  rstrip chars (q ++ tail) = q.
Proof.
  induction q as [|c q IH]; intros Hl Hm Ht; [discriminate Hl|].
  destruct q as [|c2 q].
  - simpl in Hl. inversion Hl; subst. simpl.
    rewrite (rstrip_all_in chars tail Ht), Hm. reflexivity.
  - change (last_byte (String c (String c2 q))) with (last_byte (String c2 q)) in Hl.
    change (rstrip chars (String c (String c2 q) ++ tail))
      with (match rstrip chars (String c2 q ++ tail) with
            | "" => if mem c chars then "" else String c ""
            | r' => String c r'
            end).
    rewrite (IH Hl Hm Ht). reflexivity.
Qed.

Lemma last_byte_app q : forall x,
  q <> "" -> last_byte (x ++ q) = last_byte q.
Proof.
  intros x Hq. induction x as [|c x IH]; [reflexivity|].
  simpl. rewrite IH. destruct (x ++ q)%string eqn:E; [|reflexivity].
  destruct x; simpl in E; [contradiction | discriminate E].
Qed.

(** A separator cannot begin inside a piece that does not hold it and whose
    last byte the separator lacks. *)
Lemma no_match_across sep : forall s cl tail,
  String.prefix sep s = false ->
  last_byte s = Some cl -> mem cl sep = false ->
  String.prefix sep (s ++ tail) = false.
Proof.
  induction sep as [|a sep IH]; intros s cl tail Hp Hl Hm.
  - destruct s; discriminate Hp.
  - destruct s as [|b s]; [discriminate Hl|].
    simpl in Hp |- *. destruct (ascii_dec a b) as [->|Hab]; [|reflexivity].
    simpl in Hm. apply orb_false_elim in Hm. destruct Hm as [Hcb Hm].
    destruct s as [|b2 s].
    + simpl in Hl. inversion Hl; subst. rewrite Ascii.eqb_refl in Hcb. discriminate.
    + apply (IH (String b2 s) cl tail Hp); [exact Hl | exact Hm].
Qed.

Lemma split_go_piece sep cl tail : forall q cur,
  contains sep q = false ->
  last_byte q = Some cl -> mem cl sep = false ->
  split_go sep 0 cur (q ++ tail) = split_go sep 0 (cur ++ q) tail.
Proof.
  induction q as [|c q IH]; intros cur Hc Hl Hm; [discriminate Hl|].
  simpl in Hc. apply orb_false_elim in Hc. destruct Hc as [Hp Hc].
  change (split_go sep 0 cur (String c q ++ tail))
    with (if startswith sep (String c (q ++ tail))
          then cur :: split_go sep (String.length sep - 1) "" (q ++ tail)
          else split_go sep 0 (cur ++ String c "") (q ++ tail)).
  unfold startswith in *.
  assert (E : String.prefix sep (String c (q ++ tail)) = false)
    by exact (no_match_across sep (String c q) cl tail Hp Hl Hm).
  rewrite E.
  destruct q as [|c2 q].
  - reflexivity.
  - rewrite (IH (cur ++ String c "")%string Hc Hl Hm).
    rewrite app_assoc. reflexivity.
Qed.

Lemma prefix_self sep rest : String.prefix sep (sep ++ rest) = true.
Proof.
  induction sep as [|a sep IH]; [destruct rest; reflexivity|].
  simpl. destruct (ascii_dec a a); [exact IH | contradiction].
Qed.

Lemma split_go_skip sep x : forall cur rest,
  split_go sep (String.length x) cur (x ++ rest) = split_go sep 0 cur rest.
Proof.
  induction x as [|c x IH]; intros cur rest; [reflexivity|].
  simpl. apply IH.
Qed.

Lemma split_go_sep a sep cur rest :
  split_go (String a sep) 0 cur (String a sep ++ rest)
  = cur :: split_go (String a sep) 0 "" rest.
Proof.
  change (split_go (String a sep) 0 cur (String a sep ++ rest))
    with (if startswith (String a sep) (String a sep ++ rest)
          then cur :: split_go (String a sep) (String.length (String a sep) - 1) ""
                        (sep ++ rest)
          else split_go (String a sep) 0 (cur ++ String a "") (sep ++ rest)).
  unfold startswith. rewrite prefix_self.
  replace (String.length (String a sep) - 1)%nat with (String.length sep)
    by (simpl; lia).
  rewrite split_go_skip. reflexivity.
Qed.

Lemma sep_free_inv sep p :
  sep_free sep p = true ->
  contains sep p = false /\ exists cl, last_byte p = Some cl /\ mem cl sep = false.
Proof.
  unfold sep_free. intros H. apply andb_prop in H. destruct H as [Hc Hl].
  apply negb_true_iff in Hc. split; [exact Hc|].
  destruct (last_byte p) as [cl|]; [|discriminate Hl].
  apply negb_true_iff in Hl. eauto.
Qed.

Lemma split_go_join a sep ps : forall cur p,
  sep_free (String a sep) p = true ->
  forallb (sep_free (String a sep)) ps = true ->
  split_go (String a sep) 0 cur (join (String a sep) (p :: ps))
  = ((cur ++ p)%string :: ps).
Proof.
  induction ps as [|p2 ps IH]; intros cur p Hp F;
    destruct (sep_free_inv _ _ Hp) as (Hc & cl & Hl & Hm).
  - unfold join. cbn [String.concat].
    rewrite <- (app_nil_r p) at 1.
    rewrite (split_go_piece _ cl "" p cur Hc Hl Hm). reflexivity.
  - simpl in F. apply andb_prop in F. destruct F as [H2 F2].
    unfold join. change (String.concat (String a sep) (p :: p2 :: ps))
      with (p ++ String a sep ++ String.concat (String a sep) (p2 :: ps))%string.
    rewrite (split_go_piece _ cl _ p cur Hc Hl Hm).
    rewrite split_go_sep. fold (join (String a sep) (p2 :: ps)).
    rewrite (IH "" p2 H2 F2). reflexivity.
Qed.

Lemma first_of_join sep p ps :
  p <> "" -> exists c rest, join sep (p :: ps) = String c rest /\
                            exists rest', p = String c rest'.
Proof.
  intros Hp. destruct p as [|c p]; [contradiction|].
  unfold join. destruct ps; cbn [String.concat]; simpl; eauto.
Qed.

Lemma app_eq_nil (x y : string) : (x ++ y)%string = "" -> x = "" /\ y = "".
Proof. destruct x; simpl; [auto | discriminate]. Qed.

Lemma join_nonempty sep : forall ps p,
  last (p :: ps) "" <> "" -> join sep (p :: ps) <> "".
Proof.
  induction ps as [|p2 ps IH]; intros p H; [exact H|].
  unfold join. change (String.concat sep (p :: p2 :: ps))
    with (p ++ sep ++ String.concat sep (p2 :: ps))%string.
  intros C. apply app_eq_nil in C. destruct C as [_ C].
  apply app_eq_nil in C. destruct C as [_ C].
  apply (IH p2 H). exact C.
Qed.

Lemma last_of_join sep : forall ps p,
  last (p :: ps) "" <> "" ->
  last_byte (join sep (p :: ps)) = last_byte (last (p :: ps) "").
Proof.
  induction ps as [|p2 ps IH]; intros p H; [reflexivity|].
  unfold join. change (String.concat sep (p :: p2 :: ps))
    with (p ++ sep ++ String.concat sep (p2 :: ps))%string.
  rewrite <- app_assoc. fold (join sep (p2 :: ps)).
  rewrite (last_byte_app _ _ (join_nonempty sep ps p2 H)). apply IH. exact H.
Qed.

End FramerFacts.

Lemma forallb_last {A} (f : A -> bool) (d : A) : forall l x,
  forallb f (x :: l) = true -> f (last (x :: l) d) = true.
Proof.
  induction l as [|y l IH]; intros x H.
  - simpl in H. apply andb_prop in H. apply H.
  - change (last (x :: y :: l) d) with (last (y :: l) d). apply IH.
    simpl in H. apply andb_prop in H. apply H.
Qed.

Lemma forallb_weaken {A} (f g : A -> bool) l :
  (forall x, f x = true -> g x = true) -> forallb f l = true -> forallb g l = true.
Proof.
  intros W. induction l as [|x l IH]; [reflexivity|].
  simpl. intros H. apply andb_prop in H. destruct H as [Hx H].
  rewrite (W x Hx), (IH H). reflexivity.
Qed.

(** X9: the buffered framer hands the record payloads over whole. For a
    body made of ["data: "], one or more payloads joined by the separator
    ["\n\ndata: "], and a tail of bytes of the right character set (the
    terminator line, with or without the limit marker line), the text given to
    the decoder is the payloads joined by commas between brackets, provided
    each payload opens with a byte that [lstrip] does not take, closes with a
    byte that [rstrip] does not take and that the separator lacks, and holds
    no separator. *)
Theorem X9_framer_hands_over_payloads p ps tail :
  forallb whole_payload (p :: ps) = true ->
  all_in rstrip_set tail = true ->
  frame_body ("data: " ++ Bytes.join record_sep (p :: ps) ++ tail)
  = "[" ++ Bytes.join "," (p :: ps) ++ "]".
Proof.
  intros W T. unfold frame_body.
  change (Bytes.LF ++ Bytes.LF ++ "data: [DONE][LIMIT_CONVERSATION]" ++ Bytes.LF)%string
    with rstrip_set.
  change (Bytes.LF ++ Bytes.LF ++ "data: ")%string with record_sep.
  assert (Wp : whole_payload p = true).
  { simpl in W. apply andb_prop in W. apply W. }
  assert (Wl : whole_payload (last (p :: ps) "") = true)
    by exact (forallb_last whole_payload "" ps p W).
  assert (Ws : forallb (sep_free record_sep) (p :: ps) = true).
  { apply (forallb_weaken whole_payload); [|exact W].
    intros x Hx. unfold whole_payload in Hx. apply andb_prop in Hx. apply Hx. }
  (* the left strip takes the marker and stops at the first payload *)
  rewrite (FramerFacts.lstrip_all_in "data: " "data: "); [|reflexivity].
  destruct p as [|c p']; [discriminate Wp|].
  assert (Hc : Bytes.mem c "data: " = false).
  { unfold whole_payload in Wp. apply andb_prop in Wp. destruct Wp as [Wp _].
    apply andb_prop in Wp. destruct Wp as [Wp _]. apply negb_true_iff in Wp. exact Wp. }
  assert (Hj : exists rest, (Bytes.join record_sep (String c p' :: ps) ++ tail)%string
                            = String c rest).
  { unfold Bytes.join. destruct ps; cbn [String.concat]; simpl; eauto. }
  destruct Hj as [rest Hj]. rewrite Hj, (FramerFacts.lstrip_stops _ c rest Hc), <- Hj.
  (* the right strip takes the tail and stops at the last payload *)
  assert (Hl : exists cl, last_byte (last (String c p' :: ps) "") = Some cl
                          /\ Bytes.mem cl rstrip_set = false).
  { unfold whole_payload in Wl. apply andb_prop in Wl. destruct Wl as [Wl _].
    apply andb_prop in Wl. destruct Wl as [_ Wl].
    destruct (last_byte (last (String c p' :: ps) "")) as [cl|]; [|discriminate Wl].
    apply negb_true_iff in Wl. eauto. }
  destruct Hl as (cl & Hl & Hm).
  assert (Hne : last (String c p' :: ps) "" <> "").
  { intros C. rewrite C in Hl. discriminate Hl. }
  rewrite (FramerFacts.rstrip_app rstrip_set cl tail);
    [| rewrite FramerFacts.last_of_join; assumption | exact Hm | exact T].
  (* the split finds the payloads *)
  unfold Bytes.split.
  simpl in Ws. apply andb_prop in Ws. destruct Ws as [Ws1 Ws2].
  change record_sep with (String "010" (String "010" "data: ")) in *.
  rewrite (FramerFacts.split_go_join _ _ ps "" (String c p') Ws1 Ws2).
  reflexivity.
Qed.

(** X9 on two message records, the terminator and the limit marker. *)
Lemma X9_framer_hands_over_payloads_witness :
  frame_body
    ("data: "
     ++ Bytes.join record_sep
          ["{" ++ Sample.q "message" ++ ":" ++ Sample.q "Hel" ++ "}";
           "{" ++ Sample.q "message" ++ ":" ++ Sample.q "lo" ++ "}"]
     ++ (Bytes.LF ++ Bytes.LF ++ "data: [DONE]" ++ Bytes.LF ++ Bytes.LF
         ++ "data: [LIMIT_CONVERSATION]" ++ Bytes.LF))
  = "[" ++ Bytes.join ","
             ["{" ++ Sample.q "message" ++ ":" ++ Sample.q "Hel" ++ "}";
              "{" ++ Sample.q "message" ++ ":" ++ Sample.q "lo" ++ "}"]
        ++ "]".
Proof.
  apply X9_framer_hands_over_payloads.
  - vm_compute. reflexivity.
  - vm_compute. reflexivity.
Defined.

Lemma frame_body_no_records res :
  all_in rstrip_set res = true -> frame_body res = "[]".
Proof.
  intros H. unfold frame_body.
  change (Bytes.LF ++ Bytes.LF ++ "data: [DONE][LIMIT_CONVERSATION]" ++ Bytes.LF)%string
    with rstrip_set.
  rewrite (FramerFacts.rstrip_all_in rstrip_set);
    [reflexivity | apply FramerFacts.all_in_lstrip; exact H].
Qed.

(** X10: a response whose body holds no record, being empty or made only of
    bytes of the right character set (the terminator line alone, or with the
    limit marker line), is a turn that succeeds with the empty answer:
    [get_answer] returns [""] and appends the token of the response. *)
Theorem X10_no_records_empty_answer toks t h mr dl r rest tr :
  all_in rstrip_set (body r) = true ->
  status r <> 429 ->
  0 < mr ->
  get_answer (mkDuckChat (toks ++ [t]) h mr dl, mkNet (r :: rest) tr)
  = (inr "",
     (mkDuckChat ((toks ++ [t]) ++ [header_get (headers r) "x-vqd-4" ""]) h mr dl,
      mkNet rest (tr ++ [EvPost t h]))).
Proof.
  intros Hb Hs Hmr. rewrite get_answer_unfold. cbn [max_retries].
  destruct (positive_passes mr Hmr) as [k ->].
  cbn [get_answer_loop]. unfold bind at 1.
  rewrite (attempt_on_answer toks t h mr dl r rest tr ""); [reflexivity|].
  unfold answer_of, decode_records. apply Z.eqb_neq in Hs. rewrite Hs.
  rewrite (frame_body_no_records _ Hb). reflexivity.
Qed.

(** X10 on a body that is the terminator line alone. *)
Lemma X10_no_records_empty_answer_witness :
  get_answer
    (mkDuckChat ([] ++ ["t0"]) (mkHistory Sample.gpt [Sample.u "q"]) 3 10,
     mkNet [Sample.ok "t1" ("data: [DONE]" ++ Bytes.LF)] [])
  = (inr "",
     (mkDuckChat
        (([] ++ ["t0"])
           ++ [header_get (headers (Sample.ok "t1" ("data: [DONE]" ++ Bytes.LF)))
                 "x-vqd-4" ""])
        (mkHistory Sample.gpt [Sample.u "q"]) 3 10,
      mkNet [] ([] ++ [EvPost "t0" (mkHistory Sample.gpt [Sample.u "q"])]))).
Proof.
  apply (X10_no_records_empty_answer [] "t0" (mkHistory Sample.gpt [Sample.u "q"]) 3 10
           (Sample.ok "t1" ("data: [DONE]" ++ Bytes.LF)) [] []).
  - vm_compute. reflexivity.
  - discriminate.
  - reflexivity.
Defined.

(** *** The streaming loop *)

Module StreamFacts.

Import Bytes.

(** A line at the head of a body is the first line read. *)
Lemma lines_go_line l : forall cur rest,
  is_line l = true ->
  lines_go cur (l ++ rest) = (cur ++ l)%string :: lines_go "" rest.
Proof.
  induction l as [|c l IH]; intros cur rest H; [discriminate H|].
  destruct l as [|c2 l].
  - simpl in H. simpl. rewrite H. reflexivity.
  - change (is_line (String c (String c2 l)))
      with (negb (Ascii.eqb c "010") && is_line (String c2 l)) in H.
    apply andb_prop in H. destruct H as [Hc H]. apply negb_true_iff in Hc.
    change (lines_go cur (String c (String c2 l) ++ rest))
      with (if Ascii.eqb c "010"
            then (cur ++ String c "")%string :: lines_go "" (String c2 l ++ rest)
            else lines_go (cur ++ String c "") (String c2 l ++ rest)).
    rewrite Hc, (IH _ rest H), FramerFacts.app_assoc. reflexivity.
Qed.

(** Reading a body made of lines gives the lines back, then what follows. *)
Lemma iter_lines_concat ls : forall rest,
  forallb is_line ls = true ->
  iter_lines (String.concat "" ls ++ rest) = (ls ++ iter_lines rest)%list.
Proof.
  unfold iter_lines. induction ls as [|l ls IH]; intros rest H; [reflexivity|].
  simpl in H. apply andb_prop in H. destruct H as [Hl H].
  assert (E : (String.concat "" (l :: ls) ++ rest
               = l ++ String.concat "" ls ++ rest)%string).
  { destruct ls as [|l2 ls]; cbn [String.concat].
    - reflexivity.
    - rewrite FramerFacts.app_assoc. reflexivity. }
  rewrite E, (lines_go_line l "" _ Hl), (IH rest H). reflexivity.
Qed.

(** A line being read comes out with what was read of it in front. *)
Lemma lines_go_pending x : forall cur,
  cur <> "" -> exists y more, lines_go cur x = (cur ++ y)%string :: more.
Proof.
  induction x as [|c x IH]; intros cur Hc.
  - exists "", []. simpl. rewrite FramerFacts.app_nil_r.
    destruct cur; [contradiction | reflexivity].
  - simpl. destruct (Ascii.eqb c "010").
    + eauto.
    + destruct (IH (cur ++ String c "")%string) as (y & more & E).
      { destruct cur; discriminate. }
      exists (String c y), more. rewrite E, FramerFacts.app_assoc. reflexivity.
Qed.

(** A terminator at the start of a line ends the loop, whatever follows. *)
Lemma iter_lines_done x :
  exists line more,
    iter_lines ("data: [DONE]" ++ x) = line :: more /\ is_terminator line = true.
Proof.
  unfold iter_lines.
  destruct (lines_go_pending x "data: [DONE]") as (y & more & E); [discriminate|].
  exists ("data: [DONE]" ++ y)%string, more. split; [exact E|].
  unfold is_terminator, startswith.
  change ("data: [DONE]" ++ y)%string with ("data: " ++ ("[DONE]" ++ y))%string at 1.
  rewrite FramerFacts.prefix_self.
  change (drop 6 ("data: [DONE]" ++ y)) with ("[DONE]" ++ y)%string.
  rewrite FramerFacts.prefix_self. reflexivity.
Qed.

Lemma stream_lines_done l1 : forall line l2,
  is_terminator line = true ->
  stream_lines (l1 ++ line :: l2) = stream_lines l1.
Proof.
  induction l1 as [|l l1 IH]; intros line l2 H.
  - unfold is_terminator in H. apply andb_prop in H. destruct H as [H1 H2].
    cbn [app stream_lines]. cbv zeta. rewrite H1, H2. reflexivity.
  - cbn [app stream_lines]. rewrite (IH line l2 H). reflexivity.
Qed.

Lemma stream_lines_skip l1 : forall line l2,
  startswith "data: " line = false ->
  stream_lines (l1 ++ line :: l2) = stream_lines (l1 ++ l2).
Proof.
  induction l1 as [|l l1 IH]; intros line l2 H.
  - cbn [app stream_lines]. rewrite H. reflexivity.
  - cbn [app stream_lines]. rewrite (IH line l2 H). reflexivity.
Qed.


Lemma stream_lines_truthy ls : forall ys r,
  stream_lines ls = (ys, r) -> forallb Py.truthy ys = true.
Proof.
  induction ls as [|l ls IH]; intros ys r H.
  - simpl in H. inversion H. reflexivity.
  - cbn [stream_lines] in H. cbv zeta in H.
    destruct (startswith "data: " l); [|eapply IH; exact H].
    destruct (startswith "[DONE]" (drop 6 l)); [inversion H; reflexivity|].
    destruct (chunk_message (drop 6 l)) as [[m|]|] eqn:C.
    + destruct (stream_lines ls) as [ys1 r1] eqn:E1. inversion H; subst.
      simpl. rewrite (IH ys1 _ eq_refl), andb_true_r.
      unfold chunk_message in C.
      destruct (Json.decode (drop 6 l)) as [[| | | |s|l0|d]|]; try discriminate C.
      * destruct (contains "message" s); discriminate C.
      * destruct (existsb _ l0); discriminate C.
      * destruct (Py.dict_lookup d "message") as [v|]; [|discriminate C].
        destruct (Py.truthy v) eqn:Tv; inversion C; subst. exact Tv.
    + eapply IH; exact H.
    + inversion H. reflexivity.
Qed.

End StreamFacts.

(** [stream_answer] on a session that holds a token, on the response it
    reads. *)
Lemma stream_run toks t h mr dl r rest tr :
  stream_answer (mkDuckChat (toks ++ [t]) h mr dl, mkNet (r :: rest) tr)
  = let d := mkDuckChat (toks ++ [t]) h mr dl in
    let n' := mkNet rest (tr ++ [EvPost t h]) in
    if status r =? 429 then
      (([], if Bytes.utf8_valid (body r)
            then inl (RatelimitException (MsgStr (body r)))
            else inl (UnicodeDecodeError (body r))), (d, n'))
    else
      match stream_lines (Bytes.iter_lines (body r)) with
      | (ys, Some chunk) => ((ys, inl (streaming_error chunk)), (d, n'))
      | (ys, None) =>
          ((ys, inr tt),
           (mkDuckChat ((toks ++ [t]) ++ [header_get (headers r) "x-vqd-4" ""]) h mr dl,
            n'))
      end.
Proof.
  unfold stream_answer, quiet. unfold_steps. simpl.
  rewrite rev_app_distr. simpl.
  destruct (status r =? 429).
  - destruct (Bytes.utf8_valid (body r)); reflexivity.
  - destruct (stream_lines (Bytes.iter_lines (body r))) as [ys [chunk|]]; reflexivity.
Qed.

#[local] Arguments stream_lines : simpl never.
#[local] Arguments Bytes.iter_lines : simpl never.
#[local] Arguments streaming_error : simpl never.

(** [ask_question_stream] on a session that holds a token, by what
    [stream_answer] does after the user message was appended. *)
Lemma ask_stream_holding query toks t h mr dl n :
  ask_question_stream query (mkDuckChat (toks ++ [t]) h mr dl, n)
  = match stream_answer (mkDuckChat (toks ++ [t]) (add_input h query) mr dl, n) with
    | ((ys, inl e), s1) => ((ys, inl e), s1)
    | ((ys, inr _), (d1, n1)) =>
        match join_parts ys with
        | Some text =>
            ((ys, inr tt),
             (mkDuckChat (vqd d1) (add_answer (history d1) text)
                (max_retries d1) (delay d1), n1))
        | None => ((ys, inl TypeError), (d1, n1))
        end
    end.
Proof.
  unfold ask_question_stream, andthen at 1.
  assert (E0 : quiet (ensure_vqd ;; history_add_input query)
                 (mkDuckChat (toks ++ [t]) h mr dl, n)
               = (([], inr tt), (mkDuckChat (toks ++ [t]) (add_input h query) mr dl, n))).
  { unfold quiet. unfold bind at 1. rewrite ensure_vqd_holding.
    unfold history_add_input. unfold_steps. reflexivity. }
  rewrite E0. unfold andthen.
  destruct (stream_answer (mkDuckChat (toks ++ [t]) (add_input h query) mr dl, n))
    as [[ys [e|[]]] [d1 n1]]; [reflexivity|].
  unfold quiet, join_message. unfold_steps.
  destruct (join_parts ys); destruct d1; simpl; rewrite app_nil_r; reflexivity.
Qed.



(** [stream_answer] depends on a non-429 body only through what the loop
    over its lines does. *)
Lemma stream_answer_same_lines toks t h mr dl st hs b1 b2 rest tr :
  (st =? 429) = false ->
  stream_lines (Bytes.iter_lines b1) = stream_lines (Bytes.iter_lines b2) ->
  stream_answer (mkDuckChat (toks ++ [t]) h mr dl,
                 mkNet (mkResponse st hs b1 :: rest) tr)
  = stream_answer (mkDuckChat (toks ++ [t]) h mr dl,
                   mkNet (mkResponse st hs b2 :: rest) tr).
Proof.
  intros Hs E. rewrite !stream_run. cbv zeta. cbn [status body headers].
  rewrite Hs, E. reflexivity.
Qed.

Lemma iter_lines_of_lines ls :
  forallb is_line ls = true -> Bytes.iter_lines (String.concat "" ls) = ls.
Proof.
  intros H. rewrite <- (FramerFacts.app_nil_r (String.concat "" ls)).
  rewrite (StreamFacts.iter_lines_concat ls "" H). apply app_nil_r.
Qed.

(** X12: the streaming loop stops at the terminator. When a non-429 body
    is made of whole lines followed by ["data: [DONE]"] at the start of a
    line, whatever bytes follow the terminator are not read: [stream_answer]
    does exactly what it does on the lines before the terminator alone, so
    nothing behind it is yielded or can make the turn fail. *)
Theorem X12_stream_stops_at_terminator toks t h mr dl st hs ls x rest tr :
  (st =? 429) = false ->
  forallb is_line ls = true ->
  stream_answer
    (mkDuckChat (toks ++ [t]) h mr dl,
     mkNet (mkResponse st hs (String.concat "" ls ++ "data: [DONE]" ++ x) :: rest) tr)
  = stream_answer
      (mkDuckChat (toks ++ [t]) h mr dl,
       mkNet (mkResponse st hs (String.concat "" ls) :: rest) tr).
Proof.
  intros Hs Hl. apply stream_answer_same_lines; [exact Hs|].
  rewrite (StreamFacts.iter_lines_concat ls _ Hl), (iter_lines_of_lines ls Hl).
  destruct (StreamFacts.iter_lines_done x) as (line & more & E & T).
  rewrite E. apply StreamFacts.stream_lines_done. exact T.
Qed.

(** X12 on a message line, a terminator and an ill-formed line behind it. *)
Lemma X12_stream_stops_at_terminator_witness :
  stream_answer
    (mkDuckChat ([] ++ ["t0"]) (mkHistory Sample.gpt [Sample.u "q"]) 3 10,
     mkNet [mkResponse 200 []
              (String.concat ""
                 ["data: {" ++ Sample.q "message" ++ ":" ++ Sample.q "Hi" ++ "}" ++ Bytes.LF]
               ++ "data: [DONE]" ++ (Bytes.LF ++ "data: {oops" ++ Bytes.LF))] [])
  = stream_answer
      (mkDuckChat ([] ++ ["t0"]) (mkHistory Sample.gpt [Sample.u "q"]) 3 10,
       mkNet [mkResponse 200 []
                (String.concat ""
                   ["data: {" ++ Sample.q "message" ++ ":" ++ Sample.q "Hi" ++ "}"
                    ++ Bytes.LF])] []).
Proof.
  apply X12_stream_stops_at_terminator.
  - reflexivity.
  - vm_compute. reflexivity.
Defined.

Lemma stream_lines_filter ls :
  stream_lines (filter (Bytes.startswith "data: ") ls) = stream_lines ls.
Proof.
  induction ls as [|l ls IH]; [reflexivity|].
  cbn [filter]. destruct (Bytes.startswith "data: " l) eqn:P.
  - unfold stream_lines. fold stream_lines. rewrite P, IH. reflexivity.
  - rewrite IH. unfold stream_lines at 2. fold stream_lines. rewrite P. reflexivity.
Qed.

Lemma forallb_filter {A} (f g : A -> bool) l :
  forallb f l = true -> forallb f (filter g l) = true.
Proof.
  induction l as [|x l IH]; [reflexivity|].
  simpl. intros H. apply andb_prop in H. destruct H as [Hx H].
  destruct (g x); simpl; [rewrite Hx|]; auto.
Qed.

(** X13: the streaming loop reads only the lines that begin with
    ["data: "]. On a non-429 body made of whole lines, [stream_answer] does
    exactly what it does on the body with every other line (blank lines,
    comments, other fields) taken out. *)
Theorem X13_stream_ignores_other_lines toks t h mr dl st hs ls rest tr :
  (st =? 429) = false ->
  forallb is_line ls = true ->
  stream_answer
    (mkDuckChat (toks ++ [t]) h mr dl,
     mkNet (mkResponse st hs (String.concat "" ls) :: rest) tr)
  = stream_answer
      (mkDuckChat (toks ++ [t]) h mr dl,
       mkNet (mkResponse st hs
                (String.concat "" (filter (Bytes.startswith "data: ") ls)) :: rest) tr).
Proof.
  intros Hs Hl. apply stream_answer_same_lines; [exact Hs|].
  rewrite (iter_lines_of_lines ls Hl).
  rewrite (iter_lines_of_lines _ (forallb_filter is_line _ ls Hl)).
  symmetry. apply stream_lines_filter.
Qed.

(** X13 on a body with a comment line and a blank line around a record. *)
Lemma X13_stream_ignores_other_lines_witness :
  stream_answer
    (mkDuckChat ([] ++ ["t0"]) (mkHistory Sample.gpt [Sample.u "q"]) 3 10,
     mkNet [mkResponse 200 []
              (String.concat ""
                 [": ping" ++ Bytes.LF;
                  "data: {" ++ Sample.q "message" ++ ":" ++ Sample.q "Hi" ++ "}" ++ Bytes.LF;
                  Bytes.LF])] [])
  = stream_answer
      (mkDuckChat ([] ++ ["t0"]) (mkHistory Sample.gpt [Sample.u "q"]) 3 10,
       mkNet [mkResponse 200 []
                (String.concat ""
                   (filter (Bytes.startswith "data: ")
                      [": ping" ++ Bytes.LF;
                       "data: {" ++ Sample.q "message" ++ ":" ++ Sample.q "Hi" ++ "}"
                       ++ Bytes.LF;
                       Bytes.LF]))] []).
Proof.
  apply X13_stream_ignores_other_lines.
  - reflexivity.
  - vm_compute. reflexivity.
Defined.

Lemma stream_answer_truthy s ys r s' :
  stream_answer s = ((ys, r), s') -> forallb Py.truthy ys = true.
Proof.
  destruct s as [[v h mr dl] [sc tr]].
  unfold stream_answer, quiet. unfold_steps. simpl.
  destruct (rev v); simpl; [intros H; inversion H; reflexivity|].
  destruct sc as [|resp rest]; simpl; [intros H; inversion H; reflexivity|].
  destruct (status resp =? 429).
  - destruct (Bytes.utf8_valid (body resp)); intros H; inversion H; reflexivity.
  - destruct (stream_lines (Bytes.iter_lines (body resp))) as [zs [chunk|]] eqn:E;
      intros H; inversion H; subst;
      eapply StreamFacts.stream_lines_truthy; exact E.
Qed.

Lemma stream_then_store_truthy s ys r s' :
  andthen stream_answer
    (fun message_list =>
       quiet (text <- join_message message_list ;; history_add_answer text)) s
  = ((ys, r), s') ->
  forallb Py.truthy ys = true.
Proof.
  unfold andthen.
  destruct (stream_answer s) as [[zs [e|[]]] s1] eqn:E;
    pose proof (stream_answer_truthy _ _ _ _ E) as T.
  - intros H. inversion H; subst. exact T.
  - unfold quiet.
    destruct ((text <- join_message zs ;; history_add_answer text) s1) as [r2 s2].
    intros H. inversion H; subst. rewrite app_nil_r. exact T.
Qed.

(** X14: no streaming method ever yields an empty fragment: every value that
    [stream_answer], [ask_question_stream] or [reask_question_stream] yields
    is truthy, so a string among them is never [""], whatever the service
    sends and however the stream ends. *)
Theorem X14_stream_fragments_truthy :
  (forall s ys r s', stream_answer s = ((ys, r), s') -> forallb Py.truthy ys = true)
  /\ (forall query s ys r s',
        ask_question_stream query s = ((ys, r), s') -> forallb Py.truthy ys = true)
  /\ (forall num s ys r s',
        reask_question_stream num s = ((ys, r), s') -> forallb Py.truthy ys = true).
Proof.
  repeat apply conj.
  - apply stream_answer_truthy.
  - intros query s ys r s'. unfold ask_question_stream, andthen at 1. unfold quiet at 1.
    destruct ((ensure_vqd ;; history_add_input query) s) as [[e|[]] s1].
    + intros H. inversion H. reflexivity.
    + destruct (andthen stream_answer _ s1) as [[zs r2] s2] eqn:E.
      intros H. inversion H; subst. simpl.
      eapply stream_then_store_truthy. exact E.
  - intros num s ys r s'. unfold reask_question_stream.
    destruct (rewind num s) as [[e|[|]] s1].
    + intros H. inversion H. reflexivity.
    + intros H. inversion H. reflexivity.
    + apply stream_then_store_truthy.
Qed.

(** X14 on a stream with an empty message between two fragments. *)
Lemma X14_stream_fragments_truthy_witness :
  forallb Py.truthy [JStr "Hel"; JStr "lo"] = true.
Proof.
  destruct X14_stream_fragments_truthy as (_ & H & _).
  apply (H "q"
           (mkDuckChat ["t0"] (mkHistory Sample.gpt []) 3 10,
            mkNet [Sample.ok "t1"
                     ("data: {" ++ Sample.q "message" ++ ":" ++ Sample.q "Hel" ++ "}"
                      ++ Bytes.LF
                      ++ "data: {" ++ Sample.q "message" ++ ":" ++ Sample.q "" ++ "}"
                      ++ Bytes.LF
                      ++ "data: {" ++ Sample.q "message" ++ ":" ++ Sample.q "lo" ++ "}"
                      ++ Bytes.LF)] [])
           [JStr "Hel"; JStr "lo"] (inr tt)
           (mkDuckChat ["t0"; "t1"]
              (mkHistory Sample.gpt [Sample.u "q"; Sample.a "Hello"]) 3 10,
            mkNet [] [EvPost "t0" (mkHistory Sample.gpt [Sample.u "q"])])).
  vm_compute. reflexivity.
Defined.



(** X16: a call of [ask_question_stream] that ends normally has yielded
    only strings, and has appended to the history the user message of the
    query followed by one assistant message whose text is the fragments joined
    in order; it has appended one token to a ledger that held one, two to an
    empty ledger. *)
Theorem X16_streamed_turn query d n ys d' n' :
  ask_question_stream query (d, n) = ((ys, inr tt), (d', n')) ->
  exists text,
    join_parts ys = Some text
    /\ messages (history d')
       = (messages (history d) ++ [mkMessage user query; mkMessage assistant text])%list
    /\ (vqd d <> [] -> exists t, vqd d' = (vqd d ++ [t])%list)
    /\ (vqd d = [] -> exists t0 t, vqd d' = [t0; t]).
Proof.
  unfold ask_question_stream, andthen at 1. unfold quiet at 1. unfold bind at 1.
  destruct (ensure_vqd (d, n)) as [[e|[]] [d1 n1]] eqn:E1; [discriminate|].
  assert (V : history d1 = history d /\
              (vqd d <> [] -> vqd d1 = vqd d) /\
              (vqd d = [] -> exists t0, vqd d1 = [t0])).
  { unfold ensure_vqd in E1. unfold bind at 1 in E1. unfold self at 1 in E1.
    cbn [fst] in E1. destruct (vqd d) as [|t0 v] eqn:Ev.
    - apply get_vqd_returns in E1. destruct E1 as [token ->]. simpl.
      rewrite Ev. simpl. repeat split; eauto. intros C; now elim C.
    - unfold ret in E1. inversion E1; subst. rewrite Ev.
      repeat split; auto. discriminate. }
  destruct V as (Vh & Vk & Ve).
  unfold history_add_input. unfold_steps. destruct d1 as [v1 h1 mr1 dl1].
  cbn [fst snd vqd history max_retries delay] in *. subst h1. unfold andthen.
  match goal with
  | |- context [stream_answer ?s] =>
      destruct (stream_answer s) as [[zs [e|[]]] [d2 n2]] eqn:E2
  end; [discriminate|].
  apply stream_answer_returns in E2. destruct E2 as (r & _ & ->).
  unfold quiet, join_message. unfold_steps.
  destruct (join_parts zs) as [text|] eqn:Ej; simpl; [|discriminate].
  intros H. inversion H; subst. rewrite app_nil_r.
  exists text. split; [exact Ej|]. simpl. split.
  - unfold add_input. simpl. rewrite <- app_assoc. reflexivity.
  - split.
    + intros Hne. rewrite (Vk Hne). eauto.
    + intros He. destruct (Ve He) as [t0 ->]. simpl. eauto.
Qed.

(** X16 on the first streamed turn of a fresh session. *)
Lemma X16_streamed_turn_witness :
  exists text,
    join_parts [JStr "Hi"] = Some text
    /\ messages (mkHistory Sample.gpt [Sample.u "q"; Sample.a "Hi"])
       = (messages (history Sample.fresh)
            ++ [mkMessage user "q"; mkMessage assistant text])%list
    /\ (vqd Sample.fresh <> [] -> exists t, ["t0"; "t1"] = (vqd Sample.fresh ++ [t])%list)
    /\ (vqd Sample.fresh = [] -> exists t0 t, ["t0"; "t1"] = [t0; t]).
Proof.
  apply (X16_streamed_turn "q" Sample.fresh
           (mkNet [Sample.ok "t0" ""; Sample.ok "t1" Sample.hi_body] [])
           [JStr "Hi"]
           (mkDuckChat ["t0"; "t1"]
              (mkHistory Sample.gpt [Sample.u "q"; Sample.a "Hi"]) 3 10)
           (mkNet [] [EvGet; EvPost "t0" (mkHistory Sample.gpt [Sample.u "q"])])).
  vm_compute. reflexivity.
Defined.

(** *** Re-asking *)

Lemma firstn_snoc_last (v : list string) (j : nat) :
  (1 <= j <= List.length v)%nat ->
  exists toks, firstn j v = (toks ++ [last (firstn j v) ""])%list.
Proof.
  intros Hj. assert (Hne : firstn j v <> []).
  { intros C. apply (f_equal (@List.length string)) in C.
    rewrite length_firstn in C. simpl in C. lia. }
  destruct (exists_last Hne) as (toks & t & E).
  exists toks. rewrite E at 1. rewrite E, last_last. reflexivity.
Qed.

(** Re-asking from a turn whose index leaves tokens in the ledger. *)
Lemma reask_run num v m first others p dl r rest tr answer :
  let j := Z.min num (Z.of_nat (List.length v) - 1) in
  let kept := firstn (Z.to_nat j) v in
  let cut := mkHistory m (firstn (Z.to_nat (2 * j - 1)) (first :: others)) in
  1 <= j ->
  answer_of r = Some answer ->
  reask_question num
    (mkDuckChat v (mkHistory m (first :: others)) (Z.pos p) dl, mkNet (r :: rest) tr)
  = (inr answer,
     (mkDuckChat (kept ++ [header_get (headers r) "x-vqd-4" ""])
        (add_answer cut answer) (Z.pos p) dl,
      mkNet rest (tr ++ [EvPost (last kept "") cut]))).
Proof.
  intros j kept cut Hj Ha.
  unfold reask_question. unfold bind at 1. rewrite rewind_clamps_above.
  cbn [vqd]. fold j.
  unfold rewind. unfold bind at 1. unfold self at 1. cbn [fst vqd]. cbv zeta.
  assert (Hlt : (Z.of_nat (List.length v) <=? j) = false).
  { apply Z.leb_gt. unfold j. lia. }
  rewrite Hlt.
  assert (Hs : slice_to v j = kept).
  { unfold slice_to. replace (0 <=? j) with true by (symmetry; apply Z.leb_le; lia).
    reflexivity. }
  rewrite Hs. unfold bind at 1. unfold set_vqd at 1. cbn [history max_retries delay].
  unfold bind at 1. unfold self at 1. cbn [fst vqd history messages].
  destruct (firstn_snoc_last v (Z.to_nat j)) as [toks Ek]; [unfold j in *; lia|].
  fold kept in Ek.
  assert (Hlen : Z.of_nat (List.length kept) = j).
  { unfold kept. rewrite length_firstn. unfold j in *. lia. }
  destruct kept as [|t0 kept'] eqn:Ekept.
  - destruct toks; discriminate Ek.
  - rewrite <- Ekept in *. rewrite Hlen.
    replace (Z.min j j) with j by lia.
    assert (Hm : slice_to (first :: others) (j * 2 - 1)
                 = firstn (Z.to_nat (2 * j - 1)) (first :: others)).
    { unfold slice_to.
      replace (0 <=? j * 2 - 1) with true by (symmetry; apply Z.leb_le; lia).
      replace (j * 2 - 1) with (2 * j - 1) by lia. reflexivity. }
    rewrite Hm. fold cut.
    unfold bind at 1. unfold set_messages. unfold_steps.
    cbn [fst snd vqd history max_retries delay model].
    fold cut. rewrite get_answer_unfold. cbn [max_retries].
    destruct (Pos2Nat.is_succ p) as [k Hk].
    rewrite Z2Nat.inj_pos, Hk. cbn [get_answer_loop]. unfold bind at 1.
    rewrite Ek at 1.
    rewrite (attempt_on_answer toks (last kept "") cut (Z.pos p) dl r rest tr answer Ha).
    unfold_steps. cbn [fst snd vqd history max_retries delay].
    rewrite <- Ek. reflexivity.
Qed.

(** X17: re-asking from turn [j >= 1], where [j] is the index given, or the
    last index of the ledger when the index given is beyond it. On a history
    that holds messages, [reask_question] keeps the first [j] tokens and the
    first [2j - 1] messages, sends that history under the last token kept,
    and when the turn succeeds appends the token of the response and the
    assistant message of the answer. *)
Theorem X17_reask_from_turn num v m first others p dl r rest tr answer :
  let j := Z.min num (Z.of_nat (List.length v) - 1) in
  let kept := firstn (Z.to_nat j) v in
  let cut := mkHistory m (firstn (Z.to_nat (2 * j - 1)) (first :: others)) in
  1 <= j ->
  answer_of r = Some answer ->
  reask_question num
    (mkDuckChat v (mkHistory m (first :: others)) (Z.pos p) dl, mkNet (r :: rest) tr)
  = (inr answer,
     (mkDuckChat (kept ++ [header_get (headers r) "x-vqd-4" ""])
        (add_answer cut answer) (Z.pos p) dl,
      mkNet rest (tr ++ [EvPost (last kept "") cut]))).
Proof.
  intros j kept cut Hj Ha. apply reask_run; assumption.
Qed.

(** X17 on re-asking the second of three turns. *)
Lemma X17_reask_from_turn_witness :
  reask_question 2
    (mkDuckChat ["t0"; "t1"; "t2"; "t3"]
       (mkHistory Sample.gpt
          (Sample.u "a" ::
           [Sample.a "b"; Sample.u "c"; Sample.a "d"; Sample.u "e"; Sample.a "f"]))
       3 10,
     mkNet [Sample.ok "t4" Sample.hi_body] [])
  = (inr "Hi",
     (mkDuckChat
        (firstn (Z.to_nat (Z.min 2 (Z.of_nat (List.length ["t0"; "t1"; "t2"; "t3"]) - 1)))
           ["t0"; "t1"; "t2"; "t3"]
         ++ [header_get (headers (Sample.ok "t4" Sample.hi_body)) "x-vqd-4" ""])
        (add_answer
           (mkHistory Sample.gpt
              (firstn
                 (Z.to_nat
                    (2 * Z.min 2 (Z.of_nat (List.length ["t0"; "t1"; "t2"; "t3"]) - 1) - 1))
                 (Sample.u "a" ::
                  [Sample.a "b"; Sample.u "c"; Sample.a "d"; Sample.u "e";
                   Sample.a "f"])))
           "Hi") 3 10,
      mkNet []
        ([] ++ [EvPost
                  (last
                     (firstn
                        (Z.to_nat
                           (Z.min 2 (Z.of_nat (List.length ["t0"; "t1"; "t2"; "t3"]) - 1)))
                        ["t0"; "t1"; "t2"; "t3"]) "")
                  (mkHistory Sample.gpt
                     (firstn
                        (Z.to_nat
                           (2 * Z.min 2
                                  (Z.of_nat (List.length ["t0"; "t1"; "t2"; "t3"]) - 1)
                            - 1))
                        (Sample.u "a" ::
                         [Sample.a "b"; Sample.u "c"; Sample.a "d"; Sample.u "e";
                          Sample.a "f"])))]))).
Proof.
  apply (X17_reask_from_turn 2 ["t0"; "t1"; "t2"; "t3"] Sample.gpt (Sample.u "a")
           [Sample.a "b"; Sample.u "c"; Sample.a "d"; Sample.u "e"; Sample.a "f"]
           3%positive 10 (Sample.ok "t4" Sample.hi_body) [] [] "Hi").
  - vm_compute. discriminate.
  - vm_compute. reflexivity.
Defined.

(** The handshake on a response that refuses it. *)
Lemma get_vqd_refused d r rest tr :
  status r = 429 \/ header_lookup (headers r) "x-vqd-4" = None ->
  exists e, get_vqd (d, mkNet (r :: rest) tr) = (inl e, (d, mkNet rest (tr ++ [EvGet]))).
Proof.
  intros H. rewrite get_vqd_run. cbv zeta.
  destruct (status r =? 429) eqn:Es.
  - destruct (Json.decode (body r)) as [[| | | | | |o]|];
      try (destruct (Bytes.utf8_valid (body r))); eauto.
  - destruct H as [H | H]; [rewrite H in Es; discriminate Es|].
    rewrite H. eauto.
Qed.

(** X18: when [reask_question 0], or its streaming variant, is refused the
    handshake (status 429, or no [x-vqd-4] header), it raises with the ledger
    already emptied and the history not yet cut: every token is lost and every
    message is kept, and no turn was sent. *)
Theorem X18_reask_refused_handshake v m first others mr dl r rest tr :
  status r = 429 \/ header_lookup (headers r) "x-vqd-4" = None ->
  let before := (mkDuckChat v (mkHistory m (first :: others)) mr dl,
                 mkNet (r :: rest) tr) in
  let after := (mkDuckChat [] (mkHistory m (first :: others)) mr dl,
                mkNet rest (tr ++ [EvGet])) in
  (exists e, reask_question 0 before = (inl e, after))
  /\ (exists e, reask_question_stream 0 before = (([], inl e), after)).
Proof.
  intros H before after.
  destruct (get_vqd_refused (mkDuckChat [] (mkHistory m (first :: others)) mr dl)
              r rest tr H) as [e G].
  assert (R : rewind 0 before = (inl e, after)).
  { unfold before, rewind. unfold bind at 1. unfold self at 1. cbn [fst vqd]. cbv zeta.
    rewrite cut_at_zero. unfold bind at 1. unfold set_vqd at 1.
    cbn [history max_retries delay].
    unfold bind at 1. unfold self at 1. cbn [fst vqd history messages].
    unfold bind at 1 2. rewrite G. reflexivity. }
  split; exists e.
  - unfold reask_question. unfold bind at 1. rewrite R. reflexivity.
  - unfold reask_question_stream. rewrite R. reflexivity.
Qed.

(** X18 on a handshake answered without the header. *)
Lemma X18_reask_refused_handshake_witness :
  exists e,
    reask_question 0
      (mkDuckChat ["t0"; "t1"] (mkHistory Sample.gpt (Sample.u "a" :: [Sample.a "b"])) 3 10,
       mkNet [mkResponse 200 [] ""] [])
    = (inl e,
       (mkDuckChat [] (mkHistory Sample.gpt (Sample.u "a" :: [Sample.a "b"])) 3 10,
        mkNet [] ([] ++ [EvGet]))).
Proof.
  destruct (X18_reask_refused_handshake ["t0"; "t1"] Sample.gpt (Sample.u "a")
              [Sample.a "b"] 3 10 (mkResponse 200 [] "") [] []) as [H _].
  - right. reflexivity.
  - exact H.
Defined.

(** X19: when the first turn of a session is refused the handshake (status
    429, or no [x-vqd-4] header), [ask_question] and [ask_question_stream]
    raise before they touch the session: the query is not recorded in the
    history, the ledger stays empty, and no turn was sent. *)
Theorem X19_ask_refused_handshake query h mr dl r rest tr :
  status r = 429 \/ header_lookup (headers r) "x-vqd-4" = None ->
  let before := (mkDuckChat [] h mr dl, mkNet (r :: rest) tr) in
  let after := (mkDuckChat [] h mr dl, mkNet rest (tr ++ [EvGet])) in
  (exists e, ask_question query before = (inl e, after))
  /\ (exists e, ask_question_stream query before = (([], inl e), after)).
Proof.
  intros H before after.
  destruct (get_vqd_refused (mkDuckChat [] h mr dl) r rest tr H) as [e G].
  assert (E : ensure_vqd before = (inl e, after)).
  { unfold before, ensure_vqd. unfold bind at 1. unfold self at 1. cbn [fst vqd].
    exact G. }
  split; exists e.
  - unfold ask_question. unfold bind at 1. rewrite E. reflexivity.
  - unfold ask_question_stream, andthen at 1. unfold quiet at 1. unfold bind at 1.
    rewrite E. reflexivity.
Qed.

(** X19 on a rate-limited handshake. *)
Lemma X19_ask_refused_handshake_witness :
  exists e,
    ask_question "q"
      (mkDuckChat [] (mkHistory Sample.gpt []) 3 10, mkNet [mkResponse 429 [] "{}"] [])
    = (inl e, (mkDuckChat [] (mkHistory Sample.gpt []) 3 10, mkNet [] ([] ++ [EvGet]))).
Proof.
  destruct (X19_ask_refused_handshake "q" (mkHistory Sample.gpt []) 3 10
              (mkResponse 429 [] "{}") [] []) as [H _].
  - left. reflexivity.
  - exact H.
Defined.

(** *** Asking only ever appends *)

Lemma prefix_of_refl {A} (l : list A) : prefix_of l l.
Proof. exists []. now rewrite app_nil_r. Qed.

Lemma prefix_of_trans {A} (a b c : list A) :
  prefix_of a b -> prefix_of b c -> prefix_of a c.
Proof.
  intros [x ->] [y ->]. exists (x ++ y)%list. now rewrite app_assoc.
Qed.

Lemma prefix_of_app {A} (l more : list A) : prefix_of l (l ++ more).
Proof. exists more. reflexivity. Qed.

Lemma grows_refl s : grows s s.
Proof. unfold grows. auto 10 using @prefix_of_refl. Qed.

Lemma grows_trans s1 s2 s3 : grows s1 s2 -> grows s2 s3 -> grows s1 s3.
Proof.
  unfold grows. intros (A1 & B1 & C1 & D1 & E1 & F1) (A2 & B2 & C2 & D2 & E2 & F2).
  repeat split; try congruence; eapply prefix_of_trans; eauto.
Qed.

Lemma bind_grows {A B} (m : M A) (k : A -> M B) :
  (forall s r s', m s = (r, s') -> grows s s') ->
  (forall a s r s', k a s = (r, s') -> grows s s') ->
  forall s r s', bind m k s = (r, s') -> grows s s'.
Proof.
  intros Hm Hk s r s' H. unfold bind in H.
  destruct (m s) as [[e|a] s1] eqn:E.
  - inversion H; subst. eapply Hm. exact E.
  - eapply grows_trans; [eapply Hm; exact E | eapply Hk; exact H].
Qed.

Lemma get_vqd_grows s r s' : get_vqd s = (r, s') -> grows s s'.
Proof.
  destruct s as [d [[|resp rest] tr]].
  - unfold get_vqd. unfold_steps. destruct d. simpl. intros H. inversion H; subst.
    unfold grows. simpl. auto 10 using @prefix_of_refl, @prefix_of_app.
  - rewrite get_vqd_run. cbv zeta.
    destruct (status resp =? 429).
    + destruct (Json.decode (body resp)) as [[| | | | | |o]|];
        try (destruct (Bytes.utf8_valid (body resp)));
        intros H; inversion H; subst; unfold grows; simpl;
        auto 10 using @prefix_of_refl, @prefix_of_app.
    + destruct (header_lookup (headers resp) "x-vqd-4");
        intros H; inversion H; subst; unfold grows; simpl;
        auto 10 using @prefix_of_refl, @prefix_of_app.
Qed.

Lemma ensure_vqd_grows s r s' : ensure_vqd s = (r, s') -> grows s s'.
Proof.
  unfold ensure_vqd. unfold bind at 1. unfold self at 1.
  destruct (vqd (fst s)).
  - apply get_vqd_grows.
  - unfold ret. intros H. inversion H. apply grows_refl.
Qed.

Lemma add_input_grows query s r s' : history_add_input query s = (r, s') -> grows s s'.
Proof.
  destruct s as [[v h mr dl] n]. unfold history_add_input. unfold_steps. simpl.
  intros H. inversion H; subst. unfold grows. simpl.
  auto 10 using @prefix_of_refl, @prefix_of_app.
Qed.

Lemma add_answer_grows text s r s' : history_add_answer text s = (r, s') -> grows s s'.
Proof.
  destruct s as [[v h mr dl] n]. unfold history_add_answer. unfold_steps. simpl.
  intros H. inversion H; subst. unfold grows. simpl.
  auto 10 using @prefix_of_refl, @prefix_of_app.
Qed.

Lemma get_answer_grows s r s' : get_answer s = (r, s') -> grows s s'.
Proof.
  destruct s as [d n], s' as [d' n']. rewrite get_answer_unfold. intros H.
  pose proof (loop_frame _ _ _ _ _ _ H) as (Hh & Hm & Hd & Hv).
  pose proof (loop_trace _ _ _ _ _ _ H) as [more Ht].
  unfold grows. cbn [fst snd]. rewrite Hh, Hm, Hd, Ht.
  repeat split; auto using @prefix_of_refl, @prefix_of_app.
  destruct Hv as [-> | [[token ->] _]]; auto using @prefix_of_refl, @prefix_of_app.
Qed.

Lemma stream_answer_grows s ys r s' : stream_answer s = ((ys, r), s') -> grows s s'.
Proof.
  destruct s as [[v h mr dl] [sc tr]].
  unfold stream_answer, quiet. unfold_steps. simpl.
  destruct (rev v); simpl;
    [intros H; inversion H; subst; apply grows_refl|].
  destruct sc as [|resp rest]; simpl;
    [intros H; inversion H; subst; unfold grows; simpl;
     auto 10 using @prefix_of_refl, @prefix_of_app|].
  destruct (status resp =? 429).
  - destruct (Bytes.utf8_valid (body resp)); intros H; inversion H; subst;
      unfold grows; simpl; auto 10 using @prefix_of_refl, @prefix_of_app.
  - destruct (stream_lines (Bytes.iter_lines (body resp))) as [zs [chunk|]];
      intros H; inversion H; subst; unfold grows; simpl;
      auto 10 using @prefix_of_refl, @prefix_of_app.
Qed.

Lemma store_answer_grows zs s r s' :
  (text <- join_message zs ;; history_add_answer text) s = (r, s') -> grows s s'.
Proof.
  apply bind_grows.
  - unfold join_message. destruct (join_parts zs); unfold ret, raise;
      intros st0 r0 st1 H; inversion H; apply grows_refl.
  - intros text. apply add_answer_grows.
Qed.

(** X20: asking only ever appends. Whatever the service answers and
    however the call ends, [ask_question] and [ask_question_stream] leave the
    messages the history held and the tokens the ledger held in place and in
    order, at most adding to them at the end; the model, [max_retries] and
    [delay] are as they were. Only re-asking cuts. *)
Theorem X20_asking_only_appends :
  (forall query s r s', ask_question query s = (r, s') -> grows s s')
  /\ (forall query s ys r s', ask_question_stream query s = ((ys, r), s') -> grows s s').
Proof.
  split.
  - intros query. unfold ask_question.
    apply bind_grows; [apply ensure_vqd_grows | intros _].
    apply bind_grows; [apply add_input_grows | intros _].
    apply bind_grows; [apply get_answer_grows | intros message].
    apply bind_grows; [apply add_answer_grows | intros _].
    unfold ret. intros s r s' H. inversion H. apply grows_refl.
  - intros query s ys r s'. unfold ask_question_stream, andthen at 1. unfold quiet at 1.
    destruct ((ensure_vqd ;; history_add_input query) s) as [[e|[]] s1] eqn:E1;
      assert (G1 : grows s s1)
        by (revert E1; apply bind_grows;
            [apply ensure_vqd_grows | intros _; apply add_input_grows]).
    + intros H. inversion H; subst. exact G1.
    + unfold andthen.
      destruct (stream_answer s1) as [[zs [e|[]]] s2] eqn:E2;
        pose proof (stream_answer_grows _ _ _ _ E2) as G2.
      * intros H. inversion H; subst. eapply grows_trans; eauto.
      * unfold quiet.
        destruct ((text <- join_message zs ;; history_add_answer text) s2)
          as [r3 s3] eqn:E3.
        pose proof (store_answer_grows _ _ _ _ E3) as G3.
        intros H. inversion H; subst.
        eapply grows_trans; [exact G1 | eapply grows_trans; eauto].
Qed.

(** X20 on a turn cut short by an embedded conversation limit. *)
Lemma X20_asking_only_appends_witness :
  grows
    (mkDuckChat ["t0"] (mkHistory Sample.gpt [Sample.u "a"; Sample.a "b"]) 3 10,
     mkNet [Sample.ok "t1" Sample.limit_body] [])
    (mkDuckChat ["t0"]
       (mkHistory Sample.gpt [Sample.u "a"; Sample.a "b"; Sample.u "q"]) 3 10,
     mkNet []
       [EvPost "t0" (mkHistory Sample.gpt [Sample.u "a"; Sample.a "b"; Sample.u "q"])]).
Proof.
  destruct X20_asking_only_appends as [H _].
  apply (H "q"
           (mkDuckChat ["t0"] (mkHistory Sample.gpt [Sample.u "a"; Sample.a "b"]) 3 10,
            mkNet [Sample.ok "t1" Sample.limit_body] [])
           (inl (ConversationLimitException (MsgVal (JStr "ERR_CONVERSATION_LIMIT"))))).
  vm_compute. reflexivity.
Defined.

(** X21: the first turn of a session as [__init__] leaves it. When the
    handshake is granted a token and the turn response carries an answer,
    [ask_question] sends the handshake, then one turn request under the token
    of the handshake with a history of just the user message; it ends with a
    ledger of that token and the token of the turn, and a history of the user
    message and the answer. *)
Theorem X21_first_turn_of_session query m p dl r0 t0 r1 answer rest tr :
  (status r0 =? 429) = false ->
  header_lookup (headers r0) "x-vqd-4" = Some t0 ->
  answer_of r1 = Some answer ->
  ask_question query (DuckChat_init m (Z.pos p) dl, mkNet (r0 :: r1 :: rest) tr)
  = (inr answer,
     (mkDuckChat [t0; header_get (headers r1) "x-vqd-4" ""]
        (mkHistory m [mkMessage user query; mkMessage assistant answer]) (Z.pos p) dl,
      mkNet rest (tr ++ [EvGet; EvPost t0 (mkHistory m [mkMessage user query])]))).
Proof.
  intros Hs Hh Ha. unfold DuckChat_init, ask_question. unfold bind at 1.
  unfold ensure_vqd. unfold bind at 1. unfold self at 1. cbn [fst vqd].
  rewrite get_vqd_run. cbv zeta. rewrite Hs, Hh.
  cbn [vqd app history max_retries delay].
  unfold bind at 1. unfold history_add_input. unfold_steps.
  cbn [fst snd vqd history max_retries delay].
  rewrite get_answer_unfold. cbn [max_retries].
  destruct (Pos2Nat.is_succ p) as [k Hk].
  rewrite Z2Nat.inj_pos, Hk. cbn [get_answer_loop]. unfold bind at 1.
  change [t0] with (([] : list string) ++ [t0])%list at 1.
  rewrite (attempt_on_answer [] t0 _ (Z.pos p) dl r1 rest (tr ++ [EvGet])%list answer Ha).
  cbn [app]. unfold add_input, add_answer. cbn [fst snd vqd history max_retries delay
                                                 model messages app].
  rewrite <- app_assoc. reflexivity.
Qed.

(** X21 with the default retry policy. *)
Lemma X21_first_turn_of_session_witness :
  ask_question "q"
    (DuckChat_init Sample.gpt 3 10,
     mkNet [Sample.ok "t0" ""; Sample.ok "t1" Sample.hi_body] [])
  = (inr "Hi",
     (mkDuckChat ["t0"; header_get (headers (Sample.ok "t1" Sample.hi_body)) "x-vqd-4" ""]
        (mkHistory Sample.gpt [mkMessage user "q"; mkMessage assistant "Hi"]) 3 10,
      mkNet [] ([] ++ [EvGet; EvPost "t0" (mkHistory Sample.gpt [mkMessage user "q"])]))).
Proof.
  apply (X21_first_turn_of_session "q" Sample.gpt 3%positive 10
           (Sample.ok "t0" "") "t0" (Sample.ok "t1" Sample.hi_body) "Hi" [] []).
  - reflexivity.
  - reflexivity.
  - vm_compute. reflexivity.
Defined.

(** *** The two framers on the same records *)

Lemma scan_collected data : forall acc parts,
  scan data acc = Collected parts ->
  exists ms, parts = (acc ++ ms)%list
             /\ Forall2 (fun x m => classify x = Content m) data ms.
Proof.
  induction data as [|x data IH]; intros acc parts H.
  - unfold scan in H. inversion H. exists []. rewrite app_nil_r. auto.
  - unfold scan in H. fold scan in H.
    destruct (classify x) as [m| |e] eqn:C; try discriminate H.
    destruct (IH _ _ H) as (ms & -> & F).
    exists (m :: ms). rewrite <- app_assoc. auto.
Qed.

Lemma classify_content x m :
  classify x = Content m ->
  exists d, x = JDict d /\ m = Py.dict_get d "message" (JStr "").
Proof.
  unfold classify. destruct x as [| | | | | |d]; try discriminate.
  destruct (Py.eq_str (Py.dict_get d "action" JNull) "error").
  - destruct (err_message_is _ "ERR_BN_LIMIT"); [discriminate|].
    destruct (Py.eq_429 _);
      [destruct (err_message_is _ "ERR_CONVERSATION_LIMIT")|]; discriminate.
  - intros H. inversion H. eauto.
Qed.

Lemma chunk_message_record chunk d :
  Json.decode chunk = Some (JDict d) ->
  chunk_message chunk
  = Some (if Py.truthy (Py.dict_get d "message" (JStr ""))
          then Some (Py.dict_get d "message" (JStr "")) else None).
Proof.
  intros H. unfold chunk_message. rewrite H. unfold Py.dict_get.
  destruct (Py.dict_lookup d "message") as [v|]; [|reflexivity].
  destruct (Py.truthy v); reflexivity.
Qed.

Lemma join_parts_cons m ms a :
  join_parts (m :: ms) = Some a ->
  exists s a', m = JStr s /\ join_parts ms = Some a' /\ a = (s ++ a')%string.
Proof.
  unfold join_parts. fold join_parts. destruct m; try discriminate.
  destruct (join_parts ms) as [a'|]; [|discriminate].
  simpl. intros H. inversion H. eauto.
Qed.

(** When the chunks of the stream decode to records that are all content
    with string messages, the loop runs to its end and its fragments join to
    what the buffered loop collects. *)
Lemma stream_lines_agree ls : forall data ms a,
  map Json.decode (data_chunks ls) = map Some data ->
  Forall2 (fun x m => classify x = Content m) data ms ->
  join_parts ms = Some a ->
  exists ys, stream_lines ls = (ys, None) /\ join_parts ys = Some a.
Proof.
  induction ls as [|l ls IH]; intros data ms a Hd F Hj.
  - destruct data; [|discriminate Hd]. inversion F; subst.
    exists []. split; [reflexivity | exact Hj].
  - unfold stream_lines. fold stream_lines.
    unfold data_chunks in Hd. fold data_chunks in Hd. cbv zeta.
    destruct (Bytes.startswith "data: " l); [|eapply IH; eauto].
    destruct (Bytes.startswith "[DONE]" (Bytes.drop 6 l)).
    + destruct data; [|discriminate Hd]. inversion F; subst.
      exists []. split; [reflexivity | exact Hj].
    + destruct data as [|x data]; [discriminate Hd|].
      cbn [map] in Hd. injection Hd as Hx Hd.
      inversion F as [|? m ? ms' Hc F']; subst.
      destruct (classify_content _ _ Hc) as (d & -> & ->).
      destruct (join_parts_cons _ _ _ Hj) as (s & a' & Hm & Hj' & ->).
      destruct (IH data ms' a' Hd F' Hj') as (ys & E & Hy).
      pose proof (chunk_message_record _ d Hx) as Hcm.
      cbn [Bytes.drop] in Hcm |- *. rewrite Hcm, Hm, E. simpl.
      destruct (String.eqb s "") eqn:Es; simpl.
      * apply String.eqb_eq in Es. subst s. exists ys. auto.
      * exists (JStr s :: ys). split; [reflexivity|].
        unfold join_parts. fold join_parts. rewrite Hy. reflexivity.
Qed.

(** [ask_question] on a session that holds a token, when the first response
    carries an answer. *)
Lemma ask_answer_run query toks t h p dl r rest tr a :
  answer_of r = Some a ->
  ask_question query (mkDuckChat (toks ++ [t]) h (Z.pos p) dl, mkNet (r :: rest) tr)
  = (inr a,
     (mkDuckChat ((toks ++ [t]) ++ [header_get (headers r) "x-vqd-4" ""])
        (add_answer (add_input h query) a) (Z.pos p) dl,
      mkNet rest (tr ++ [EvPost t (add_input h query)]))).
Proof.
  intros Ha. unfold ask_question. unfold bind at 1. rewrite ensure_vqd_holding.
  unfold bind at 1. unfold history_add_input. unfold_steps.
  cbn [fst snd history vqd max_retries delay].
  rewrite get_answer_unfold. cbn [max_retries].
  destruct (Pos2Nat.is_succ p) as [k Hk].
  rewrite Z2Nat.inj_pos, Hk. cbn [get_answer_loop]. unfold bind at 1.
  rewrite (attempt_on_answer toks t _ (Z.pos p) dl r rest tr a Ha). reflexivity.
Qed.

(** X22: the buffered and the streamed turn agree on a response whose
    records are all content. When the framed body decodes to records from
    which the buffered loop collects string messages, and the chunks of the
    lines of the same body decode to the same records, [ask_question] and
    [ask_question_stream] end in the same session and the same trace, and the
    fragments yielded join to the answer returned. *)
Theorem X22_buffered_and_streamed_agree
        query toks t h p dl r rest tr data message answer :
  (status r =? 429) = false ->
  Json.decode (frame_body (body r)) = Some (JList data) ->
  scan data [] = Collected message ->
  join_parts message = Some answer ->
  map Json.decode (data_chunks (Bytes.iter_lines (body r))) = map Some data ->
  let s := (mkDuckChat (toks ++ [t]) h (Z.pos p) dl, mkNet (r :: rest) tr) in
  exists ys s',
    ask_question query s = (inr answer, s')
    /\ ask_question_stream query s = ((ys, inr tt), s')
    /\ join_parts ys = Some answer.
Proof.
  intros Hs Hd Hsc Hj Hc s.
  assert (Ha : answer_of r = Some answer).
  { unfold answer_of, decode_records. rewrite Hs, Hd, Hsc. exact Hj. }
  destruct (scan_collected _ _ _ Hsc) as (ms & Em & F). simpl in Em. subst message.
  destruct (stream_lines_agree _ _ _ _ Hc F Hj) as (ys & E & Hy).
  exists ys. eexists. split; [apply ask_answer_run; exact Ha|]. split; [|exact Hy].
  unfold s. rewrite ask_stream_holding, stream_run. cbv zeta.
  rewrite Hs, E, Hy. reflexivity.
Qed.

(** X22 on two fragments with an empty one between them. *)
Lemma X22_buffered_and_streamed_agree_witness :
  exists ys s',
    ask_question "q"
      (mkDuckChat ([] ++ ["t0"]) (mkHistory Sample.gpt []) 3 10,
       mkNet [Sample.ok "t1"
                ("data: {" ++ Sample.q "message" ++ ":" ++ Sample.q "Hel" ++ "}"
                 ++ Bytes.LF ++ Bytes.LF
                 ++ "data: {" ++ Sample.q "message" ++ ":" ++ Sample.q "" ++ "}"
                 ++ Bytes.LF ++ Bytes.LF
                 ++ "data: {" ++ Sample.q "message" ++ ":" ++ Sample.q "lo" ++ "}"
                 ++ Bytes.LF ++ Bytes.LF ++ "data: [DONE]" ++ Bytes.LF)] [])
    = (inr "Hello", s')
    /\ ask_question_stream "q"
         (mkDuckChat ([] ++ ["t0"]) (mkHistory Sample.gpt []) 3 10,
          mkNet [Sample.ok "t1"
                   ("data: {" ++ Sample.q "message" ++ ":" ++ Sample.q "Hel" ++ "}"
                    ++ Bytes.LF ++ Bytes.LF
                    ++ "data: {" ++ Sample.q "message" ++ ":" ++ Sample.q "" ++ "}"
                    ++ Bytes.LF ++ Bytes.LF
                    ++ "data: {" ++ Sample.q "message" ++ ":" ++ Sample.q "lo" ++ "}"
                    ++ Bytes.LF ++ Bytes.LF ++ "data: [DONE]" ++ Bytes.LF)] [])
       = ((ys, inr tt), s')
    /\ join_parts ys = Some "Hello".
Proof.
  apply (X22_buffered_and_streamed_agree "q" [] "t0" (mkHistory Sample.gpt []) 3%positive 10
           _ [] []
           [JDict [("message", JStr "Hel")]; JDict [("message", JStr "")];
            JDict [("message", JStr "lo")]]
           [JStr "Hel"; JStr ""; JStr "lo"] "Hello").
  - reflexivity.
  - vm_compute. reflexivity.
  - reflexivity.
  - reflexivity.
  - vm_compute. reflexivity.
Defined.

(** *** Asking, then re-asking *)

(** X23: re-asking the turn just asked sends the same request again. On a
    session in step (the ledger holds one token more than the history holds
    turns), when [ask_question] succeeds and [reask_question] is then called
    with the index of that turn, or any index beyond it, the second call
    drops the token and the answer of the first, sends the same history under
    the same token as the first did, and stores the new answer and the new
    token in their place. *)
Theorem X23_reask_last_turn_resends
        query toks t m msgs p dl r1 a1 r2 a2 rest tr num :
  List.length msgs = (2 * List.length toks)%nat ->
  answer_of r1 = Some a1 ->
  answer_of r2 = Some a2 ->
  Z.of_nat (List.length toks) + 1 <= num ->
  let sent := mkHistory m (msgs ++ [mkMessage user query]) in
  exists s1,
    ask_question query
      (mkDuckChat (toks ++ [t]) (mkHistory m msgs) (Z.pos p) dl,
       mkNet (r1 :: r2 :: rest) tr)
    = (inr a1, s1)
    /\ reask_question num s1
       = (inr a2,
          (mkDuckChat ((toks ++ [t]) ++ [header_get (headers r2) "x-vqd-4" ""])
             (add_answer sent a2) (Z.pos p) dl,
           mkNet rest ((tr ++ [EvPost t sent]) ++ [EvPost t sent]))).
Proof.
  intros Hl Ha1 Ha2 Hn sent. eexists. split; [apply ask_answer_run; exact Ha1|].
  unfold add_answer, add_input. cbn [model messages].
  set (v := ((toks ++ [t]) ++ [header_get (headers r1) "x-vqd-4" ""])%list).
  set (all := ((msgs ++ [mkMessage user query]) ++ [mkMessage assistant a1])%list).
  assert (Hv : Z.min num (Z.of_nat (List.length v) - 1)
               = Z.of_nat (List.length toks) + 1).
  { unfold v. rewrite !length_app. simpl. lia. }
  assert (Hk : firstn (Z.to_nat (Z.of_nat (List.length toks) + 1)) v = (toks ++ [t])%list).
  { unfold v. replace (Z.to_nat (Z.of_nat (List.length toks) + 1))
      with (List.length (toks ++ [t]) + 0)%nat by (rewrite length_app; simpl; lia).
    rewrite firstn_app_2. simpl. apply app_nil_r. }
  assert (Hc : firstn (Z.to_nat (2 * (Z.of_nat (List.length toks) + 1) - 1)) all
               = (msgs ++ [mkMessage user query])%list).
  { unfold all. replace (Z.to_nat (2 * (Z.of_nat (List.length toks) + 1) - 1))
      with (List.length (msgs ++ [mkMessage user query]) + 0)%nat
      by (rewrite length_app; simpl; lia).
    rewrite firstn_app_2. simpl. apply app_nil_r. }
  destruct all as [|first others] eqn:Eall.
  { unfold all in Eall. destruct msgs; discriminate Eall. }
  rewrite (reask_run num v m first others p dl r2 rest _ a2); [|lia|exact Ha2].
  rewrite Hv, Hk, Hc, last_last. reflexivity.
Qed.

(** X23 on the second turn of a conversation. *)
Lemma X23_reask_last_turn_resends_witness :
  exists s1,
    ask_question "c"
      (mkDuckChat (["t0"] ++ ["t1"]) (mkHistory Sample.gpt [Sample.u "a"; Sample.a "b"]) 3 10,
       mkNet [Sample.ok "t2" Sample.hi_body; Sample.ok "t3" Sample.hi_body] [])
    = (inr "Hi", s1)
    /\ reask_question 2 s1
       = (inr "Hi",
          (mkDuckChat
             ((["t0"] ++ ["t1"])
                ++ [header_get (headers (Sample.ok "t3" Sample.hi_body)) "x-vqd-4" ""])
             (add_answer
                (mkHistory Sample.gpt
                   ([Sample.u "a"; Sample.a "b"] ++ [mkMessage user "c"])) "Hi") 3 10,
           mkNet []
             (([] ++ [EvPost "t1"
                        (mkHistory Sample.gpt
                           ([Sample.u "a"; Sample.a "b"] ++ [mkMessage user "c"]))])
                ++ [EvPost "t1"
                      (mkHistory Sample.gpt
                         ([Sample.u "a"; Sample.a "b"] ++ [mkMessage user "c"]))]))).
Proof.
  apply (X23_reask_last_turn_resends "c" ["t0"] "t1" Sample.gpt
           [Sample.u "a"; Sample.a "b"] 3%positive 10
           (Sample.ok "t2" Sample.hi_body) "Hi" (Sample.ok "t3" Sample.hi_body) "Hi"
           [] [] 2).
  - reflexivity.
  - vm_compute. reflexivity.
  - vm_compute. reflexivity.
  - vm_compute. discriminate.
Defined.

(** The cut of [reask], at an index that leaves tokens in the ledger. *)
Lemma rewind_run num v m first others mr dl n :
  let j := Z.min num (Z.of_nat (List.length v) - 1) in
  1 <= j ->
  rewind num (mkDuckChat v (mkHistory m (first :: others)) mr dl, n)
  = (inr false,
     (mkDuckChat (firstn (Z.to_nat j) v)
        (mkHistory m (firstn (Z.to_nat (2 * j - 1)) (first :: others))) mr dl, n)).
Proof.
  intros j Hj. rewrite rewind_clamps_above. cbn [vqd]. fold j.
  unfold rewind. unfold bind at 1. unfold self at 1. cbn [fst vqd]. cbv zeta.
  assert (Hlt : (Z.of_nat (List.length v) <=? j) = false).
  { apply Z.leb_gt. unfold j. lia. }
  rewrite Hlt.
  assert (Hs : slice_to v j = firstn (Z.to_nat j) v).
  { unfold slice_to. replace (0 <=? j) with true by (symmetry; apply Z.leb_le; lia).
    reflexivity. }
  rewrite Hs. unfold bind at 1. unfold set_vqd at 1. cbn [history max_retries delay].
  unfold bind at 1. unfold self at 1. cbn [fst vqd history messages].
  assert (Hlen : Z.of_nat (List.length (firstn (Z.to_nat j) v)) = j).
  { rewrite length_firstn. unfold j in *. lia. }
  destruct (firstn (Z.to_nat j) v) as [|t0 kept'] eqn:Ekept.
  - simpl in Hlen. lia.
  - rewrite Hlen. replace (Z.min j j) with j by lia.
    assert (Hm : slice_to (first :: others) (j * 2 - 1)
                 = firstn (Z.to_nat (2 * j - 1)) (first :: others)).
    { unfold slice_to.
      replace (0 <=? j * 2 - 1) with true by (symmetry; apply Z.leb_le; lia).
      replace (j * 2 - 1) with (2 * j - 1) by lia. reflexivity. }
    rewrite Hm. destruct n as [sc tr].
    unfold bind at 1. unfold set_messages. unfold_steps. reflexivity.
Qed.

(** X24: the streaming re-ask from turn [j >= 1], where [j] is the index
    given, or the last index of the ledger when the index given is beyond it.
    On a history that holds messages, [reask_question_stream] keeps the first
    [j] tokens and the first [2j - 1] messages and sends that history under
    the last token kept; when the stream runs to its end yielding strings, it
    appends the token of the response and one assistant message, the
    fragments joined. *)
Theorem X24_reask_stream_from_turn num v m first others mr dl r rest tr ys text :
  let j := Z.min num (Z.of_nat (List.length v) - 1) in
  let kept := firstn (Z.to_nat j) v in
  let cut := mkHistory m (firstn (Z.to_nat (2 * j - 1)) (first :: others)) in
  1 <= j ->
  (status r =? 429) = false ->
  stream_lines (Bytes.iter_lines (body r)) = (ys, None) ->
  join_parts ys = Some text ->
  reask_question_stream num
    (mkDuckChat v (mkHistory m (first :: others)) mr dl, mkNet (r :: rest) tr)
  = ((ys, inr tt),
     (mkDuckChat (kept ++ [header_get (headers r) "x-vqd-4" ""])
        (add_answer cut text) mr dl,
      mkNet rest (tr ++ [EvPost (last kept "") cut]))).
Proof.
  intros j kept cut Hj Hs Hy Ht.
  unfold reask_question_stream.
  rewrite (rewind_run num v m first others mr dl _ Hj). fold j kept cut.
  destruct (firstn_snoc_last v (Z.to_nat j)) as [toks Ek]; [unfold j in *; lia|].
  fold kept in Ek. unfold andthen. rewrite Ek at 1.
  rewrite stream_run. cbv zeta. rewrite Hs, Hy.
  unfold quiet, join_message. unfold_steps. rewrite Ht. simpl.
  rewrite <- Ek, app_nil_r. reflexivity.
Qed.

(** X24 on re-asking the second of three turns. *)
Lemma X24_reask_stream_from_turn_witness :
  reask_question_stream 2
    (mkDuckChat ["t0"; "t1"; "t2"; "t3"]
       (mkHistory Sample.gpt
          (Sample.u "a" ::
           [Sample.a "b"; Sample.u "c"; Sample.a "d"; Sample.u "e"; Sample.a "f"]))
       3 10,
     mkNet [Sample.ok "t4" Sample.hi_body] [])
  = (([JStr "Hi"], inr tt),
     (mkDuckChat
        (firstn (Z.to_nat (Z.min 2 (Z.of_nat (List.length ["t0"; "t1"; "t2"; "t3"]) - 1)))
           ["t0"; "t1"; "t2"; "t3"]
         ++ [header_get (headers (Sample.ok "t4" Sample.hi_body)) "x-vqd-4" ""])
        (add_answer
           (mkHistory Sample.gpt
              (firstn
                 (Z.to_nat
                    (2 * Z.min 2 (Z.of_nat (List.length ["t0"; "t1"; "t2"; "t3"]) - 1) - 1))
                 (Sample.u "a" ::
                  [Sample.a "b"; Sample.u "c"; Sample.a "d"; Sample.u "e";
                   Sample.a "f"])))
           "Hi") 3 10,
      mkNet []
        ([] ++ [EvPost
                  (last
                     (firstn
                        (Z.to_nat
                           (Z.min 2 (Z.of_nat (List.length ["t0"; "t1"; "t2"; "t3"]) - 1)))
                        ["t0"; "t1"; "t2"; "t3"]) "")
                  (mkHistory Sample.gpt
                     (firstn
                        (Z.to_nat
                           (2 * Z.min 2
                                  (Z.of_nat (List.length ["t0"; "t1"; "t2"; "t3"]) - 1)
                            - 1))
                        (Sample.u "a" ::
                         [Sample.a "b"; Sample.u "c"; Sample.a "d"; Sample.u "e";
                          Sample.a "f"])))]))).
Proof.
  apply (X24_reask_stream_from_turn 2 ["t0"; "t1"; "t2"; "t3"] Sample.gpt (Sample.u "a")
           [Sample.a "b"; Sample.u "c"; Sample.a "d"; Sample.u "e"; Sample.a "f"]
           3 10 (Sample.ok "t4" Sample.hi_body) [] [] [JStr "Hi"] "Hi").
  - vm_compute. discriminate.
  - reflexivity.
  - vm_compute. reflexivity.
  - reflexivity.
Defined.
